(** * DMS analytics dashboard: data loading, filtering and PDF report

    A shallow embedding of [dms_analytics.py] (data loader and filters) and
    [pdf_generator.py] (report builder), with the properties of the
    specification stated and settled against it.

    Python strings are sequences of Unicode code points; a data frame is a
    list of typed columns with a list of rows; exceptions are explicit
    results; the [pdf] object is the sequence of method calls made on it. *)

From Stdlib Require Import List ZArith NArith String Ascii Bool Lia.
From Stdlib Require Import DecimalString Permutation Sorted.
Import ListNotations.

Open Scope Z_scope.

(* ================================================================== *)
(** ** Python values: strings, exceptions, dates *)

Module Py.

(** A Python [str]: a sequence of Unicode code points. *)
Definition codepoint := N.
Definition pystr := list codepoint.

(** An ASCII literal of the source. *)
Definition lit (s : string) : pystr := map N_of_ascii (list_ascii_of_string s).

Definition is_ascii_char (c : codepoint) : bool := (c <? 128)%N.
Definition is_ascii (s : pystr) : bool := forallb is_ascii_char s.

(** [s.startswith(p)], used by [replace]. *)
Fixpoint starts_with (p s : pystr) : bool :=
  match p, s with
  | [], _ => true
  | _ :: _, [] => false
  | a :: p', b :: s' => (a =? b)%N && starts_with p' s'
  end.

(** [s.replace(old, new)] for a non-empty [old]: every occurrence of [old],
    scanning from the left and without overlap, becomes [new]. [skip]
    counts the characters of a match that are still to be dropped. *)
Fixpoint replace_from (old new : pystr) (skip : nat) (s : pystr) : pystr :=
  match s with
  | [] => []
  | c :: s' =>
      match skip with
      | S k => replace_from old new k s'
      | O =>
          if starts_with old s
          then new ++ replace_from old new (Nat.pred (List.length old)) s'
          else c :: replace_from old new 0 s'
      end
  end.

Definition replace (old new s : pystr) : pystr := replace_from old new 0 s.

(** [s.encode('ascii', 'ignore').decode('ascii')]: the characters that
    ASCII cannot encode are dropped. *)
Definition encode_ascii_ignore (s : pystr) : pystr := filter is_ascii_char s.

(** [sep.join(parts)] *)
Fixpoint join (sep : pystr) (parts : list pystr) : pystr :=
  match parts with
  | [] => []
  | [p] => p
  | p :: ps => p ++ sep ++ join sep ps
  end.

(** [str(n)] for an integer. *)
Definition str_of_Z (z : Z) : pystr := lit (NilZero.string_of_int (Z.to_int z)).

(** A number printed on at least [w] digits, as [%m], [%d], [%H] do. *)
Definition zero_pad (w : nat) (z : Z) : pystr :=
  let d := str_of_Z z in
  repeat 48%N (w - List.length d)%nat ++ d.

(** Exceptions the modelled code can raise. *)
Inductive exn : Type :=
| KeyError (key : string)
| IndexError
| TypeError
| ValueError
| OperationalError.

(** The outcome of a computation that may raise. *)
Inductive result (A : Type) : Type :=
| Ok (a : A)
| Raise (e : exn).
Arguments Ok {A} a.
Arguments Raise {A} e.

Definition bind {A B} (m : result A) (k : A -> result B) : result B :=
  match m with
  | Ok a => k a
  | Raise e => Raise e
  end.

Definition is_ok {A} (m : result A) : bool :=
  match m with Ok _ => true | Raise _ => false end.

(** [try: m except Exception: return None] *)
Definition try_or_none {A} (m : result A) : option A :=
  match m with Ok a => Some a | Raise _ => None end.

(** A [datetime.date] is a day number and a [pd.Timestamp] a number of
    seconds, both counted from 1970-01-01; fractions of a second are left
    out of the model. *)
Definition date := Z.
Definition timestamp := Z.

(** Year, month and day of a day number (proleptic Gregorian calendar). *)
Definition civil_of_days (d : Z) : Z * Z * Z :=
  let z := d + 719468 in
  let era := z / 146097 in
  let doe := z - era * 146097 in
  let yoe := (doe - doe / 1460 + doe / 36524 - doe / 146096) / 365 in
  let y := yoe + era * 400 in
  let doy := doe - (365 * yoe + yoe / 4 - yoe / 100) in
  let mp := (5 * doy + 2) / 153 in
  let dd := doy - (153 * mp + 2) / 5 + 1 in
  let m := if mp <? 10 then mp + 3 else mp - 9 in
  (if m <=? 2 then y + 1 else y, m, dd).

(** [d.strftime('%Y-%m-%d')], which is also [str(d)] for a date. *)
Definition strftime_ymd_days (d : Z) : pystr :=
  let '(y, m, dd) := civil_of_days d in
  zero_pad 4 y ++ lit "-" ++ zero_pad 2 m ++ lit "-" ++ zero_pad 2 dd.

Definition str_of_date (d : date) : pystr := strftime_ymd_days d.

(** [t.strftime('%Y-%m-%d')] *)
Definition strftime_ymd (t : timestamp) : pystr :=
  strftime_ymd_days (t / 86400).

(** [t.strftime('%Y-%m-%d %H:%M')] *)
Definition strftime_ymd_hm (t : timestamp) : pystr :=
  let s := t mod 86400 in
  strftime_ymd t ++ lit " " ++ zero_pad 2 (s / 3600)
    ++ lit ":" ++ zero_pad 2 ((s mod 3600) / 60).

(** [t.strftime('%Y-%m-%d %H:%M:%S')], which is also [str(t)]. *)
Definition strftime_ymd_hms (t : timestamp) : pystr :=
  strftime_ymd_hm t ++ lit ":" ++ zero_pad 2 (t mod 60).

(** [pd.to_datetime(d)] for a date: midnight of that day. *)
Definition to_datetime (d : date) : timestamp := d * 86400.

(** A [bytes] object: a sequence of numbers below 256. *)
Definition bytes := list N.

Definition is_byte (b : N) : bool := (b <? 256)%N.

(** The alphabet of [base64.b64encode] (RFC 4648) and its padding. *)
Definition b64_alphabet : pystr :=
  lit "ABCDEFGHIJKLMNOPQRSTUVWXYZabcdefghijklmnopqrstuvwxyz0123456789+/".

Definition b64_pad : codepoint := 61%N.

Definition b64_char (sextet : N) : codepoint :=
  nth (N.to_nat sextet) b64_alphabet b64_pad.

(** A character of the alphabet, or the padding. *)
Definition is_b64_char (c : codepoint) : bool :=
  existsb (N.eqb c) b64_alphabet || (c =? b64_pad)%N.

(** [base64.b64encode(bs).decode()]: three bytes give four characters, and
    the last group is padded with "=". *)
Fixpoint b64encode (bs : bytes) : pystr :=
  match bs with
  | [] => []
  | [a] =>
      let n := (a * 65536)%N in
      [ b64_char (n / 262144); b64_char ((n / 4096) mod 64);
        b64_pad; b64_pad ]%N
  | [a; b] =>
      let n := (a * 65536 + b * 256)%N in
      [ b64_char (n / 262144); b64_char ((n / 4096) mod 64);
        b64_char ((n / 64) mod 64); b64_pad ]%N
  | a :: b :: c :: rest =>
      let n := (a * 65536 + b * 256 + c)%N in
      [ b64_char (n / 262144); b64_char ((n / 4096) mod 64);
        b64_char ((n / 64) mod 64); b64_char (n mod 64) ]%N
      ++ b64encode rest
  end.

End Py.

Module PyNotations.
Notation "x <- m ;; k" := (Py.bind m (fun x => k))
  (at level 61, m at next level, right associativity).
End PyNotations.

(* ================================================================== *)
(** ** The pandas operations the program uses *)

Module Pandas.
Import Py PyNotations.

(** A cell of a data frame, or any value handed to [str()]. [VNone],
    [VNaN] and [VNaT] are the three null markers. Numbers are integers:
    floating-point cells are left out of the model. *)
Inductive value : Type :=
| VNone
| VNaN
| VNaT
| VInt (z : Z)
| VStr (s : pystr)
| VTime (t : timestamp).

Definition pystr_eqb (a b : pystr) : bool :=
  if list_eq_dec N.eq_dec a b then true else false.

Definition value_eqb (a b : value) : bool :=
  match a, b with
  | VNone, VNone | VNaN, VNaN | VNaT, VNaT => true
  | VInt x, VInt y => x =? y
  | VStr x, VStr y => pystr_eqb x y
  | VTime x, VTime y => x =? y
  | _, _ => false
  end.

(** [pd.isna(v)] *)
Definition is_null (v : value) : bool :=
  match v with
  | VNone | VNaN | VNaT => true
  | _ => false
  end.

(** [isinstance(v, str)] *)
Definition is_str (v : value) : bool :=
  match v with VStr _ => true | _ => false end.

(** [str(v)] *)
Definition py_str (v : value) : pystr :=
  match v with
  | VNone => lit "None"
  | VNaN => lit "nan"
  | VNaT => lit "NaT"
  | VInt z => str_of_Z z
  | VStr s => s
  | VTime t => strftime_ymd_hms t
  end.

(** The kinds of column pandas distinguishes in the operations below. *)
Inductive dtype : Type :=
| DNumeric
| DDatetime
| DObject.

Definition dtype_eqb (a b : dtype) : bool :=
  match a, b with
  | DNumeric, DNumeric | DDatetime, DDatetime | DObject, DObject => true
  | _, _ => false
  end.

(** The values a column of a given dtype holds. A numeric column is a
    column of integers; with a [NaN] in it pandas holds it as float64 and
    writes its whole numbers as [3.0], which the model, having no floats,
    writes as [3]: the texts of the cells of such a column are outside the
    model. *)
Definition has_dtype (d : dtype) (v : value) : bool :=
  match d, v with
  | DNumeric, (VInt _ | VNaN) => true
  | DDatetime, (VTime _ | VNaT) => true
  | DObject, _ => true
  | _, _ => false
  end.

Definition row := list value.

Record DataFrame : Type := {
  columns : list (string * dtype);
  rows : list row
}.

(** [pd.DataFrame()] *)
Definition empty_frame : DataFrame := {| columns := []; rows := [] |}.

(** [len(df)] *)
Definition len (df : DataFrame) : nat := List.length (rows df).

(** [df.empty]: no rows or no columns. *)
Definition empty (df : DataFrame) : bool :=
  (len df =? 0)%nat || (List.length (columns df) =? 0)%nat.

Fixpoint index_of (c : string) (cols : list (string * dtype)) : option nat :=
  match cols with
  | [] => None
  | (n, _) :: cols' =>
      if String.eqb c n then Some O
      else option_map S (index_of c cols')
  end.

Fixpoint dtype_of (c : string) (cols : list (string * dtype)) : option dtype :=
  match cols with
  | [] => None
  | (n, d) :: cols' => if String.eqb c n then Some d else dtype_of c cols'
  end.

(** [c in df.columns] *)
Definition has_column (c : string) (df : DataFrame) : bool :=
  match index_of c (columns df) with Some _ => true | None => false end.

(** [r.get(c, default)] for a row [r] of [df]. *)
Definition row_get (df : DataFrame) (r : row) (c : string) (default : value)
  : value :=
  match index_of c (columns df) with
  | Some i => nth i r VNone
  | None => default
  end.

(** [df[c]] under a test [c in df.columns]. *)
Definition column (df : DataFrame) (c : string) : list value :=
  map (fun r => row_get df r c VNone) (rows df).

(** [df[c]], which raises [KeyError] for an unknown column. *)
Definition get_column (df : DataFrame) (c : string) : result (list value) :=
  if has_column c df then Ok (column df c) else Raise (KeyError c).

(** [df[mask]] and [df.loc[mask]] for a boolean mask computed row by row. *)
Definition select (df : DataFrame) (mask : row -> bool) : DataFrame :=
  {| columns := columns df; rows := filter mask (rows df) |}.

(** Every row has one cell per column, of the column's dtype. *)
Definition row_well_typed (cols : list (string * dtype)) (r : row) : bool :=
  (List.length r =? List.length cols)%nat
  && forallb (fun p => has_dtype (snd (fst p)) (snd p)) (combine cols r).

Definition well_typed (df : DataFrame) : bool :=
  forallb (row_well_typed (columns df)) (rows df).

(** [s.isin(values)] on one cell. *)
Definition isin (values : list value) (v : value) : bool :=
  existsb (value_eqb v) values.

(** [s == text] on one cell. *)
Definition eq_str (text : pystr) (v : value) : bool := value_eqb v (VStr text).

(** One cell of [s >= t] ([ge = true]) or [s <= t] ([ge = false]) for a
    Timestamp [t]: nulls compare false, numbers and strings do not compare. *)
Definition cmp_timestamp (ge : bool) (t : timestamp) (v : value)
  : result bool :=
  match v with
  | VTime u => Ok (if ge then t <=? u else u <=? t)
  | VNone | VNaN | VNaT => Ok false
  | VInt _ | VStr _ => Raise TypeError
  end.

Fixpoint map_result {A B} (f : A -> result B) (l : list A) : result (list B) :=
  match l with
  | [] => Ok []
  | a :: l' =>
      b <- f a ;;
      bs <- map_result f l' ;;
      Ok (b :: bs)
  end.

(** [df[c] >= t] or [df[c] <= t] as a whole: a numeric column does not
    compare with a Timestamp at all. *)
Definition compare_column (ge : bool) (df : DataFrame) (c : string)
    (t : timestamp) : result (list bool) :=
  match dtype_of c (columns df) with
  | None => Raise (KeyError c)
  | Some DNumeric => Raise TypeError
  | Some _ => map_result (cmp_timestamp ge t) (column df c)
  end.

(** [df.loc[mask]] for a mask given as a list, one entry per row. *)
Fixpoint loc_rows (rs : list row) (mask : list bool) : list row :=
  match rs, mask with
  | r :: rs', b :: mask' =>
      if b then r :: loc_rows rs' mask' else loc_rows rs' mask'
  | _, _ => []
  end.

Definition loc (df : DataFrame) (mask : list bool) : DataFrame :=
  {| columns := columns df; rows := loc_rows (rows df) mask |}.

(** [m1 & m2] *)
Fixpoint mask_and (m1 m2 : list bool) : list bool :=
  match m1, m2 with
  | a :: m1', b :: m2' => (a && b) :: mask_and m1' m2'
  | _, _ => []
  end.

(** [df[cols]] for a list of column names: the columns in the order
    asked for, every row kept; an unknown name raises [KeyError]. *)
Definition getitem_columns (df : DataFrame) (cols : list string)
  : result DataFrame :=
  match find (fun c => negb (has_column c df)) cols with
  | Some c => Raise (KeyError c)
  | None =>
      Ok {| columns :=
              map (fun c => (c, match dtype_of c (columns df) with
                                | Some d => d
                                | None => DObject
                                end)) cols;
            rows := map (fun r => map (fun c => row_get df r c VNone) cols)
                        (rows df) |}
  end.

(** *** [value_counts] *)

Fixpoint count_add (v : value) (acc : list (value * nat))
  : list (value * nat) :=
  match acc with
  | [] => [(v, 1%nat)]
  | (w, n) :: acc' =>
      if value_eqb v w then (w, S n) :: acc' else (w, n) :: count_add v acc'
  end.

(** Occurrences of each non-null value, in order of first occurrence. *)
Definition tally (l : list value) : list (value * nat) :=
  fold_left (fun acc v => if is_null v then acc else count_add v acc) l [].

Fixpoint insert_by_count (x : value * nat) (sorted : list (value * nat))
  : list (value * nat) :=
  match sorted with
  | [] => [x]
  | y :: ys =>
      if (snd y <=? snd x)%nat then x :: y :: ys
      else y :: insert_by_count x ys
  end.

(** Most frequent first; equal counts keep their order. *)
Definition sort_by_count (l : list (value * nat)) : list (value * nat) :=
  fold_right insert_by_count [] l.

(** [s.value_counts()]: nulls are not counted ([dropna=True]). *)
Definition value_counts (s : list value) : list (value * nat) :=
  sort_by_count (tally s).

(** How often [v] occurs in a column. *)
Definition occurrences (v : value) (s : list value) : nat :=
  List.length (filter (value_eqb v) s).

(** The count a tally holds for [v], 0 when it has none. *)
Fixpoint counted (v : value) (acc : list (value * nat)) : nat :=
  match acc with
  | [] => 0%nat
  | (w, n) :: acc' => if value_eqb v w then n else counted v acc'
  end.

(** What holds of a tally at every step: its keys are distinct and not
    null, and its counts are positive. *)
Definition tally_ok (acc : list (value * nat)) : Prop :=
  NoDup (map fst acc)
  /\ Forall (fun e => is_null (fst e) = false /\ (0 < snd e)%nat) acc.

(** Counts in descending order. *)
Definition count_ge (a b : value * nat) : Prop := (snd b <= snd a)%nat.

(** [counts.sum()] for a [value_counts()] result. *)
Definition count_total (counts : list (value * nat)) : nat :=
  fold_right (fun vc acc => (snd vc + acc)%nat) 0%nat counts.

(** *** [nlargest] *)

(** The number a cell is ordered by; a null has none. *)
Definition sort_key (v : value) : option Z :=
  match v with
  | VInt z | VTime z => Some z
  | _ => None
  end.

(** [a >= b] on keys, a null being below every number. *)
Definition key_geb (a b : option Z) : bool :=
  match a, b with
  | _, None => true
  | None, Some _ => false
  | Some x, Some y => y <=? x
  end.

(** In descending order of key, [a] may stand before [b]. *)
Definition precedes (key : row -> option Z) (a b : row) : Prop :=
  key_geb (key a) (key b) = true.

Fixpoint insert_desc (key : row -> option Z) (r : row) (sorted : list row)
  : list row :=
  match sorted with
  | [] => [r]
  | y :: ys =>
      if key_geb (key r) (key y) then r :: y :: ys
      else y :: insert_desc key r ys
  end.

(** Largest key first, nulls last; equal keys keep their order. *)
Definition sort_desc (key : row -> option Z) (rs : list row) : list row :=
  fold_right (insert_desc key) [] rs.

(** [df.nlargest(n, c)]: the [n] rows with the largest values of column
    [c], largest first. An object column is refused. *)
Definition nlargest (n : nat) (c : string) (df : DataFrame)
  : result DataFrame :=
  match dtype_of c (columns df) with
  | None => Raise (KeyError c)
  | Some DObject => Raise TypeError
  | Some _ =>
      Ok {| columns := columns df;
            rows := firstn n
                      (sort_desc (fun r => sort_key (row_get df r c VNone))
                                 (rows df)) |}
  end.

(** *** [merge(how='left')] *)

(** Keys match when equal; null keys match each other. *)
Definition key_match (a b : value) : bool :=
  (is_null a && is_null b) || value_eqb a b.

(** The value filling the cells of an unmatched row. *)
Definition fill_value (d : dtype) : value :=
  match d with DDatetime => VNaT | _ => VNaN end.

Definition column_names (cols : list (string * dtype)) : list string :=
  map fst cols.

Definition name_in (c : string) (names : list string) : bool :=
  existsb (String.eqb c) names.

(** A column name of one side gets the suffix when the other side has a
    column of that name too, the shared key apart. *)
Definition suffixed (others : list string) (shared_key : option string)
    (suffix : string) (col : string * dtype) : string * dtype :=
  let c := fst col in
  let is_key := match shared_key with
                | Some k => String.eqb c k
                | None => false
                end in
  if name_in c others && negb is_key then ((c ++ suffix)%string, snd col)
  else col.

(** Cells of a row except the one at position [i]. *)
Fixpoint remove_nth {A} (i : nat) (l : list A) : list A :=
  match l, i with
  | [], _ => []
  | _ :: l', O => l'
  | a :: l', S i' => a :: remove_nth i' l'
  end.

(** [isinstance(v, int)] *)
Definition is_int (v : value) : bool :=
  match v with VInt _ => true | _ => false end.

Definition is_none (v : value) : bool :=
  match v with VNone => true | _ => false end.

(** A [Timestamp] or [NaT]. *)
Definition is_datetimelike (v : value) : bool :=
  match v with VTime _ | VNaT => true | _ => false end.

(** What [lib.infer_dtype(keys, skipna=False)] finds in the keys of an
    object column, as far as the merge asks: "string" or "mixed", the kinds
    that do not merge with numbers. One integer among the keys makes them
    "integer" or "mixed-integer"; without an integer, one string makes them
    "string" or "mixed"; and keys that are all null are "mixed" when a
    [None] is among them and no [NaT]. *)
Definition string_like_keys (keys : list value) : bool :=
  negb (existsb is_int keys)
  && (existsb is_str keys
      || (existsb is_none keys && negb (existsb is_datetimelike keys))).

Definition no_keys (keys : list value) : bool :=
  match keys with [] => true | _ => false end.

(** The check of the keys before a merge ([_maybe_coerce_merge_keys]).
    Nothing is checked when exactly one side has no rows. Otherwise keys of
    one dtype merge, a datetime column merges with a datetime column only,
    and an object column merges with a numeric one unless its keys are
    strings or "mixed". *)
Definition keys_refused (dl : dtype) (lkeys : list value)
    (dr : dtype) (rkeys : list value) : bool :=
  if xorb (no_keys lkeys) (no_keys rkeys) then false
  else match dl, dr with
       | DObject, DNumeric => string_like_keys lkeys
       | DNumeric, DObject => string_like_keys rkeys
       | _, _ => negb (dtype_eqb dl dr)
       end.

(** The merge raises [ValueError] on its keys. *)
Definition merge_refused (left right : DataFrame) (lk rk : string) : bool :=
  match dtype_of lk (columns left), dtype_of rk (columns right) with
  | Some dl, Some dr => keys_refused dl (column left lk) dr (column right rk)
  | _, _ => true
  end.

(** [left.merge(right, left_on=lk, right_on=rk, how='left', suffixes=...)]:
    every left row, once per matching right row and in the order of the
    left frame, or once with nulls when nothing matches. A key named the
    same on both sides appears once. Keys that [keys_refused] refuses raise
    [ValueError]. *)
Definition merge_left (left right : DataFrame) (lk rk : string)
    (suffixes : string * string) : result DataFrame :=
  match index_of lk (columns left), index_of rk (columns right) with
  | None, _ => Raise (KeyError lk)
  | _, None => Raise (KeyError rk)
  | Some li, Some ri =>
      if merge_refused left right lk rk then Raise ValueError else
      let same := String.eqb lk rk in
      let shared := if same then Some lk else None in
      let lnames := column_names (columns left) in
      let rnames := column_names (columns right) in
      let drop {A} (l : list A) := if same then remove_nth ri l else l in
      let lcols := map (suffixed rnames shared (fst suffixes)) (columns left) in
      let rcols := map (suffixed lnames shared (snd suffixes))
                       (drop (columns right)) in
      let nulls := map (fun c => fill_value (snd c)) (drop (columns right)) in
      let joined (l : row) :=
        match filter (fun r => key_match (nth li l VNone) (nth ri r VNone))
                     (rows right) with
        | [] => [l ++ nulls]
        | ms => map (fun r => l ++ drop r) ms
        end in
      Ok {| columns := lcols ++ rcols; rows := flat_map joined (rows left) |}
  end.

(** The rows of [right] whose key [rk] matches the key value [v]. *)
Definition matching_rows (right : DataFrame) (rk : string) (v : value)
  : list row :=
  filter (fun r => key_match v (row_get right r rk VNone)) (rows right).

(** No key value is matched by two rows of [right]. *)
Definition unique_key (right : DataFrame) (rk : string) : Prop :=
  forall v, (List.length (matching_rows right rk v) <= 1)%nat.

End Pandas.

(* ================================================================== *)
(** ** pdf_generator.py *)

Module PdfGenerator.
Import Py Pandas PyNotations.

(** The operations of the FPDF base class that reach the document. *)
Inductive fpdf_op : Type :=
| FNewPage
| FSetFont (family style : string) (size : Z)
| FSetFillColor (r g b : Z)
| FSetY (y : Z)
| FSetAutoPageBreak (auto : bool) (margin : Z)
| FCell (w h : Z) (txt : pystr) (border ln : Z) (align : string) (fill : bool)
| FLn (h : option Z).

(** The method calls [create_pdf_report] makes on its [pdf] object. The
    object is modelled by the sequence of these calls. *)
Inductive call : Type :=
| add_page
| set_auto_page_break (auto : bool) (margin : Z)
| set_font (family style : string) (size : Z)
| cell (w h : Z) (txt : pystr) (border ln : Z)
| ln (h : Z)
| chapter_title (title : pystr)
| add_metric_card (title : pystr) (v : value)
| add_table_header (headers : list pystr) (col_widths : list Z)
| add_table_row (data : list value) (col_widths : list Z).

Definition pdf := list call.

(** The six mis-encoded sequences [safe_text] knows, as they stand in the
    source file. *)
Definition bullet_seq : pystr := [0xE2; 0x20AC; 0xA2]%N.
Definition check_seq : pystr := [0xE2; 0x153; 0x2026]%N.
Definition cross_seq : pystr := [0xE2; 0x152]%N.
Definition chart_seq : pystr := [0xF0; 0x178; 0x201C; 0x160]%N.
Definition doc_seq : pystr := [0xF0; 0x178; 0x201C; 0x201E]%N.
Definition refresh_seq : pystr := [0xF0; 0x178; 0x201D; 0x201E]%N.

(** The body of [safe_text] under [isinstance(text, str)]. *)
Definition sanitize (text : pystr) : pystr :=
  let text := replace bullet_seq (lit "-") text in
  let text := replace check_seq (lit "[OK]") text in
  let text := replace cross_seq (lit "[ERROR]") text in
  let text := replace chart_seq (lit "[CHART]") text in
  let text := replace doc_seq (lit "[DOC]") text in
  let text := replace refresh_seq (lit "[REFRESH]") text in
  encode_ascii_ignore text.

(** [CustomPDF.safe_text] *)
Definition safe_text (text : value) : pystr :=
  let text := match text with
              | VStr s => VStr (sanitize s)
              | _ => text
              end in
  py_str text.

(** [CustomPDF.header], run by FPDF at the top of every page. *)
Definition header : list fpdf_op :=
  [ FSetFont "Arial" "B" 20;
    FCell 0 10 (lit "DMS ANALYTICS REPORT") 0 1 "C" false;
    FSetFont "Arial" "I" 12;
    FCell 0 10 (lit "Comprehensive Document Management System Analysis")
          0 1 "C" false;
    FLn (Some 10) ].

(** [CustomPDF.footer], run by FPDF when page [page_no] is closed. *)
Definition footer (page_no : nat) : list fpdf_op :=
  [ FSetY (-15);
    FSetFont "Arial" "I" 8;
    FCell 0 10 (lit "Page " ++ str_of_Z (Z.of_nat page_no)) 0 0 "C" false ].

(** [FPDF.add_page]: closes the current page, if there is one, with its
    footer, and opens the next one with the header. *)
Definition run_add_page (page_no : nat) : list fpdf_op :=
  (if (page_no =? 0)%nat then [] else footer page_no) ++ FNewPage :: header.

(** [CustomPDF.chapter_title] *)
Definition run_chapter_title (title : pystr) : list fpdf_op :=
  [ FSetFont "Arial" "B" 16;
    FSetFillColor 200 220 255;
    FCell 0 10 title 0 1 "L" true;
    FLn (Some 4) ].

(** [CustomPDF.add_metric_card], with the default width and height. *)
Definition run_add_metric_card (title : pystr) (v : value) : list fpdf_op :=
  let safe_title := safe_text (VStr title) in
  let safe_value := safe_text v in
  [ FSetFillColor 240 240 240;
    FCell 45 20 (safe_title ++ lit ": " ++ safe_value) 1 0 "C" true ].

Fixpoint enumerate_from {A} (i : nat) (l : list A) : list (nat * A) :=
  match l with
  | [] => []
  | a :: l' => (i, a) :: enumerate_from (S i) l'
  end.

(** [CustomPDF.add_table_header]; the callers pass as many widths as
    headers, so [col_widths[i]] is always there. *)
Definition run_add_table_header (headers : list pystr) (col_widths : list Z)
  : list fpdf_op :=
  FSetFont "Arial" "B" 10
  :: FSetFillColor 200 200 200
  :: map (fun ih => FCell (nth (fst ih) col_widths 0) 10
                          (safe_text (VStr (snd ih))) 1 0 "C" true)
         (enumerate_from 0 headers)
  ++ [FLn None].

(** [CustomPDF.add_table_row] *)
Definition run_add_table_row (data : list value) (col_widths : list Z)
  : list fpdf_op :=
  FSetFont "Arial" "" 10
  :: map (fun ic => FCell (nth (fst ic) col_widths 0) 8
                          (safe_text (snd ic)) 1 0 "L" false)
         (enumerate_from 0 data)
  ++ [FLn None].

(** What one call does, on page [page_no]; the second component is the
    page number afterwards. *)
Definition run (page_no : nat) (c : call) : list fpdf_op * nat :=
  match c with
  | add_page => (run_add_page page_no, S page_no)
  | set_auto_page_break auto margin =>
      ([FSetAutoPageBreak auto margin], page_no)
  | set_font family style size => ([FSetFont family style size], page_no)
  | cell w h txt border l => ([FCell w h txt border l "" false], page_no)
  | ln h => ([FLn (Some h)], page_no)
  | chapter_title title => (run_chapter_title title, page_no)
  | add_metric_card title v => (run_add_metric_card title v, page_no)
  | add_table_header headers col_widths =>
      (run_add_table_header headers col_widths, page_no)
  | add_table_row data col_widths =>
      (run_add_table_row data col_widths, page_no)
  end.

Fixpoint run_all (page_no : nat) (calls : pdf) : list fpdf_op :=
  match calls with
  | [] => if (page_no =? 0)%nat then [] else footer page_no
  | c :: calls' =>
      let '(ops, page_no') := run page_no c in
      ops ++ run_all page_no' calls'
  end.

(** The operations of a finished report in order, the last footer
    included. Page breaks that FPDF inserts by itself when a page is full
    depend on font metrics and are left out; they only add the header and
    the footer again. *)
Definition operations (p : pdf) : list fpdf_op := run_all 0 p.

(** Every text handed to [FPDF.cell]. *)
Definition texts (ops : list fpdf_op) : list pystr :=
  flat_map (fun op => match op with
                      | FCell _ _ txt _ _ _ _ => [txt]
                      | _ => []
                      end) ops.

(** The [data] mapping returned by [load_data]. *)
Definition dict := list (string * DataFrame).

(** [data[k]] under a test [k in data], as an option. *)
Fixpoint dict_get (k : string) (d : dict) : option DataFrame :=
  match d with
  | [] => None
  | (k', v) :: d' => if String.eqb k k' then Some v else dict_get k d'
  end.

(** [xs[i]] *)
Definition getitem {A} (xs : list A) (i : nat) : result A :=
  match nth_error xs i with
  | Some x => Ok x
  | None => Raise IndexError
  end.

(** [', '.join(xs)], which refuses an item that is not a string. *)
Definition join_values (sep : pystr) (xs : list value) : result pystr :=
  parts <- map_result (fun v => match v with
                                | VStr s => Ok s
                                | _ => Raise TypeError
                                end) xs ;;
  Ok (join sep parts).

(** Lines 105-111: the metadata block. *)
Definition report_metadata (now : timestamp) (date_range : list date)
    (department_filter doc_type_filter : list value) : result pdf :=
  let l1 := cell 0 8 (lit "Report Generated: " ++ strftime_ymd_hms now) 0 1 in
  d0 <- getitem date_range 0 ;;
  d1 <- getitem date_range 1 ;;
  let l2 := cell 0 8 (lit "Date Range: " ++ str_of_date d0 ++ lit " to "
                        ++ str_of_date d1) 0 1 in
  depts <- match department_filter with
           | [] => Ok (lit "All Departments")
           | _ => join_values (lit ", ") department_filter
           end ;;
  let l3 := cell 0 8 (lit "Departments: " ++ depts) 0 1 in
  types <- match doc_type_filter with
           | [] => Ok (lit "All Types")
           | _ => join_values (lit ", ") doc_type_filter
           end ;;
  let l4 := cell 0 8 (lit "Document Types: " ++ types) 0 1 in
  Ok [set_font "Arial" "" 10; l1; l2; l3; l4; ln 10].

(** Lines 117-120: the four key metrics. *)
Definition total_docs (data : dict) : nat :=
  match dict_get "documents" data with
  | Some documents => len documents
  | None => 0%nat
  end.

Definition total_users (data : dict) : nat :=
  match dict_get "users" data with
  | Some users => len users
  | None => 0%nat
  end.

Definition active_docs (data : dict) : nat :=
  match dict_get "documents" data with
  | Some documents =>
      if has_column "status" documents
      then len (select documents
                  (fun r => eq_str (lit "active")
                              (row_get documents r "status" VNone)))
      else 0%nat
  | None => 0%nat
  end.

Definition total_announcements (data : dict) : nat :=
  match dict_get "announcements" data with
  | Some announcements => len announcements
  | None => 0%nat
  end.

Definition VCount (n : nat) : value := VInt (Z.of_nat n).

(** Lines 113-129: the executive summary. *)
Definition executive_summary (data : dict) : pdf :=
  [ chapter_title (lit "EXECUTIVE SUMMARY");
    set_font "Arial" "B" 12;
    add_metric_card (lit "Total Documents") (VCount (total_docs data));
    add_metric_card (lit "Total Users") (VCount (total_users data));
    ln 12;
    add_metric_card (lit "Active Documents") (VCount (active_docs data));
    add_metric_card (lit "Announcements") (VCount (total_announcements data));
    ln 15 ].

(** One line per group of a [value_counts()] result, as the four loops
    over [.items()] write it: ["- {safe}: {count} {unit}"]. *)
Definition count_lines (unit : string) (counts : list (value * nat)) : pdf :=
  map (fun vc => cell 0 8 (lit "- " ++ safe_text (fst vc) ++ lit ": "
                             ++ str_of_Z (Z.of_nat (snd vc))
                             ++ lit " " ++ lit unit) 0 1)
      counts.

(** A titled breakdown of column [c], written when the column exists. *)
Definition breakdown (df : DataFrame) (c : string) (heading unit : string)
  : pdf :=
  if has_column c df
  then [set_font "Arial" "B" 12; cell 0 10 (lit heading) 0 1;
        set_font "Arial" "" 10]
       ++ count_lines unit (value_counts (column df c))
       ++ [ln 5]
  else [].

(** Lines 131-161: document analysis, on the filtered documents. *)
Definition document_analysis (filtered_docs : DataFrame) : pdf :=
  chapter_title (lit "DOCUMENT ANALYSIS")
  :: (if negb (empty filtered_docs)
      then breakdown filtered_docs "name" "Documents by Type:" "documents"
           ++ breakdown filtered_docs "status" "Documents by Status:"
                        "documents"
      else [cell 0 8 (lit "No document data available for selected filters")
                 0 1])
  ++ [ln 10].

(** Lines 163-193: user analysis, on the users of [data]. *)
Definition user_analysis (data : dict) : pdf :=
  chapter_title (lit "USER ANALYSIS")
  :: (match dict_get "users" data with
      | Some users =>
          if negb (empty users)
          then breakdown users "role" "Users by Role:" "users"
               ++ breakdown users "status" "Users by Status:" "users"
          else [cell 0 8 (lit "No user data available") 0 1]
      | None => [cell 0 8 (lit "No user data available") 0 1]
      end)
  ++ [ln 10].

Definition NA : value := VStr (lit "N/A").

(** [created_at.strftime(fmt)] when [created_at] is a Timestamp, the value
    itself otherwise. *)
Definition format_created (fmt : timestamp -> pystr) (created_at : value)
  : value :=
  match created_at with
  | VTime t => VStr (fmt t)
  | _ => created_at
  end.

(** [safe_text(title)[:n] + "..." if len(str(title)) > n
     else safe_text(title)] *)
Definition truncate_title (n : nat) (title : value) : pystr :=
  if (n <? List.length (py_str title))%nat
  then firstn n (safe_text title) ++ lit "..."
  else safe_text title.

(** Lines 206-222: the three calls for one recent document. *)
Definition recent_entry (df : DataFrame) (r : row) : pdf :=
  let title := row_get df r "title" NA in
  let doc_type := row_get df r "name" NA in
  let status := row_get df r "status" NA in
  let created_at :=
    format_created strftime_ymd_hm (row_get df r "created_at" NA) in
  let safe_title := truncate_title 50 title in
  let safe_doc_type := safe_text doc_type in
  let safe_status := safe_text status in
  [ cell 0 8 (lit "- " ++ safe_title) 0 1;
    cell 0 8 (lit "  Type: " ++ safe_doc_type ++ lit " | Status: "
                ++ safe_status ++ lit " | Created: " ++ py_str created_at)
         0 1;
    ln 2 ].

(** Line 204: [filtered_docs.nlargest(5, 'created_at')] *)
Definition recent_docs (filtered_docs : DataFrame) : result DataFrame :=
  nlargest 5 "created_at" filtered_docs.

(** Lines 195-226: recent activity. *)
Definition recent_activity (filtered_docs : DataFrame) : result pdf :=
  body <- (if negb (empty filtered_docs)
              && has_column "created_at" filtered_docs
           then
             recent <- recent_docs filtered_docs ;;
             Ok ([set_font "Arial" "B" 12;
                  cell 0 10 (lit "Recent Documents:") 0 1;
                  set_font "Arial" "" 10]
                 ++ flat_map (recent_entry recent) (rows recent))
           else Ok [cell 0 8 (lit "No recent activity data available") 0 1]) ;;
  Ok (chapter_title (lit "RECENT ACTIVITY") :: body ++ [ln 10]).

Definition detail_headers : list pystr :=
  [lit "ID"; lit "Title"; lit "Type"; lit "Status"; lit "Created"].
Definition detail_col_widths : list Z := [15; 70; 40; 30; 35].

(** Lines 241-255: the cells handed to [add_table_row] for one document. *)
Definition detail_cells (df : DataFrame) (r : row) : list value :=
  let doc_id := row_get df r "doc_id" NA in
  let title := VStr (py_str (row_get df r "title" NA)) in
  let doc_type := row_get df r "name" NA in
  let status := row_get df r "status" NA in
  let created_at :=
    format_created strftime_ymd (row_get df r "created_at" NA) in
  let safe_title := truncate_title 40 title in
  let safe_doc_type := safe_text doc_type in
  let safe_status := safe_text status in
  [doc_id; VStr safe_title; VStr safe_doc_type; VStr safe_status; created_at].

(** Lines 228-255: the detailed document list. *)
Definition detailed_document_list (filtered_docs : DataFrame) : pdf :=
  if negb (empty filtered_docs) && (len filtered_docs <=? 20)%nat
  then add_page
       :: chapter_title (lit "DETAILED DOCUMENT LIST")
       :: add_table_header detail_headers detail_col_widths
       :: map (fun r => add_table_row (detail_cells filtered_docs r)
                                      detail_col_widths)
              (rows filtered_docs)
  else [].

(** [create_pdf_report]; [now] is the reading of [datetime.now()]. *)
Definition create_pdf_report (now : timestamp) (data : dict)
    (filtered_docs : DataFrame) (date_range : list date)
    (department_filter doc_type_filter : list value) : result pdf :=
  let init := [add_page] in
  let setup := [add_page; set_auto_page_break true 15] in
  metadata <- report_metadata now date_range department_filter
                              doc_type_filter ;;
  let summary := executive_summary data in
  let documents := document_analysis filtered_docs in
  let users := user_analysis data in
  recent <- recent_activity filtered_docs ;;
  let detailed := detailed_document_list filtered_docs in
  Ok (init ++ setup ++ metadata ++ summary ++ documents ++ users
      ++ recent ++ detailed).

(** *** Reading a report back *)

(** The metric cards of a report, in order. *)
Definition metric_cards (p : pdf) : list (pystr * value) :=
  flat_map (fun c => match c with
                     | add_metric_card title v => [(title, v)]
                     | _ => []
                     end) p.

(** The table headers of a report. *)
Definition table_headers (p : pdf) : list (list pystr) :=
  flat_map (fun c => match c with
                     | add_table_header headers _ => [headers]
                     | _ => []
                     end) p.

(** The data rows of the table of a report, in order. *)
Definition table_rows (p : pdf) : list (list value) :=
  flat_map (fun c => match c with
                     | add_table_row data _ => [data]
                     | _ => []
                     end) p.

(** A value whose text, when it is a string, is ASCII. *)
Definition ascii_value (v : value) : bool :=
  match v with
  | VStr s => is_ascii s
  | _ => true
  end.

(** A call whose own text argument, if it has one that is written as it
    is, is ASCII; the other calls sanitize what they are given. *)
Definition ascii_call (c : call) : bool :=
  match c with
  | cell _ _ txt _ _ => is_ascii txt
  | chapter_title title => is_ascii title
  | _ => true
  end.

(** The key [nlargest] orders a document by. *)
Definition created_key (df : DataFrame) (r : row) : option Z :=
  sort_key (row_get df r "created_at" VNone).

(** The recent documents a section lists: each of them ends with
    [pdf.ln(2)], which nothing else in the report calls. *)
Definition recent_count (p : pdf) : nat :=
  List.length (filter (fun c => match c with
                                | ln h => h =? 2
                                | _ => false
                                end) p).

(** The chapter titles of a report, in order. *)
Definition chapter_titles (p : pdf) : list pystr :=
  flat_map (fun c => match c with
                     | chapter_title title => [title]
                     | _ => []
                     end) p.

(** As many widths as cells in every call that writes a table line, so
    that [col_widths[i]] is there for every cell. *)
Definition widths_match (c : call) : bool :=
  match c with
  | add_table_header headers col_widths =>
      (List.length headers =? List.length col_widths)%nat
  | add_table_row data col_widths =>
      (List.length data =? List.length col_widths)%nat
  | _ => true
  end.

(** The double quote of the HTML attributes. *)
Definition dquote : pystr := [34%N].

(** [create_download_link] *)
Definition create_download_link (pdf_output : bytes) (filename : pystr)
  : pystr :=
  let b64 := b64encode pdf_output in
  lit "<a href=" ++ dquote ++ lit "data:application/octet-stream;base64,"
    ++ b64 ++ dquote ++ lit " download=" ++ dquote ++ filename ++ dquote
    ++ lit ">Download PDF Report</a>".

(** Calls that write the table, and calls that write a metric card. *)
Definition is_table_call (c : call) : bool :=
  match c with
  | add_table_header _ _ | add_table_row _ _ => true
  | _ => false
  end.

Definition is_metric_call (c : call) : bool :=
  match c with
  | add_metric_card _ _ => true
  | _ => false
  end.

(** A call that writes neither. *)
Definition plain (c : call) : bool :=
  negb (is_table_call c) && negb (is_metric_call c).

(** The detailed table is in the report. *)
Definition has_detailed_table (p : pdf) : bool :=
  existsb (fun c => match c with
                    | add_table_header _ _ => true
                    | _ => false
                    end) p.

End PdfGenerator.

(* ================================================================== *)
(** ** dms_analytics.py *)

Module DmsAnalytics.
Import Py Pandas PyNotations PdfGenerator.

(** *** The data loader *)

Section Loader.

(** The database driver: what [create_engine] and [pd.read_sql] answer. *)
Variable engine : Type.
Variable create_engine : string -> result engine.
Variable read_sql : string -> engine -> result DataFrame.

Definition db_url : string :=
  "mysql+mysqlconnector://root:@127.0.0.1:3306/ispsc_tagudin_dms_db".

(** [init_connection]: the engine, or [None] after any exception. *)
Definition init_connection : option engine :=
  try_or_none (create_engine db_url).

(** The body of the [try] of [load_data], lines 53-78. *)
Definition load_tables (engine : engine) : result dict :=
  users_df <- read_sql "SELECT * FROM dms_user" engine ;;
  documents_df <- read_sql "SELECT * FROM dms_documents" engine ;;
  document_types_df <- read_sql "SELECT * FROM document_types" engine ;;
  departments_df <- read_sql "SELECT * FROM departments" engine ;;
  announcements_df <- read_sql "SELECT * FROM announcements" engine ;;
  notifications_df <- read_sql "SELECT * FROM notifications" engine ;;
  doc_versions_df <- read_sql "SELECT * FROM dms_document_versions" engine ;;
  doc_depts_df <- read_sql "SELECT * FROM document_departments" engine ;;
  documents_df <- merge_left documents_df document_types_df
                             "doc_type" "type_id" ("_x"%string, "_y"%string) ;;
  users_df <- merge_left users_df departments_df
                         "department_id" "department_id"
                         ("_user"%string, "_dept"%string) ;;
  Ok [ ("users", users_df);
       ("documents", documents_df);
       ("announcements", announcements_df);
       ("notifications", notifications_df);
       ("doc_versions", doc_versions_df);
       ("doc_depts", doc_depts_df);
       ("departments", departments_df);
       ("document_types", document_types_df) ]%string.

(** [load_data]: the mapping of the eight tables, or [None]. *)
Definition load_data : option dict :=
  match init_connection with
  | None => None
  | Some engine => try_or_none (load_tables engine)
  end.

End Loader.

(** The eight queries of [load_data], in the order they are sent. *)
Definition queries : list string :=
  [ "SELECT * FROM dms_user"; "SELECT * FROM dms_documents";
    "SELECT * FROM document_types"; "SELECT * FROM departments";
    "SELECT * FROM announcements"; "SELECT * FROM notifications";
    "SELECT * FROM dms_document_versions";
    "SELECT * FROM document_departments" ]%string.

(** The keys of the mapping [load_data] returns. *)
Definition table_names : list string :=
  ["users"; "documents"; "announcements"; "notifications"; "doc_versions";
   "doc_depts"; "departments"; "document_types"]%string.

(** *** The filters *)

(** [filter_data], with the [date_range] it reads from the sidebar. *)
Definition filter_data (date_range : list date) (df : DataFrame)
    (date_col : string) : result DataFrame :=
  if (List.length date_range =? 2)%nat && has_column date_col df
  then
    d0 <- getitem date_range 0 ;;
    d1 <- getitem date_range 1 ;;
    ge <- compare_column true df date_col (to_datetime d0) ;;
    le <- compare_column false df date_col (to_datetime d1) ;;
    Ok (loc df (mask_and ge le))
  else Ok df.



(** [t.date()]: the day a timestamp falls on. *)
Definition date_of (t : timestamp) : date := t / 86400.


(** The mask of [filter_data] read on one row, when the comparisons go
    through: the cell is not before [start] and not after [stop]. *)
Definition date_mask (df : DataFrame) (date_col : string)
    (start stop : timestamp) (r : row) : bool :=
  match cmp_timestamp true start (row_get df r date_col VNone) with
  | Ok b => b
  | Raise _ => false
  end
  && match cmp_timestamp false stop (row_get df r date_col VNone) with
     | Ok b => b
     | Raise _ => false
     end.

(** [filter_data(data[k], 'created_at') if k in data else pd.DataFrame()] *)
Definition filter_table (data : dict) (date_range : list date) (k : string)
  : result DataFrame :=
  match dict_get k data with
  | Some df => filter_data date_range df "created_at"
  | None => Ok empty_frame
  end.

(** [data[k]] *)
Definition dict_getitem (data : dict) (k : string) : result DataFrame :=
  match dict_get k data with
  | Some df => Ok df
  | None => Raise (KeyError k)
  end.

(** [data[k][c]] in a condition [k in data and c in data[k].columns]. *)
Definition table_has_column (data : dict) (k c : string) : bool :=
  match dict_get k data with
  | Some df => has_column c df
  | None => false
  end.

(** A sidebar selection is taken when it is not empty. *)
Definition selected {A} (selection : list A) : bool :=
  match selection with [] => false | _ => true end.

(** Lines 122-124: the department filter. *)
Definition apply_department_filter (data : dict)
    (department_filter : list value) (filtered_docs : DataFrame)
  : result DataFrame :=
  if selected department_filter
     && table_has_column data "documents" "department_id"
  then
    departments <- dict_getitem data "departments" ;;
    _ <- get_column departments "name" ;;
    let chosen := select departments
                    (fun r => isin department_filter
                                (row_get departments r "name" VNone)) in
    dept_ids <- get_column chosen "department_id" ;;
    _ <- get_column filtered_docs "department_id" ;;
    Ok (select filtered_docs
          (fun r => isin dept_ids
                      (row_get filtered_docs r "department_id" VNone)))
  else Ok filtered_docs.

(** Lines 126-127: the document-type filter. *)
Definition apply_doc_type_filter (doc_type_filter : list value)
    (filtered_docs : DataFrame) : DataFrame :=
  if selected doc_type_filter && has_column "name" filtered_docs
  then select filtered_docs
         (fun r => isin doc_type_filter (row_get filtered_docs r "name" VNone))
  else filtered_docs.

(** Lines 117-127: the filtered tables; the documents are returned. *)
Definition filtered_docs (data : dict) (date_range : list date)
    (department_filter doc_type_filter : list value) : result DataFrame :=
  docs <- filter_table data date_range "documents" ;;
  _ <- filter_table data date_range "announcements" ;;
  _ <- filter_table data date_range "notifications" ;;
  docs <- apply_department_filter data department_filter docs ;;
  Ok (apply_doc_type_filter doc_type_filter docs).

(** Lines 316-324: the columns of the documents shown in the tab "Raw
    Data", or [None] when the message "No document data available" is shown
    instead. *)
Definition document_display_names : list string :=
  ["doc_id"; "title"; "name"; "status"; "created_at";
   "created_by_name"]%string.

Definition display_cols (names : list string) (df : DataFrame)
  : list string :=
  filter (fun col => has_column col df) names.

Definition documents_view (filtered_docs : DataFrame)
  : option (result DataFrame) :=
  if negb (empty filtered_docs)
  then Some (getitem_columns filtered_docs
               (display_cols document_display_names filtered_docs))
  else None.

(** Lines 355-369: the bars of the chart "Top 10 Users by Document
    Creation", or [None] when "No user activity data available" is shown. *)
Definition user_activity (filtered_docs : DataFrame)
  : option (list (value * nat)) :=
  if negb (empty filtered_docs) && has_column "created_by_name" filtered_docs
  then Some (firstn 10
               (value_counts (column filtered_docs "created_by_name")))
  else None.

(** Line 418: the name of the downloaded file. *)
Definition download_name (report_title : pystr) : pystr :=
  replace (lit " ") (lit "_") report_title ++ lit ".pdf".

(** Line 412, reached with the filtered documents of the page. *)
Definition generate_pdf_report (now : timestamp) (data : dict)
    (date_range : list date) (department_filter doc_type_filter : list value)
  : result pdf :=
  docs <- filtered_docs data date_range department_filter doc_type_filter ;;
  create_pdf_report now data docs date_range department_filter doc_type_filter.

End DmsAnalytics.

(* ================================================================== *)
(** ** Sample inputs *)

Module Samples.
Import Py Pandas PdfGenerator DmsAnalytics.
Open Scope string_scope.

(** Three documents of January 2024, one of March and one without a
    date; the title of the last one holds a mis-encoded cross mark. *)
Definition dms_documents : DataFrame :=
  {| columns := [("doc_id", DNumeric); ("title", DObject);
                 ("doc_type", DNumeric); ("status", DObject);
                 ("department_id", DNumeric); ("created_at", DDatetime)];
     rows :=
       [ [VInt 1; VStr (lit "Memo A"); VInt 1; VStr (lit "active");
          VInt 10; VTime 1704103445];
         [VInt 2; VStr (lit "Letter B"); VInt 2; VStr (lit "archived");
          VInt 20; VTime 1704203445];
         [VInt 3; VStr (lit "Memo C"); VInt 1; VStr (lit "active");
          VInt 10; VTime 1704067200];
         [VInt 4; VStr (lit "Report D"); VInt 7; VStr (lit "active");
          VInt 20; VTime 1709287200];
         [VInt 5; VStr ([0xE2; 0x152]%N ++ lit " draft")%list; VInt 2;
          VStr (lit "inactive"); VInt 30; VNaT] ] |}.

Definition document_types : DataFrame :=
  {| columns := [("type_id", DNumeric); ("name", DObject)];
     rows := [ [VInt 1; VStr (lit "Memo")]; [VInt 2; VStr (lit "Letter")] ] |}.

Definition departments : DataFrame :=
  {| columns := [("department_id", DNumeric); ("name", DObject);
                 ("code", DObject)];
     rows := [ [VInt 10; VStr (lit "HR"); VStr (lit "H")];
               [VInt 20; VStr (lit "IT"); VStr (lit "I")] ] |}.

Definition dms_user : DataFrame :=
  {| columns := [("user_id", DNumeric); ("role", DObject);
                 ("status", DObject); ("department_id", DNumeric)];
     rows := [ [VInt 1; VStr (lit "admin"); VStr (lit "active"); VInt 10];
               [VInt 2; VStr (lit "faculty"); VStr (lit "active"); VInt 20];
               [VInt 3; VStr (lit "faculty"); VStr (lit "pending");
                VInt 30] ] |}.

Definition announcements : DataFrame :=
  {| columns := [("id", DNumeric); ("title", DObject);
                 ("created_at", DDatetime)];
     rows := [ [VInt 1; VStr (lit "Enrolment"); VTime 1704103445] ] |}.

Definition no_rows : DataFrame :=
  {| columns := [("id", DNumeric)]; rows := [] |}.

(** A database that answers every query. *)
Definition read_sql (query : string) (_ : unit) : result DataFrame :=
  if String.eqb query "SELECT * FROM dms_user" then Ok dms_user
  else if String.eqb query "SELECT * FROM dms_documents" then Ok dms_documents
  else if String.eqb query "SELECT * FROM document_types" then Ok document_types
  else if String.eqb query "SELECT * FROM departments" then Ok departments
  else if String.eqb query "SELECT * FROM announcements" then Ok announcements
  else Ok no_rows.

(** The same database with the table of notifications missing. *)
Definition read_sql_failing (query : string) (e : unit) : result DataFrame :=
  if String.eqb query "SELECT * FROM notifications" then Raise OperationalError
  else read_sql query e.

Definition create_engine (url : string) : result unit := Ok tt.

(** What [load_data] returns on the first database. *)
Definition data : dict :=
  match load_data unit create_engine read_sql with
  | Some d => d
  | None => []
  end.

(** The documents joined with their types. *)
Definition documents : DataFrame :=
  match dict_get "documents" data with
  | Some d => d
  | None => empty_frame
  end.

(** Documents whose table has no column [name]. *)
Definition untyped_documents : DataFrame :=
  {| columns := [("doc_id", DNumeric); ("title", DObject)];
     rows := [ [VInt 1; VStr (lit "Memo A")] ] |}.

(** A documents table without rows. *)
Definition no_documents : DataFrame :=
  {| columns := columns documents; rows := [] |}.

(** [n] documents created one hour apart. *)
Definition many_documents (n : nat) : DataFrame :=
  {| columns := columns documents;
     rows := map (fun i => [VInt (Z.of_nat i); VStr (lit "Circular"); VInt 1;
                            VStr (lit "active"); VInt 10;
                            VTime (1704067200 + 3600 * Z.of_nat i);
                            VInt 1; VStr (lit "Memo")])
                 (seq 1 n) |}.

(** The scenario of the specification: 25 documents of three types (5, 12
    and 8 of them), 18 of them active and 7 archived. *)
Definition scenario_documents : DataFrame :=
  {| columns := columns documents;
     rows := map (fun i =>
                    let type := if (i <=? 5)%nat then lit "Order"
                                else if (i <=? 17)%nat then lit "Memo"
                                else lit "Letter" in
                    let status := if (i <=? 7)%nat then lit "archived"
                                  else lit "active" in
                    [VInt (Z.of_nat i); VStr (lit "Circular"); VInt 1;
                     VStr status; VInt 10;
                     VTime (1704067200 + 3600 * Z.of_nat i);
                     VInt 1; VStr type])
                 (seq 1 25) |}.

Definition now : timestamp := 1709290800.
Definition january : list date := [19723; 19753].

(** The report on a table of filtered documents, without selection. *)
Definition report (docs : DataFrame) : pdf :=
  match create_pdf_report now data docs january [] [] with
  | Ok p => p
  | Raise _ => []
  end.

(** The report of the page with the department HR and the type Memo
    selected. *)
Definition filtered_report : pdf :=
  match generate_pdf_report now data january [VStr (lit "HR")]
                            [VStr (lit "Memo")] with
  | Ok p => p
  | Raise _ => []
  end.

(** Documents whose creation date was read as text. *)
Definition text_dated_documents : DataFrame :=
  {| columns := [("doc_id", DNumeric); ("title", DObject);
                 ("created_at", DObject)];
     rows := [ [VInt 1; VStr (lit "Memo A"); VStr (lit "2024-01-01")] ] |}.

(** The department name "Ingenieria" written with its accent (U+00ED). *)
Definition ingenieria : pystr := (lit "Ingenier" ++ [0xED%N] ++ lit "a")%list.

(** The report with that department selected. *)
Definition accented_report : pdf :=
  match create_pdf_report now data documents january [VStr ingenieria] [] with
  | Ok p => p
  | Raise _ => []
  end.

(** The documents of the page with the department HR and the type Memo
    selected. *)
Definition filtered_documents : DataFrame :=
  match filtered_docs data january [VStr (lit "HR")] [VStr (lit "Memo")] with
  | Ok docs => docs
  | Raise _ => empty_frame
  end.

(** The table [document_types] without rows, which [read_sql] returns
    with object columns, and the database that holds it. *)
Definition no_document_types : DataFrame :=
  {| columns := [("type_id", DObject); ("name", DObject)]; rows := [] |}.

Definition read_sql_no_types (query : string) (e : unit) : result DataFrame :=
  if String.eqb query "SELECT * FROM document_types" then Ok no_document_types
  else read_sql query e.

(** The table [dms_documents] without rows, likewise. *)
Definition no_dms_documents : DataFrame :=
  {| columns := map (fun c => (fst c, DObject)) (columns dms_documents);
     rows := [] |}.

Definition read_sql_no_documents (query : string) (e : unit)
  : result DataFrame :=
  if String.eqb query "SELECT * FROM dms_documents" then Ok no_dms_documents
  else read_sql query e.

(** Type ids kept as text in [document_types]. *)
Definition text_document_types : DataFrame :=
  {| columns := [("type_id", DObject); ("name", DObject)];
     rows := [ [VStr (lit "1"); VStr (lit "Memo")] ] |}.

(** A table of documents with a column [name] of its own, and the
    database that holds it. *)
Definition named_documents : DataFrame :=
  {| columns := [("doc_id", DNumeric); ("name", DObject);
                 ("doc_type", DNumeric)];
     rows := [ [VInt 1; VStr (lit "Minutes"); VInt 1] ] |}.

Definition read_sql_named (query : string) (e : unit) : result DataFrame :=
  if String.eqb query "SELECT * FROM dms_documents" then Ok named_documents
  else read_sql query e.

Definition named_data : dict :=
  match load_data unit create_engine read_sql_named with
  | Some d => d
  | None => []
  end.

End Samples.

(* ================================================================== *)
(** * Properties *)

Import Py Pandas PyNotations PdfGenerator DmsAnalytics.

(** ** Strings and the sanitizer *)

Section StringFacts.

Lemma starts_with_non_ascii (c : codepoint) (old s : pystr) :
  is_ascii_char c = false -> is_ascii s = true ->
  starts_with (c :: old) s = false.
Proof.
  intros Hc Hs. destruct s as [|a s']; [reflexivity|].
  simpl in *. apply andb_true_iff in Hs as [Ha _].
  destruct (N.eqb_spec c a) as [->|Hne]; [congruence | reflexivity].
Qed.

Lemma replace_ascii_fixed (c : codepoint) (old new s : pystr) :
  is_ascii_char c = false -> is_ascii s = true ->
  replace (c :: old) new s = s.
Proof.
  intros Hc. unfold replace. induction s as [|a s' IH]; intros Hs.
  - reflexivity.
  - cbn [replace_from]. rewrite (starts_with_non_ascii c old (a :: s') Hc Hs).
    simpl in Hs. apply andb_true_iff in Hs as [_ Hs'].
    now rewrite (IH Hs').
Qed.

Lemma encode_ascii_fixed (s : pystr) :
  is_ascii s = true -> encode_ascii_ignore s = s.
Proof.
  unfold encode_ascii_ignore, is_ascii. induction s as [|a s' IH]; simpl.
  - reflexivity.
  - intros H. apply andb_true_iff in H as [Ha Hs].
    now rewrite Ha, (IH Hs).
Qed.

Lemma encode_ascii_is_ascii (s : pystr) :
  is_ascii (encode_ascii_ignore s) = true.
Proof.
  unfold encode_ascii_ignore, is_ascii. apply forallb_forall.
  intros c Hc. now apply filter_In in Hc.
Qed.

Lemma is_ascii_app (a b : pystr) :
  is_ascii (a ++ b) = is_ascii a && is_ascii b.
Proof. apply forallb_app. Qed.

Lemma sanitize_ascii_fixed (s : pystr) :
  is_ascii s = true -> sanitize s = s.
Proof.
  intros Hs. unfold sanitize, bullet_seq, check_seq, cross_seq, chart_seq,
    doc_seq, refresh_seq.
  assert (R : forall c old new,
             is_ascii_char c = false -> replace (c :: old) new s = s)
    by (intros; now apply replace_ascii_fixed).
  rewrite !R by reflexivity.
  now apply encode_ascii_fixed.
Qed.

Lemma sanitize_is_ascii (s : pystr) : is_ascii (sanitize s) = true.
Proof. apply encode_ascii_is_ascii. Qed.

End StringFacts.

(** C4. The sanitizer is idempotent on strings, and a string made of ASCII
    characters only comes back unchanged. *)
Theorem safe_text_idempotent (s : pystr) :
  safe_text (VStr (safe_text (VStr s))) = safe_text (VStr s)
  /\ (is_ascii s = true -> safe_text (VStr s) = s).
Proof.
  cbn [safe_text py_str]. split.
  - apply sanitize_ascii_fixed, sanitize_is_ascii.
  - apply sanitize_ascii_fixed.
Qed.

Lemma safe_text_idempotent_witness :
  is_ascii (lit "Memo 2024") = true
  /\ safe_text (VStr (lit "Memo 2024")) = lit "Memo 2024".
Proof.
  split; [reflexivity | apply (proj2 (safe_text_idempotent (lit "Memo 2024")))].
  reflexivity.
Defined.

(** C10. A value that is not a string is returned as [str(value)], with
    neither substitution nor stripping; a string goes through the six
    replacements and the ASCII filter. *)
Theorem safe_text_non_string (v : value) :
  (is_str v = false -> safe_text v = py_str v)
  /\ (forall s, v = VStr s ->
        safe_text v =
        encode_ascii_ignore
          (replace refresh_seq (lit "[REFRESH]")
            (replace doc_seq (lit "[DOC]")
              (replace chart_seq (lit "[CHART]")
                (replace cross_seq (lit "[ERROR]")
                  (replace check_seq (lit "[OK]")
                    (replace bullet_seq (lit "-") s))))))).
Proof.
  split.
  - destruct v; intros H; try reflexivity. discriminate H.
  - intros s ->. reflexivity.
Qed.

Lemma safe_text_non_string_witness :
  is_str (VInt 42) = false /\ safe_text (VInt 42) = lit "42".
Proof.
  split; [reflexivity|].
  rewrite (proj1 (safe_text_non_string (VInt 42)) eq_refl). reflexivity.
Defined.

(** ** The sample tables *)

(** The sample tables hold in every column what its dtype announces, and so
    do the joined tables [load_data] makes of them. *)
Example samples_well_typed :
  forallb well_typed
    [ Samples.dms_documents; Samples.document_types; Samples.departments;
      Samples.dms_user; Samples.announcements; Samples.documents ]
  = true
  /\ forallb (fun kv => well_typed (snd kv)) Samples.data = true.
Proof. split; reflexivity. Qed.

(** ** The date filter *)

Section DateFilterFacts.

Lemma has_column_dtype (c : string) (df : DataFrame) :
  has_column c df = true <-> exists d, dtype_of c (columns df) = Some d.
Proof.
  unfold has_column. induction (columns df) as [|[n d] cols IH]; simpl.
  - split; [discriminate | intros [d H]; discriminate].
  - destruct (String.eqb c n).
    + split; [eauto | reflexivity].
    + destruct (index_of c cols); simpl.
      * split; [intros _; now apply IH | reflexivity].
      * split; [discriminate | intros H; now apply IH in H].
Qed.


Lemma loc_rows_filter {A} (g : row -> A) (f1 f2 : A -> bool) (rs : list row) :
  loc_rows rs (mask_and (map f1 (map g rs)) (map f2 (map g rs)))
  = filter (fun r => f1 (g r) && f2 (g r)) rs.
Proof.
  induction rs as [|r rs IH]; simpl; [reflexivity|].
  rewrite IH. reflexivity.
Qed.

End DateFilterFacts.




(** The range from 1 to 2 January keeps the document of 1 January 10:04
    and the one of 1 January 00:00, not the one of 2 January 13:50. *)
Example filter_data_january :
  option_map (fun df => map (fun r => nth 0 r VNone) (rows df))
    (try_or_none (filter_data [19723; 19724] Samples.documents "created_at"))
  = Some [VInt 1; VInt 3].
Proof. reflexivity. Qed.

(** A range of one day, given as twice the same date, keeps the rows of
    00:00:00 of that day only: of the two documents of 1 January 2024 the
    one of midnight is kept, the one of 10:04:05 is not. *)
Example filter_data_one_day :
  option_map (fun df => map (fun r => nth 0 r VNone) (rows df))
    (try_or_none (filter_data [19723; 19723] Samples.documents "created_at"))
  = Some [VInt 3]
  /\ date_of 1704103445 = 19723.
Proof. split; reflexivity. Qed.

(** What the model does outside the conditions of C6: a single date leaves
    the table alone, and a column of numbers or of text cannot be compared
    with a Timestamp. *)
Example filter_data_other_cases :
  filter_data [19723] Samples.documents "created_at" = Ok Samples.documents
  /\ filter_data [19723; 19724] Samples.documents "doc_id" = Raise TypeError
  /\ filter_data [19723; 19724] Samples.text_dated_documents "created_at"
     = Raise TypeError.
Proof. repeat split; reflexivity. Qed.

(** ** The category filters *)

Section CategoryFilterFacts.

Lemma selected_nonempty {A} (sel : list A) : sel <> [] -> selected sel = true.
Proof. destruct sel; [congruence | reflexivity]. Qed.

Lemma get_column_present (df : DataFrame) (c : string) :
  has_column c df = true -> get_column df c = Ok (column df c).
Proof. unfold get_column. now intros ->. Qed.

(** Membership in the ids of the chosen rows, read on the whole table. *)
Lemma isin_ids_of_chosen (chosen : row -> bool) (id : row -> value)
    (rs : list row) (v : value) :
  isin (map id (filter chosen rs)) v
  = existsb (fun d => chosen d && value_eqb v (id d)) rs.
Proof.
  unfold isin. induction rs as [|d rs IH]; simpl; [reflexivity|].
  destruct (chosen d); simpl; now rewrite IH.
Qed.

End CategoryFilterFacts.

(** C2, as the code has it. An empty selection leaves the table unchanged.
    A selection of document types keeps exactly the rows whose [name] is
    selected when the table has that column, and leaves the table unchanged
    when it has not. A selection of departments keeps exactly the rows whose
    [department_id] is the id of a department with a selected name when the
    documents have that column, and leaves the table unchanged when they
    have not. *)
Theorem category_filters_spec (data : dict) (selection : list value)
    (docs : DataFrame) :
  apply_department_filter data [] docs = Ok docs
  /\ apply_doc_type_filter [] docs = docs
  /\ (selection <> [] -> has_column "name" docs = true ->
      apply_doc_type_filter selection docs =
      select docs (fun r => isin selection (row_get docs r "name" VNone)))
  /\ (has_column "name" docs = false ->
      apply_doc_type_filter selection docs = docs)
  /\ (forall departments,
        selection <> [] ->
        table_has_column data "documents" "department_id" = true ->
        has_column "department_id" docs = true ->
        dict_get "departments" data = Some departments ->
        has_column "name" departments = true ->
        has_column "department_id" departments = true ->
        apply_department_filter data selection docs =
        Ok (select docs
              (fun r =>
                 existsb
                   (fun d =>
                      isin selection (row_get departments d "name" VNone)
                      && value_eqb (row_get docs r "department_id" VNone)
                           (row_get departments d "department_id" VNone))
                   (rows departments))))
  /\ (table_has_column data "documents" "department_id" = false ->
      apply_department_filter data selection docs = Ok docs).
Proof.
  repeat split.
  - intros Hsel Hname. unfold apply_doc_type_filter.
    now rewrite (selected_nonempty _ Hsel), Hname.
  - intros Hname. unfold apply_doc_type_filter.
    now rewrite Hname, andb_false_r.
  - intros departments Hsel Hguard Hdocs Hget Hname Hid.
    unfold apply_department_filter, dict_getitem.
    rewrite (selected_nonempty _ Hsel), Hguard, Hget. cbn [andb bind].
    rewrite (get_column_present _ _ Hname). cbn [bind].
    unfold get_column at 1.
    replace (has_column "department_id" (select departments _)) with true
      by (symmetry; exact Hid).
    cbn [bind]. rewrite (get_column_present _ _ Hdocs). cbn [bind].
    unfold select. f_equal. f_equal. apply filter_ext. intros r.
    unfold column. cbn [rows columns]. apply isin_ids_of_chosen.
  - intros Hguard. unfold apply_department_filter.
    now rewrite Hguard, andb_false_r.
Qed.

Lemma category_filters_spec_witness :
  [VStr (lit "Memo")] <> []
  /\ has_column "name" Samples.documents = true
  /\ apply_doc_type_filter [VStr (lit "Memo")] Samples.documents =
     select Samples.documents
       (fun r => isin [VStr (lit "Memo")]
                   (row_get Samples.documents r "name" VNone)).
Proof.
  split; [discriminate|]. split; [reflexivity|].
  apply (proj1 (proj2 (proj2
          (category_filters_spec Samples.data [VStr (lit "Memo")]
                                 Samples.documents))));
    [discriminate | reflexivity].
Defined.

(** The claim of C2 as the specification words it fails on a table that has
    no column [name]: a selection then keeps every row, although no row
    shows a selected name. *)
Lemma category_filter_counterexample :
  ~ (forall (selection : list value) (docs : DataFrame),
       selection <> [] ->
       apply_doc_type_filter selection docs =
       select docs (fun r => isin selection (row_get docs r "name" VNone))).
Proof.
  intros H.
  specialize (H [VStr (lit "Memo")] Samples.untyped_documents).
  assert (Hne : [VStr (lit "Memo")] <> []) by discriminate.
  specialize (H Hne). discriminate H.
Qed.

(** The departments HR and IT selected one at a time, then a name no
    department has. *)
Example department_filter_sample :
  option_map (fun df => map (fun r => nth 0 r VNone) (rows df))
    (try_or_none (apply_department_filter Samples.data [VStr (lit "HR")]
                                          Samples.documents))
  = Some [VInt 1; VInt 3]
  /\ option_map len
       (try_or_none (apply_department_filter Samples.data [VStr (lit "Audit")]
                                             Samples.documents))
     = Some 0%nat.
Proof. split; reflexivity. Qed.

(** ** Grouped counts *)

Section ValueCountsFacts.

Lemma count_total_add (v : value) (acc : list (value * nat)) :
  count_total (count_add v acc) = S (count_total acc).
Proof.
  induction acc as [|[w n] acc IH]; simpl; [reflexivity|].
  destruct (value_eqb v w); simpl; [reflexivity|].
  rewrite IH. lia.
Qed.

Lemma count_total_tally_from (l : list value) (acc : list (value * nat)) :
  count_total
    (fold_left (fun acc v => if is_null v then acc else count_add v acc) l acc)
  = (count_total acc
     + List.length (filter (fun v => negb (is_null v)) l))%nat.
Proof.
  revert acc. induction l as [|v l IH]; intros acc; simpl; [lia|].
  rewrite IH. destruct (is_null v); simpl; [reflexivity|].
  rewrite count_total_add. lia.
Qed.

Lemma count_total_insert (x : value * nat) (l : list (value * nat)) :
  count_total (insert_by_count x l) = (snd x + count_total l)%nat.
Proof.
  induction l as [|y l IH]; simpl; [reflexivity|].
  destruct (snd y <=? snd x)%nat; simpl; [reflexivity|].
  rewrite IH. lia.
Qed.

Lemma count_total_sort (l : list (value * nat)) :
  count_total (sort_by_count l) = count_total l.
Proof.
  induction l as [|x l IH]; simpl; [reflexivity|].
  now rewrite count_total_insert, IH.
Qed.

Lemma count_total_value_counts (s : list value) :
  count_total (value_counts s)
  = List.length (filter (fun v => negb (is_null v)) s).
Proof.
  unfold value_counts, tally.
  now rewrite count_total_sort, count_total_tally_from.
Qed.


End ValueCountsFacts.




(** The scenario of the specification: 12, 8 and 5 documents of three types
    come out most frequent first. *)
Example value_counts_order :
  map snd (value_counts
             (repeat (VStr (lit "Letter")) 5 ++ repeat (VStr (lit "Memo")) 12
              ++ repeat (VStr (lit "Order")) 8))
  = [12; 8; 5]%nat.
Proof. reflexivity. Qed.

(** ** The sections of the report *)

Section ReportFacts.

Lemma plain_no_table (p : pdf) :
  forallb (fun c => negb (is_table_call c)) p = true ->
  table_rows p = [] /\ table_headers p = [] /\ has_detailed_table p = false.
Proof.
  induction p as [|c p IH]; simpl; [auto|].
  intros H. apply andb_true_iff in H as [Hc Hp].
  destruct (IH Hp) as (Hr & Hh & Hd).
  destruct c; simpl in *; try discriminate; auto.
Qed.

Lemma plain_no_metric (p : pdf) :
  forallb (fun c => negb (is_metric_call c)) p = true -> metric_cards p = [].
Proof.
  induction p as [|c p IH]; simpl; [auto|].
  intros H. apply andb_true_iff in H as [Hc Hp].
  destruct c; simpl in *; try discriminate; auto.
Qed.

Lemma plain_split (p : pdf) :
  forallb plain p = true ->
  forallb (fun c => negb (is_table_call c)) p = true
  /\ forallb (fun c => negb (is_metric_call c)) p = true.
Proof.
  intros H. rewrite !forallb_forall in *.
  split; intros c Hc; apply H in Hc; unfold plain in Hc;
    apply andb_true_iff in Hc; tauto.
Qed.

Lemma plain_count_lines (unit : string) (counts : list (value * nat)) :
  forallb plain (count_lines unit counts) = true.
Proof.
  apply forallb_forall. intros c Hc. unfold count_lines in Hc.
  apply in_map_iff in Hc as (vc & <- & _). reflexivity.
Qed.

Lemma plain_breakdown (df : DataFrame) (c heading unit : string) :
  forallb plain (breakdown df c heading unit) = true.
Proof.
  unfold breakdown. destruct (has_column c df); [|reflexivity].
  rewrite !forallb_app, plain_count_lines. reflexivity.
Qed.

Lemma plain_document_analysis (docs : DataFrame) :
  forallb plain (document_analysis docs) = true.
Proof.
  unfold document_analysis. cbn [forallb]. rewrite forallb_app.
  destruct (negb (empty docs)).
  - now rewrite forallb_app, !plain_breakdown.
  - reflexivity.
Qed.

Lemma plain_user_analysis (data : dict) :
  forallb plain (user_analysis data) = true.
Proof.
  unfold user_analysis. cbn [forallb]. rewrite forallb_app.
  destruct (dict_get "users" data) as [users|]; [|reflexivity].
  destruct (negb (empty users)).
  - now rewrite forallb_app, !plain_breakdown.
  - reflexivity.
Qed.

Lemma plain_recent_entries (df : DataFrame) (rs : list row) :
  forallb plain (flat_map (recent_entry df) rs) = true.
Proof.
  induction rs as [|r rs IH]; [reflexivity|].
  cbn [flat_map]. rewrite forallb_app, IH. reflexivity.
Qed.

Lemma plain_recent_activity (docs : DataFrame) (p : pdf) :
  recent_activity docs = Ok p -> forallb plain p = true.
Proof.
  unfold recent_activity.
  destruct (negb (empty docs) && has_column "created_at" docs).
  - destruct (recent_docs docs) as [recent|e]; cbn [bind]; [|discriminate].
    intros [= <-]. cbn [forallb]. rewrite !forallb_app, plain_recent_entries.
    reflexivity.
  - cbn [bind]. intros [= <-]. reflexivity.
Qed.

Lemma plain_report_metadata now date_range department_filter doc_type_filter p :
  report_metadata now date_range department_filter doc_type_filter = Ok p ->
  forallb plain p = true.
Proof.
  unfold report_metadata.
  destruct (getitem date_range 0); cbn [bind]; [|discriminate].
  destruct (getitem date_range 1); cbn [bind]; [|discriminate].
  destruct (match department_filter with
            | [] => Ok (lit "All Departments")
            | _ => join_values (lit ", ") department_filter
            end); cbn [bind]; [|discriminate].
  destruct (match doc_type_filter with
            | [] => Ok (lit "All Types")
            | _ => join_values (lit ", ") doc_type_filter
            end); cbn [bind]; [|discriminate].
  intros [= <-]. reflexivity.
Qed.

(** A report, when it is produced, is made of its six sections. *)
Lemma create_pdf_report_sections now data docs date_range
    department_filter doc_type_filter p :
  create_pdf_report now data docs date_range department_filter
                    doc_type_filter = Ok p ->
  exists metadata recent,
    forallb plain metadata = true /\ forallb plain recent = true
    /\ p = [add_page] ++ [add_page; set_auto_page_break true 15] ++ metadata
           ++ executive_summary data ++ document_analysis docs
           ++ user_analysis data ++ recent ++ detailed_document_list docs.
Proof.
  unfold create_pdf_report.
  destruct (report_metadata now date_range department_filter doc_type_filter)
    as [metadata|e] eqn:Hm; cbn [bind]; [|discriminate].
  destruct (recent_activity docs) as [recent|e] eqn:Hr; cbn [bind];
    [|discriminate].
  intros [= <-]. exists metadata, recent.
  split; [now apply plain_report_metadata in Hm|].
  split; [now apply plain_recent_activity in Hr | reflexivity].
Qed.

Lemma detailed_table_rows (docs : DataFrame) :
  table_rows (detailed_document_list docs)
  = if negb (empty docs) && (len docs <=? 20)%nat
    then map (detail_cells docs) (rows docs) else [].
Proof.
  unfold detailed_document_list.
  destruct (negb (empty docs) && (len docs <=? 20)%nat); [|reflexivity].
  cbn [table_rows flat_map app].
  induction (rows docs) as [|r rs IH]; [reflexivity|].
  cbn [map flat_map app]. f_equal. exact IH.
Qed.

Lemma detailed_table_headers (docs : DataFrame) :
  table_headers (detailed_document_list docs)
  = if negb (empty docs) && (len docs <=? 20)%nat
    then [detail_headers] else [].
Proof.
  unfold detailed_document_list.
  destruct (negb (empty docs) && (len docs <=? 20)%nat); [|reflexivity].
  cbn [table_headers flat_map app]. f_equal.
  induction (rows docs) as [|r rs IH]; [reflexivity|].
  cbn [map flat_map app]. exact IH.
Qed.

Lemma detailed_table_present (docs : DataFrame) :
  has_detailed_table (detailed_document_list docs)
  = negb (empty docs) && (len docs <=? 20)%nat.
Proof.
  unfold detailed_document_list.
  destruct (negb (empty docs) && (len docs <=? 20)%nat); reflexivity.
Qed.

Lemma detailed_no_metric (docs : DataFrame) :
  metric_cards (detailed_document_list docs) = [].
Proof.
  apply plain_no_metric. unfold detailed_document_list.
  destruct (negb (empty docs) && (len docs <=? 20)%nat); [|reflexivity].
  cbn [forallb is_metric_call negb andb].
  apply forallb_forall. intros c Hc.
  apply in_map_iff in Hc as (r & <- & _). reflexivity.
Qed.

(** What the table of a report holds is what the last section wrote. *)
Lemma report_table now data docs date_range department_filter
    doc_type_filter p :
  create_pdf_report now data docs date_range department_filter
                    doc_type_filter = Ok p ->
  table_rows p = table_rows (detailed_document_list docs)
  /\ table_headers p = table_headers (detailed_document_list docs)
  /\ has_detailed_table p = has_detailed_table (detailed_document_list docs).
Proof.
  intros H. apply create_pdf_report_sections in H
    as (metadata & recent & Hm & Hr & ->).
  apply plain_split in Hm as [Hm _]. apply plain_split in Hr as [Hr _].
  destruct (plain_no_table _ Hm) as (M1 & M2 & M3).
  destruct (plain_no_table _ Hr) as (R1 & R2 & R3).
  destruct (plain_no_table _
              (proj1 (plain_split _ (plain_document_analysis docs))))
    as (D1 & D2 & D3).
  destruct (plain_no_table _ (proj1 (plain_split _ (plain_user_analysis data))))
    as (U1 & U2 & U3).
  unfold table_rows, table_headers, has_detailed_table in *.
  rewrite !flat_map_app, !existsb_app.
  rewrite M1, M2, M3, R1, R2, R3, D1, D2, D3, U1, U2, U3.
  repeat split; reflexivity.
Qed.

End ReportFacts.

(** ** The detailed document list *)

(** C1, as the code has it. The detailed table is in the report exactly
    when the filtered documents are not empty (at least one row and one
    column) and have at most 20 rows. It then has the five headers and one
    data row per document, in the order of the filtered table; a table of
    exactly 20 rows gives 20 data rows, and one of 21 rows or more gives no
    detailed table. *)
Theorem detailed_table_spec now data docs date_range department_filter
    doc_type_filter p :
  create_pdf_report now data docs date_range department_filter
                    doc_type_filter = Ok p ->
  (has_detailed_table p = true <->
   empty docs = false /\ (len docs <= 20)%nat)
  /\ (empty docs = false -> (len docs <= 20)%nat ->
      table_headers p = [detail_headers]
      /\ table_rows p = map (detail_cells docs) (rows docs))
  /\ (len docs = 20%nat -> columns docs <> [] ->
      List.length (table_rows p) = 20%nat)
  /\ ((20 < len docs)%nat ->
      has_detailed_table p = false /\ table_rows p = []).
Proof.
  intros H. apply report_table in H as (Hrows & Hheaders & Hpresent).
  rewrite Hrows, Hheaders, Hpresent.
  rewrite detailed_table_rows, detailed_table_headers, detailed_table_present.
  split; [|split; [|split]].
  - rewrite andb_true_iff, negb_true_iff, Nat.leb_le. tauto.
  - intros He Hl. apply Nat.leb_le in Hl. now rewrite He, Hl.
  - intros Hl Hc. unfold empty. rewrite Hl.
    destruct (columns docs) as [|c cs]; [congruence|].
    cbn. rewrite length_map. exact Hl.
  - intros Hl. apply Nat.leb_gt in Hl. rewrite Hl, andb_false_r. now split.
Qed.

Lemma detailed_table_spec_witness :
  create_pdf_report Samples.now Samples.data (Samples.many_documents 20)
                    Samples.january [] []
  = Ok (Samples.report (Samples.many_documents 20))
  /\ List.length (table_rows (Samples.report (Samples.many_documents 20)))
     = 20%nat.
Proof.
  assert (H : create_pdf_report Samples.now Samples.data
                (Samples.many_documents 20) Samples.january [] []
              = Ok (Samples.report (Samples.many_documents 20)))
    by (vm_compute; reflexivity).
  split; [exact H|].
  apply (proj1 (proj2 (proj2 (detailed_table_spec _ _ _ _ _ _ _ H))));
    [reflexivity | discriminate].
Defined.

(** The claim of C1 as the specification words it fails on a filtered table
    without rows: it has at most 20 rows and the report has no detailed
    table. *)
Lemma detailed_table_counterexample :
  ~ (forall now data docs date_range department_filter doc_type_filter p,
       create_pdf_report now data docs date_range department_filter
                         doc_type_filter = Ok p ->
       (has_detailed_table p = true <-> (len docs <= 20)%nat)).
Proof.
  intros H.
  assert (R : create_pdf_report Samples.now Samples.data Samples.no_documents
                Samples.january [] []
              = Ok (Samples.report Samples.no_documents))
    by (vm_compute; reflexivity).
  apply H in R. destruct R as [_ R].
  assert (L : (len Samples.no_documents <= 20)%nat) by (cbn; lia).
  apply R in L. vm_compute in L. discriminate L.
Qed.

(** The two examples of the specification: 20 documents give a table of 20
    rows, 21 documents give none. *)
Example detailed_table_20_21 :
  has_detailed_table (Samples.report (Samples.many_documents 20)) = true
  /\ List.length (table_rows (Samples.report (Samples.many_documents 20)))
     = 20%nat
  /\ has_detailed_table (Samples.report (Samples.many_documents 21)) = false.
Proof. vm_compute. auto. Qed.

(** The scenario of the specification: the types come out as 12, 8 and 5,
    the statuses as 18 and 7, and there is no detailed table. *)
Example scenario_25_documents :
  map snd (value_counts (column Samples.scenario_documents "name"))
  = [12; 8; 5]%nat
  /\ map snd (value_counts (column Samples.scenario_documents "status"))
     = [18; 7]%nat
  /\ has_detailed_table (Samples.report Samples.scenario_documents) = false
  /\ recent_count (Samples.report Samples.scenario_documents) = 5%nat.
Proof. vm_compute. auto. Qed.

(** ** The executive summary *)

(** C9. The four metric cards of a report are the counts over the tables
    of [data], whatever the filtered documents, the date range and the
    selections are: the number of documents, of users, of documents whose
    status is "active", and of announcements. *)
Theorem executive_summary_unfiltered now data :
  (forall docs date_range department_filter doc_type_filter p,
     create_pdf_report now data docs date_range department_filter
                       doc_type_filter = Ok p ->
     metric_cards p =
     [ (lit "Total Documents", VCount (total_docs data));
       (lit "Total Users", VCount (total_users data));
       (lit "Active Documents", VCount (active_docs data));
       (lit "Announcements", VCount (total_announcements data)) ])
  /\ (forall date_range department_filter doc_type_filter p,
        generate_pdf_report now data date_range department_filter
                            doc_type_filter = Ok p ->
        metric_cards p =
        [ (lit "Total Documents", VCount (total_docs data));
          (lit "Total Users", VCount (total_users data));
          (lit "Active Documents", VCount (active_docs data));
          (lit "Announcements", VCount (total_announcements data)) ])
  /\ (forall documents users announcements,
        dict_get "documents" data = Some documents ->
        dict_get "users" data = Some users ->
        dict_get "announcements" data = Some announcements ->
        total_docs data = List.length (rows documents)
        /\ total_users data = List.length (rows users)
        /\ total_announcements data = List.length (rows announcements)
        /\ (has_column "status" documents = true ->
            active_docs data =
            List.length
              (filter (fun r => value_eqb (row_get documents r "status" VNone)
                                          (VStr (lit "active")))
                      (rows documents)))).
Proof.
  assert (A : forall docs date_range department_filter doc_type_filter p,
             create_pdf_report now data docs date_range department_filter
                               doc_type_filter = Ok p ->
             metric_cards p =
             [ (lit "Total Documents", VCount (total_docs data));
               (lit "Total Users", VCount (total_users data));
               (lit "Active Documents", VCount (active_docs data));
               (lit "Announcements", VCount (total_announcements data)) ]).
  { intros docs date_range department_filter doc_type_filter p H.
    apply create_pdf_report_sections in H
      as (metadata & recent & Hm & Hr & ->).
    apply plain_split in Hm as [_ Hm]. apply plain_split in Hr as [_ Hr].
    unfold metric_cards. rewrite !flat_map_app.
    fold (metric_cards metadata). fold (metric_cards recent).
    fold (metric_cards (document_analysis docs)).
    fold (metric_cards (user_analysis data)).
    fold (metric_cards (detailed_document_list docs)).
    rewrite (plain_no_metric _ Hm), (plain_no_metric _ Hr).
    rewrite (plain_no_metric _
               (proj2 (plain_split _ (plain_document_analysis docs)))).
    rewrite (plain_no_metric _
               (proj2 (plain_split _ (plain_user_analysis data)))).
    rewrite detailed_no_metric. reflexivity. }
  split; [exact A|]. split.
  - intros date_range department_filter doc_type_filter p.
    unfold generate_pdf_report.
    destruct (filtered_docs data date_range department_filter doc_type_filter)
      as [docs|e]; cbn [bind]; [apply A | discriminate].
  - intros documents users announcements Hd Hu Ha.
    unfold total_docs, total_users, total_announcements, active_docs.
    rewrite Hd, Hu, Ha. repeat split.
    intros Hs. now rewrite Hs.
Qed.

Lemma executive_summary_unfiltered_witness :
  generate_pdf_report Samples.now Samples.data Samples.january
                      [VStr (lit "HR")] [VStr (lit "Memo")]
  = Ok Samples.filtered_report
  /\ metric_cards Samples.filtered_report =
     [ (lit "Total Documents", VInt 5); (lit "Total Users", VInt 3);
       (lit "Active Documents", VInt 3); (lit "Announcements", VInt 1) ].
Proof.
  assert (H : generate_pdf_report Samples.now Samples.data Samples.january
                [VStr (lit "HR")] [VStr (lit "Memo")]
              = Ok Samples.filtered_report)
    by (vm_compute; reflexivity).
  split; [exact H|].
  rewrite (proj1 (proj2 (executive_summary_unfiltered Samples.now Samples.data))
             _ _ _ _ H).
  reflexivity.
Defined.

(** ** Recent activity *)

Section SortFacts.

Variable key : row -> option Z.

Lemma key_geb_total (a b : option Z) :
  key_geb a b = true \/ key_geb b a = true.
Proof.
  destruct a as [x|], b as [y|]; simpl; auto.
  destruct (Z.leb_spec y x); [auto|]. right. apply Z.leb_le. lia.
Qed.

Lemma key_geb_trans (a b c : option Z) :
  key_geb a b = true -> key_geb b c = true -> key_geb a c = true.
Proof.
  destruct a as [x|], b as [y|], c as [z|]; simpl; auto; try discriminate.
  rewrite !Z.leb_le. lia.
Qed.

Lemma insert_desc_perm (r : row) (l : list row) :
  Permutation (insert_desc key r l) (r :: l).
Proof.
  induction l as [|y l IH]; simpl; [reflexivity|].
  destruct (key_geb (key r) (key y)); [reflexivity|].
  rewrite IH. apply perm_swap.
Qed.

Lemma sort_desc_perm (l : list row) : Permutation (sort_desc key l) l.
Proof.
  induction l as [|r l IH]; simpl; [reflexivity|].
  rewrite insert_desc_perm. now constructor.
Qed.

Lemma insert_desc_sorted (r : row) (l : list row) :
  StronglySorted (precedes key) l ->
  StronglySorted (precedes key) (insert_desc key r l).
Proof.
  induction l as [|y l IH]; intros Hs; simpl.
  - constructor; constructor.
  - inversion Hs as [|? ? Hl Hy]; subst.
    destruct (key_geb (key r) (key y)) eqn:E.
    + constructor; [exact Hs|]. constructor; [exact E|].
      eapply Forall_impl; [|exact Hy]. intros z Hz.
      unfold precedes in *. eapply key_geb_trans; eauto.
    + constructor; [now apply IH|].
      eapply Permutation_Forall; [symmetry; apply insert_desc_perm|].
      constructor; [|exact Hy]. unfold precedes.
      destruct (key_geb_total (key r) (key y)); [congruence | assumption].
Qed.

Lemma sort_desc_sorted (l : list row) :
  StronglySorted (precedes key) (sort_desc key l).
Proof.
  induction l as [|r l IH]; simpl; [constructor|].
  now apply insert_desc_sorted.
Qed.

(** A sorted list cut in two: both parts are sorted and the first part
    dominates the second. *)
Lemma sorted_app (l1 l2 : list row) :
  StronglySorted (precedes key) (l1 ++ l2) ->
  StronglySorted (precedes key) l1
  /\ (forall a b, In a l1 -> In b l2 -> precedes key a b).
Proof.
  induction l1 as [|x l1 IH]; simpl; intros Hs.
  - split; [constructor | contradiction].
  - inversion Hs as [|? ? Hl Hx]; subst.
    destruct (IH Hl) as [Hs1 Hd]. apply Forall_app in Hx as [Hx1 Hx2].
    split; [now constructor|].
    intros a b [<-|Ha] Hb; [|now apply Hd].
    rewrite Forall_forall in Hx2. now apply Hx2.
Qed.

(** The first [n] rows of the sorted table. *)
Lemma nlargest_rows (n : nat) (l : list row) :
  let listed := firstn n (sort_desc key l) in
  let rest := skipn n (sort_desc key l) in
  Permutation l (listed ++ rest)
  /\ List.length listed = Nat.min n (List.length l)
  /\ StronglySorted (precedes key) listed
  /\ (forall a b, In a listed -> In b rest -> precedes key a b)
  /\ ((List.length l <= n)%nat -> rest = []).
Proof.
  intros listed rest. subst listed rest.
  rewrite firstn_skipn, length_firstn.
  rewrite (Permutation_length (sort_desc_perm l)).
  split; [symmetry; apply sort_desc_perm|].
  split; [reflexivity|].
  pose proof (sort_desc_sorted l) as Hs.
  rewrite <- (firstn_skipn n (sort_desc key l)) in Hs.
  apply sorted_app in Hs as [Hs Hd].
  split; [exact Hs|]. split; [exact Hd|].
  intros Hl. apply skipn_all2.
  now rewrite (Permutation_length (sort_desc_perm l)).
Qed.

End SortFacts.

Section RecentFacts.

Lemma recent_entry_columns (a b : DataFrame) (r : row) :
  columns a = columns b -> recent_entry a r = recent_entry b r.
Proof. intros H. unfold recent_entry, row_get. now rewrite H. Qed.

Lemma recent_entries_columns (a b : DataFrame) (rs : list row) :
  columns a = columns b ->
  flat_map (recent_entry a) rs = flat_map (recent_entry b) rs.
Proof.
  intros H. induction rs as [|r rs IH]; cbn [flat_map]; [reflexivity|].
  now rewrite IH, (recent_entry_columns a b r H).
Qed.

Lemma recent_count_entries (df : DataFrame) (rs : list row) (q : pdf) :
  recent_count (flat_map (recent_entry df) rs ++ q)
  = (List.length rs + recent_count q)%nat.
Proof.
  unfold recent_count. induction rs as [|r rs IH]; simpl; [reflexivity|].
  now rewrite IH.
Qed.

End RecentFacts.

(** C7, as the code has it. When the filtered documents are empty or have
    no column [created_at], the section lists no document. Otherwise, the
    column being numeric or datetime, it lists [min 5 n] of the [n]
    documents: they are in descending order of creation time, nulls last,
    no document left out is more recent than a listed one, and with five
    documents or fewer all are listed. The first line of an entry is the
    sanitized title, cut to its first 50 characters and followed by "..."
    when [str(title)] is longer than 50. *)
Theorem recent_activity_spec (docs : DataFrame) :
  (empty docs = true \/ has_column "created_at" docs = false ->
   recent_activity docs =
   Ok [ chapter_title (lit "RECENT ACTIVITY");
        cell 0 8 (lit "No recent activity data available") 0 1;
        ln 10 ])
  /\ (forall d,
        empty docs = false ->
        dtype_of "created_at" (columns docs) = Some d -> d <> DObject ->
        exists p listed rest,
          recent_activity docs = Ok p
          /\ p = chapter_title (lit "RECENT ACTIVITY")
                 :: set_font "Arial" "B" 12
                 :: cell 0 10 (lit "Recent Documents:") 0 1
                 :: set_font "Arial" "" 10
                 :: flat_map (recent_entry docs) listed ++ [ln 10]
          /\ recent_count p = List.length listed
          /\ Permutation (rows docs) (listed ++ rest)
          /\ List.length listed = Nat.min 5 (len docs)
          /\ StronglySorted (precedes (created_key docs)) listed
          /\ (forall a b, In a listed -> In b rest ->
                precedes (created_key docs) a b)
          /\ ((len docs <= 5)%nat -> rest = []))
  /\ (forall r,
        hd_error (recent_entry docs r) =
        Some (cell 0 8 (lit "- "
                          ++ truncate_title 50 (row_get docs r "title" NA))
                   0 1))
  /\ (forall title,
        (50 < List.length (py_str title))%nat ->
        truncate_title 50 title = firstn 50 (safe_text title) ++ lit "...").
Proof.
  split; [|split; [|split]].
  - intros H. unfold recent_activity.
    replace (negb (empty docs) && has_column "created_at" docs) with false;
      [reflexivity|].
    destruct H as [-> | ->]; [reflexivity | now rewrite andb_false_r].
  - intros d He Hd Hobj. unfold recent_activity, recent_docs, nlargest.
    assert (Hc : has_column "created_at" docs = true)
      by (apply has_column_dtype; eauto).
    rewrite He, Hc, Hd. cbn [negb andb].
    destruct (nlargest_rows (created_key docs) 5 (rows docs))
      as (Hperm & Hlen & Hsorted & Hdom & Hall).
    set (listed := firstn 5 (sort_desc (created_key docs) (rows docs))) in *.
    set (rest := skipn 5 (sort_desc (created_key docs) (rows docs))) in *.
    exists (chapter_title (lit "RECENT ACTIVITY")
            :: set_font "Arial" "B" 12
            :: cell 0 10 (lit "Recent Documents:") 0 1
            :: set_font "Arial" "" 10
            :: flat_map (recent_entry docs) listed ++ [ln 10]), listed, rest.
    split.
    { destruct d; [| |congruence]; cbn [bind rows columns app]; reflexivity. }
    split; [reflexivity|].
    split.
    { change (recent_count (flat_map (recent_entry docs) listed ++ [ln 10])
              = List.length listed).
      rewrite recent_count_entries. cbn. lia. }
    repeat split; assumption.
  - intros r. reflexivity.
  - intros title H. unfold truncate_title.
    apply Nat.ltb_lt in H. now rewrite H.
Qed.

Lemma recent_activity_spec_witness :
  empty Samples.documents = false
  /\ dtype_of "created_at" (columns Samples.documents) = Some DDatetime
  /\ exists p listed rest,
       recent_activity Samples.documents = Ok p
       /\ p = chapter_title (lit "RECENT ACTIVITY")
              :: set_font "Arial" "B" 12
              :: cell 0 10 (lit "Recent Documents:") 0 1
              :: set_font "Arial" "" 10
              :: flat_map (recent_entry Samples.documents) listed ++ [ln 10]
       /\ recent_count p = List.length listed
       /\ Permutation (rows Samples.documents) (listed ++ rest)
       /\ List.length listed = Nat.min 5 (len Samples.documents)
       /\ StronglySorted (precedes (created_key Samples.documents)) listed
       /\ (forall a b, In a listed -> In b rest ->
             precedes (created_key Samples.documents) a b)
       /\ ((len Samples.documents <= 5)%nat -> rest = []).
Proof.
  split; [reflexivity|]. split; [reflexivity|].
  apply (proj1 (proj2 (recent_activity_spec Samples.documents)) DDatetime);
    [reflexivity | reflexivity | discriminate].
Defined.

(** The claim of C7 as the specification words it fails on a table of one
    document that has no column [created_at]: the table has fewer than five
    rows and the section lists none of them. *)
Lemma recent_activity_counterexample :
  ~ (forall (docs : DataFrame) (p : pdf),
       recent_activity docs = Ok p ->
       (len docs < 5)%nat -> recent_count p = len docs).
Proof.
  intros H.
  specialize (H Samples.untyped_documents _ eq_refl).
  assert (L : (len Samples.untyped_documents < 5)%nat) by (cbn; lia).
  apply H in L. discriminate L.
Qed.

(** The five sample documents come out most recent first, the one without
    a date last; of seven documents the five most recent are listed. *)
Example recent_docs_sample :
  option_map (fun df => map (fun r => nth 0 r VNone) (rows df))
    (try_or_none (recent_docs Samples.documents))
  = Some [VInt 4; VInt 2; VInt 1; VInt 3; VInt 5]
  /\ option_map (fun df => map (fun r => nth 0 r VNone) (rows df))
       (try_or_none (recent_docs (Samples.many_documents 7)))
     = Some [VInt 7; VInt 6; VInt 5; VInt 4; VInt 3].
Proof. split; reflexivity. Qed.

(** A column [created_at] read as text is refused by [nlargest], and the
    report is not produced. *)
Example recent_activity_object_column :
  recent_activity Samples.text_dated_documents = Raise TypeError
  /\ create_pdf_report Samples.now Samples.data Samples.text_dated_documents
       Samples.january [] [] = Raise TypeError.
Proof. split; reflexivity. Qed.

(** Without its second date the range cannot be echoed by the metadata
    block. *)
Example create_pdf_report_one_date :
  create_pdf_report Samples.now Samples.data Samples.documents [19723] [] []
  = Raise IndexError.
Proof. reflexivity. Qed.

(** A title of 60 letters is cut to 50 and marked; one of 51 characters
    that are all dropped by the sanitizer leaves the mark alone. *)
Example truncate_title_sample :
  truncate_title 50 (VStr (repeat 65%N 60)) = repeat 65%N 50 ++ lit "..."
  /\ truncate_title 50 (VStr (repeat 233%N 51)) = lit "...".
Proof. split; reflexivity. Qed.

(** ** The data loader *)

Section LoaderFacts.

Variable engine : Type.
Variable create_engine : string -> result engine.
Variable read_sql : string -> engine -> result DataFrame.

Lemma load_tables_read_fails (eng : engine) (q : string) (e : exn) :
  In q queries -> read_sql q eng = Raise e ->
  exists e', load_tables engine read_sql eng = Raise e'.
Proof.
  intros Hq Hr. unfold load_tables.
  repeat match goal with
  | |- context [bind (read_sql ?q' eng) _] =>
      let E := fresh "E" in
      destruct (read_sql q' eng) eqn:E; cbn [bind]; [|eauto]
  end.
  exfalso. simpl in Hq.
  repeat (destruct Hq as [<- | Hq]; [congruence|]). exact Hq.
Qed.

Lemma load_tables_merge_fails (eng : engine)
    (users documents document_types departments : DataFrame) (e : exn) :
  read_sql "SELECT * FROM dms_user"%string eng = Ok users ->
  read_sql "SELECT * FROM dms_documents"%string eng = Ok documents ->
  read_sql "SELECT * FROM document_types"%string eng = Ok document_types ->
  read_sql "SELECT * FROM departments"%string eng = Ok departments ->
  merge_left documents document_types "doc_type"%string "type_id"%string
             ("_x"%string, "_y"%string) = Raise e
  \/ merge_left users departments "department_id"%string "department_id"%string
                ("_user"%string, "_dept"%string) = Raise e ->
  exists e', load_tables engine read_sql eng = Raise e'.
Proof.
  intros Hu Hd Ht Hp Hm. unfold load_tables.
  rewrite Hu, Hd, Ht, Hp. cbn [bind].
  repeat match goal with
  | |- context [bind (read_sql ?q' eng) _] =>
      let E := fresh "E" in
      destruct (read_sql q' eng) eqn:E; cbn [bind]; [|eauto]
  end.
  destruct Hm as [Hm | Hm].
  - rewrite Hm. cbn [bind]. eauto.
  - destruct (merge_left documents document_types _ _ _); cbn [bind];
      [|eauto].
    rewrite Hm. cbn [bind]. eauto.
Qed.

(** A mapping comes out only when every step went through. *)
Lemma load_tables_complete (eng : engine) (d : dict) :
  load_tables engine read_sql eng = Ok d ->
  map fst d = table_names
  /\ (forall q, In q queries -> is_ok (read_sql q eng) = true).
Proof.
  unfold load_tables.
  repeat match goal with
  | |- context [bind (read_sql ?q' eng) _] =>
      let E := fresh "E" in
      destruct (read_sql q' eng) eqn:E; cbn [bind]; [|discriminate]
  end.
  destruct (merge_left _ _ "doc_type" _ _); cbn [bind]; [|discriminate].
  destruct (merge_left _ _ "department_id" _ _); cbn [bind]; [|discriminate].
  intros [= <-]. split; [reflexivity|].
  intros q Hq. simpl in Hq.
  repeat (destruct Hq as [<- | Hq];
          [match goal with H : read_sql _ eng = Ok _ |- _ =>
             now rewrite H end|]).
  contradiction.
Qed.

End LoaderFacts.

(** C8. When the connection cannot be made, when one of the eight reads
    raises, or when one of the two joins raises, [load_data] returns [None];
    and a mapping it returns holds the eight tables, every read having
    succeeded. *)
Theorem load_data_all_or_nothing (engine : Type)
    (create_engine : string -> result engine)
    (read_sql : string -> engine -> result DataFrame) :
  (forall e, create_engine db_url = Raise e ->
             load_data engine create_engine read_sql = None)
  /\ (forall eng q e,
        create_engine db_url = Ok eng ->
        In q queries -> read_sql q eng = Raise e ->
        load_data engine create_engine read_sql = None)
  /\ (forall eng users documents document_types departments e,
        create_engine db_url = Ok eng ->
        read_sql "SELECT * FROM dms_user"%string eng = Ok users ->
        read_sql "SELECT * FROM dms_documents"%string eng = Ok documents ->
        read_sql "SELECT * FROM document_types"%string eng
        = Ok document_types ->
        read_sql "SELECT * FROM departments"%string eng = Ok departments ->
        merge_left documents document_types "doc_type"%string "type_id"%string
                   ("_x"%string, "_y"%string) = Raise e
        \/ merge_left users departments
                      "department_id"%string "department_id"%string
                      ("_user"%string, "_dept"%string) = Raise e ->
        load_data engine create_engine read_sql = None)
  /\ (forall d,
        load_data engine create_engine read_sql = Some d ->
        map fst d = table_names
        /\ exists eng,
             create_engine db_url = Ok eng
             /\ forall q, In q queries -> is_ok (read_sql q eng) = true).
Proof.
  unfold load_data, init_connection.
  split; [|split; [|split]].
  - intros e ->. reflexivity.
  - intros eng q e -> Hq Hr. cbn [try_or_none].
    destruct (load_tables_read_fails engine read_sql eng q e Hq Hr) as [e' ->].
    reflexivity.
  - intros eng users documents document_types departments e -> Hu Hd Ht Hp Hm.
    cbn [try_or_none].
    destruct (load_tables_merge_fails engine read_sql eng _ _ _ _ e
                Hu Hd Ht Hp Hm) as [e' ->].
    reflexivity.
  - intros d. destruct (create_engine db_url) as [eng|e]; cbn [try_or_none];
      [|discriminate].
    destruct (load_tables engine read_sql eng) as [d'|e] eqn:E;
      cbn [try_or_none]; [|discriminate].
    intros [= <-]. destruct (load_tables_complete engine read_sql eng d' E)
      as [Hk Hq].
    split; [exact Hk|]. exists eng. split; [reflexivity | exact Hq].
Qed.

Lemma load_data_all_or_nothing_witness :
  Samples.read_sql_failing "SELECT * FROM notifications" tt
  = Raise OperationalError
  /\ load_data unit Samples.create_engine Samples.read_sql_failing = None.
Proof.
  split; [reflexivity|].
  apply (proj1 (proj2 (load_data_all_or_nothing unit Samples.create_engine
                         Samples.read_sql_failing))
               tt "SELECT * FROM notifications"%string OperationalError).
  - reflexivity.
  - simpl. tauto.
  - reflexivity.
Defined.

(** The loader on the sample database: eight tables, the documents joined
    with their types without losing the two whose type is unknown; and
    nothing at all when a key column of a join is missing. *)
Example load_data_sample :
  option_map (map fst) (load_data unit Samples.create_engine Samples.read_sql)
  = Some table_names
  /\ len Samples.documents = len Samples.dms_documents
  /\ load_data unit Samples.create_engine
       (fun q e => if String.eqb q "SELECT * FROM document_types"
                   then Ok Samples.no_rows else Samples.read_sql q e)
     = None.
Proof. repeat split; reflexivity. Qed.

(** ** Text safety *)

(** Apart from the metadata block every text is sanitized or made of
    digits and literals. The lemmas below establish it, so that the defect
    of C5 is the only way a character outside ASCII reaches the report. *)

Section AsciiFacts.

Lemma is_ascii_uint (d : Decimal.uint) :
  is_ascii (lit (NilEmpty.string_of_uint d)) = true.
Proof. induction d; simpl; auto. Qed.

Lemma is_ascii_str_of_Z (z : Z) : is_ascii (str_of_Z z) = true.
Proof.
  unfold str_of_Z, NilZero.string_of_int, NilZero.string_of_uint.
  destruct (Z.to_int z) as [d|d]; destruct d; try reflexivity;
    simpl; apply is_ascii_uint.
Qed.

Lemma is_ascii_zero_pad (w : nat) (z : Z) : is_ascii (zero_pad w z) = true.
Proof.
  unfold zero_pad. rewrite is_ascii_app, is_ascii_str_of_Z, andb_true_r.
  induction (w - List.length (str_of_Z z))%nat; simpl; auto.
Qed.

Lemma is_ascii_ymd_days (d : Z) : is_ascii (strftime_ymd_days d) = true.
Proof.
  unfold strftime_ymd_days. destruct (civil_of_days d) as [[y m] dd].
  rewrite !is_ascii_app, !is_ascii_zero_pad. reflexivity.
Qed.

Lemma is_ascii_ymd (t : timestamp) : is_ascii (strftime_ymd t) = true.
Proof. apply is_ascii_ymd_days. Qed.

Lemma is_ascii_ymd_hm (t : timestamp) : is_ascii (strftime_ymd_hm t) = true.
Proof.
  unfold strftime_ymd_hm.
  rewrite !is_ascii_app, is_ascii_ymd, !is_ascii_zero_pad. reflexivity.
Qed.

Lemma is_ascii_ymd_hms (t : timestamp) : is_ascii (strftime_ymd_hms t) = true.
Proof.
  unfold strftime_ymd_hms.
  rewrite !is_ascii_app, is_ascii_ymd_hm, is_ascii_zero_pad. reflexivity.
Qed.

Lemma in_firstn {A} (n : nat) (l : list A) (x : A) :
  In x (firstn n l) -> In x l.
Proof.
  revert l. induction n as [|n IH]; intros [|a l]; simpl; try tauto.
  intros [->|H]; auto.
Qed.

Lemma is_ascii_firstn (n : nat) (s : pystr) :
  is_ascii s = true -> is_ascii (firstn n s) = true.
Proof.
  unfold is_ascii. rewrite !forallb_forall. intros H c Hc.
  apply H. now apply in_firstn in Hc.
Qed.

(** [str()] of an ASCII value is ASCII. *)
Lemma is_ascii_py_str (v : value) :
  ascii_value v = true -> is_ascii (py_str v) = true.
Proof.
  destruct v; simpl; intros H; try reflexivity; auto.
  - apply is_ascii_str_of_Z.
  - apply is_ascii_ymd_hms.
Qed.

(** [safe_text] always returns ASCII. *)
Lemma is_ascii_safe_text (v : value) : is_ascii (safe_text v) = true.
Proof.
  destruct v; cbn [safe_text py_str]; try reflexivity.
  - apply is_ascii_str_of_Z.
  - apply sanitize_is_ascii.
  - apply is_ascii_ymd_hms.
Qed.

Lemma is_ascii_truncate_title (n : nat) (title : value) :
  is_ascii (truncate_title n title) = true.
Proof.
  unfold truncate_title. destruct (n <? List.length (py_str title))%nat.
  - rewrite is_ascii_app, is_ascii_firstn by apply is_ascii_safe_text.
    reflexivity.
  - apply is_ascii_safe_text.
Qed.

Lemma texts_app (a b : list fpdf_op) : texts (a ++ b) = texts a ++ texts b.
Proof. apply flat_map_app. Qed.

Lemma texts_cells {A} (f : A -> fpdf_op) (g : A -> pystr) (l : list A) :
  (forall a, texts [f a] = [g a]) -> texts (map f l) = map g l.
Proof.
  intros H. induction l as [|a l IH]; [reflexivity|].
  change (texts ([f a] ++ map f l) = g a :: map g l).
  now rewrite texts_app, H, IH.
Qed.

Lemma footer_ascii (n : nat) : forallb is_ascii (texts (footer n)) = true.
Proof.
  unfold footer. cbn [texts flat_map app forallb].
  rewrite is_ascii_app, is_ascii_str_of_Z. reflexivity.
Qed.

(** Whatever a call is given, what it writes is ASCII as soon as its own
    text is. *)
Lemma run_ascii (n : nat) (c : call) :
  ascii_call c = true -> forallb is_ascii (texts (fst (run n c))) = true.
Proof.
  destruct c; cbn [run fst ascii_call]; intros H; try reflexivity.
  - unfold run_add_page. rewrite texts_app, forallb_app.
    destruct (n =? 0)%nat; [reflexivity|]. now rewrite footer_ascii.
  - cbn [texts flat_map app forallb]. now rewrite H.
  - unfold run_chapter_title. cbn [texts flat_map app forallb]. now rewrite H.
  - unfold run_add_metric_card. cbn [texts flat_map app forallb].
    rewrite !is_ascii_app, !is_ascii_safe_text. reflexivity.
  - unfold run_add_table_header.
    change (forallb is_ascii
              (texts (map (fun ih : nat * pystr =>
                        FCell (nth (fst ih) col_widths 0) 10
                              (safe_text (VStr (snd ih))) 1 0 "C" true)
                     (enumerate_from 0 headers) ++ [FLn None])) = true).
    rewrite texts_app, forallb_app.
    rewrite (texts_cells _ (fun ih => safe_text (VStr (snd ih))))
      by reflexivity.
    rewrite andb_true_r. apply forallb_forall. intros s Hs.
    apply in_map_iff in Hs as (ih & <- & _). apply is_ascii_safe_text.
  - unfold run_add_table_row.
    change (forallb is_ascii
              (texts (map (fun ic : nat * value =>
                        FCell (nth (fst ic) col_widths 0) 8
                              (safe_text (snd ic)) 1 0 "L" false)
                     (enumerate_from 0 data) ++ [FLn None])) = true).
    rewrite texts_app, forallb_app.
    rewrite (texts_cells _ (fun ic => safe_text (snd ic))) by reflexivity.
    rewrite andb_true_r. apply forallb_forall. intros s Hs.
    apply in_map_iff in Hs as (ic & <- & _). apply is_ascii_safe_text.
Qed.

Lemma run_all_ascii (p : pdf) (n : nat) :
  forallb ascii_call p = true ->
  forallb is_ascii (texts (run_all n p)) = true.
Proof.
  revert n. induction p as [|c p IH]; intros n H.
  - cbn [run_all]. destruct (n =? 0)%nat; [reflexivity | apply footer_ascii].
  - cbn [forallb] in H. apply andb_true_iff in H as [Hc Hp].
    cbn [run_all]. pose proof (run_ascii n c Hc) as Hr.
    destruct (run n c) as [ops n']. cbn [fst] in Hr.
    now rewrite texts_app, forallb_app, Hr, IH.
Qed.

End AsciiFacts.

Section SafetyFacts.

Lemma Ok_inj {A} (a b : A) : Ok a = Ok b -> a = b.
Proof. now intros [= ->]. Qed.

Lemma join_ascii (sep : pystr) (parts : list pystr) :
  is_ascii sep = true -> forallb is_ascii parts = true ->
  is_ascii (join sep parts) = true.
Proof.
  intros Hsep. induction parts as [|p ps IH]; [reflexivity|].
  intros H. cbn [forallb] in H. apply andb_true_iff in H as [Hp Hps].
  destruct ps as [|q ps]; [exact Hp|].
  change (is_ascii (p ++ sep ++ join sep (q :: ps)) = true).
  now rewrite !is_ascii_app, Hp, Hsep, (IH Hps).
Qed.

Lemma join_values_ascii (sep : pystr) (xs : list value) (s : pystr) :
  is_ascii sep = true -> forallb ascii_value xs = true ->
  join_values sep xs = Ok s -> is_ascii s = true.
Proof.
  intros Hsep Hxs. unfold join_values.
  assert (Hparts : forall parts,
            map_result (fun v => match v with
                                 | VStr s => Ok s
                                 | _ => Raise TypeError
                                 end) xs = Ok parts ->
            forallb is_ascii parts = true).
  { induction xs as [|x xs IH]; cbn [map_result]; intros parts.
    - now intros [= <-].
    - cbn [forallb] in Hxs. apply andb_true_iff in Hxs as [Hx Hxs'].
      destruct x; cbn [bind]; try discriminate.
      destruct (map_result _ xs) as [ps|e]; cbn [bind]; [|discriminate].
      intros [= <-]. cbn [forallb]. cbn [ascii_value] in Hx.
      now rewrite Hx, (IH Hxs' ps eq_refl). }
  destruct (map_result _ xs) as [parts|e]; cbn [bind]; [|discriminate].
  intros [= <-]. apply join_ascii; auto.
Qed.

Lemma selection_line_ascii (sel : list value) (all s : pystr) :
  is_ascii all = true -> forallb ascii_value sel = true ->
  match sel with
  | [] => Ok all
  | _ => join_values (lit ", ") sel
  end = Ok s ->
  is_ascii s = true.
Proof.
  intros Hall Hsel. destruct sel as [|v sel].
  - now intros [= <-].
  - now apply join_values_ascii.
Qed.

Lemma report_metadata_ascii now date_range department_filter doc_type_filter p :
  forallb ascii_value department_filter = true ->
  forallb ascii_value doc_type_filter = true ->
  report_metadata now date_range department_filter doc_type_filter = Ok p ->
  forallb ascii_call p = true.
Proof.
  intros Hd Ht. unfold report_metadata.
  destruct (getitem date_range 0) as [d0|e]; cbn [bind]; [|discriminate].
  destruct (getitem date_range 1) as [d1|e]; cbn [bind]; [|discriminate].
  destruct (match department_filter with
            | [] => Ok (lit "All Departments")
            | _ => join_values (lit ", ") department_filter
            end) as [depts|e] eqn:Ed; cbn [bind]; [|discriminate].
  destruct (match doc_type_filter with
            | [] => Ok (lit "All Types")
            | _ => join_values (lit ", ") doc_type_filter
            end) as [types|e] eqn:Et; cbn [bind]; [|discriminate].
  intros E. apply Ok_inj in E. subst p.
  apply selection_line_ascii in Ed; [|reflexivity|exact Hd].
  apply selection_line_ascii in Et; [|reflexivity|exact Ht].
  cbn [forallb ascii_call].
  unfold str_of_date.
  rewrite !is_ascii_app, is_ascii_ymd_hms, !is_ascii_ymd_days, Ed, Et.
  reflexivity.
Qed.

Lemma count_lines_ascii (unit : string) (counts : list (value * nat)) :
  is_ascii (lit unit) = true ->
  forallb ascii_call (count_lines unit counts) = true.
Proof.
  intros Hu. apply forallb_forall. intros c Hc. unfold count_lines in Hc.
  apply in_map_iff in Hc as (vc & <- & _). cbn [ascii_call].
  now rewrite !is_ascii_app, is_ascii_safe_text, is_ascii_str_of_Z, Hu.
Qed.

Lemma breakdown_ascii (df : DataFrame) (c heading unit : string) :
  is_ascii (lit heading) = true -> is_ascii (lit unit) = true ->
  forallb ascii_call (breakdown df c heading unit) = true.
Proof.
  intros Hh Hu. unfold breakdown. destruct (has_column c df); [|reflexivity].
  rewrite !forallb_app, (count_lines_ascii _ _ Hu).
  cbn [forallb ascii_call]. now rewrite Hh.
Qed.

Lemma document_analysis_ascii (docs : DataFrame) :
  forallb ascii_call (document_analysis docs) = true.
Proof.
  unfold document_analysis. cbn [forallb]. rewrite forallb_app.
  destruct (negb (empty docs)).
  - now rewrite forallb_app, !breakdown_ascii.
  - reflexivity.
Qed.

Lemma user_analysis_ascii (data : dict) :
  forallb ascii_call (user_analysis data) = true.
Proof.
  unfold user_analysis. cbn [forallb]. rewrite forallb_app.
  destruct (dict_get "users" data) as [users|]; [|reflexivity].
  destruct (negb (empty users)).
  - now rewrite forallb_app, !breakdown_ascii.
  - reflexivity.
Qed.

Lemma row_get_default (df : DataFrame) (r : row) (c : string) (d1 d2 : value) :
  has_column c df = true -> row_get df r c d1 = row_get df r c d2.
Proof.
  unfold has_column, row_get.
  destruct (index_of c (columns df)); [reflexivity | discriminate].
Qed.

Lemma recent_entry_ascii (df : DataFrame) (r : row) :
  ascii_value (row_get df r "created_at" NA) = true ->
  forallb ascii_call (recent_entry df r) = true.
Proof.
  intros H. unfold recent_entry. cbn [forallb ascii_call].
  rewrite !is_ascii_app, is_ascii_truncate_title, !is_ascii_safe_text.
  assert (Hc : is_ascii (py_str (format_created strftime_ymd_hm
                                   (row_get df r "created_at" NA))) = true).
  { destruct (row_get df r "created_at" NA); cbn [format_created];
      try (apply is_ascii_py_str; exact H).
    apply is_ascii_ymd_hm. }
  now rewrite Hc.
Qed.

Lemma in_sort_desc (key : row -> option Z) (rs : list row) (r : row) :
  In r (sort_desc key rs) -> In r rs.
Proof. apply Permutation_in, sort_desc_perm. Qed.

Lemma recent_activity_ascii (docs : DataFrame) (p : pdf) :
  forallb ascii_value (column docs "created_at") = true ->
  recent_activity docs = Ok p -> forallb ascii_call p = true.
Proof.
  intros Hcol. unfold recent_activity.
  destruct (negb (empty docs) && has_column "created_at" docs) eqn:G.
  - apply andb_true_iff in G as [_ Hc].
    unfold recent_docs, nlargest.
    destruct (dtype_of "created_at" (columns docs)) as [d|]; cbn [bind];
      [|discriminate].
    assert (Hentries : forall df rs,
              columns df = columns docs ->
              (forall r, In r rs -> In r (rows docs)) ->
              forallb ascii_call (flat_map (recent_entry df) rs) = true).
    { intros df rs Hcols. rewrite (recent_entries_columns df docs rs Hcols).
      unfold column in Hcol. rewrite forallb_forall in Hcol.
      induction rs as [|r rs IH]; intros Hin; [reflexivity|].
      cbn [flat_map]. rewrite forallb_app, recent_entry_ascii.
      - apply IH. intros r' Hr'. apply Hin. now right.
      - rewrite (row_get_default docs r "created_at" NA VNone Hc).
        apply Hcol.
        apply in_map with (f := fun r => row_get docs r "created_at" VNone).
        apply Hin. now left. }
    destruct d; cbn [bind]; try discriminate;
      intros E; apply Ok_inj in E; subst p;
      cbn [forallb ascii_call rows]; rewrite !forallb_app;
      (rewrite Hentries;
       [reflexivity | reflexivity |
        intros r Hr; apply in_firstn in Hr; now apply in_sort_desc in Hr]).
  - cbn [bind]. intros [= <-]. reflexivity.
Qed.

Lemma detailed_document_list_ascii (docs : DataFrame) :
  forallb ascii_call (detailed_document_list docs) = true.
Proof.
  unfold detailed_document_list.
  destruct (negb (empty docs) && (len docs <=? 20)%nat); [|reflexivity].
  cbn [forallb ascii_call]. apply forallb_forall. intros c Hc.
  apply in_map_iff in Hc as (r & <- & _). reflexivity.
Qed.

(** A report is ASCII throughout as soon as the selections echoed by the
    metadata block are, the cells of [created_at] being dates, numbers or
    nulls (or ASCII strings). *)
Lemma report_ascii_outside_metadata now data docs date_range
    department_filter doc_type_filter p :
  forallb ascii_value department_filter = true ->
  forallb ascii_value doc_type_filter = true ->
  forallb ascii_value (column docs "created_at") = true ->
  create_pdf_report now data docs date_range department_filter
                    doc_type_filter = Ok p ->
  forallb is_ascii (texts (operations p)) = true.
Proof.
  intros Hd Ht Hc. unfold create_pdf_report.
  destruct (report_metadata now date_range department_filter doc_type_filter)
    as [metadata|e] eqn:Hm; cbn [bind]; [|discriminate].
  destruct (recent_activity docs) as [recent|e] eqn:Hr; cbn [bind];
    [|discriminate].
  intros E. apply Ok_inj in E. subst p. apply run_all_ascii.
  rewrite !forallb_app.
  rewrite (report_metadata_ascii _ _ _ _ _ Hd Ht Hm).
  rewrite document_analysis_ascii, user_analysis_ascii.
  rewrite (recent_activity_ascii _ _ Hc Hr), detailed_document_list_ascii.
  reflexivity.
Qed.

(** [create_pdf_report] returns a report when the date range has its two
    dates, the selections are strings, and [created_at], if the documents
    have it, is not an object column. *)
Lemma create_pdf_report_returns now data docs start stop
    department_filter doc_type_filter :
  forallb is_str department_filter = true ->
  forallb is_str doc_type_filter = true ->
  dtype_of "created_at" (columns docs) <> Some DObject ->
  exists p,
    create_pdf_report now data docs [start; stop] department_filter
                      doc_type_filter = Ok p.
Proof.
  intros Hd Ht Hc.
  assert (Hjoin : forall xs, forallb is_str xs = true ->
            exists s, join_values (lit ", ") xs = Ok s).
  { intros xs Hxs. unfold join_values.
    assert (exists parts,
              map_result (fun v => match v with
                                   | VStr s => Ok s
                                   | _ => Raise TypeError
                                   end) xs = Ok parts) as [parts ->].
    { induction xs as [|x xs IH]; cbn [map_result]; [eauto|].
      cbn [forallb] in Hxs. apply andb_true_iff in Hxs as [Hx Hxs].
      destruct x; try discriminate. cbn [bind].
      destruct (IH Hxs) as [ps ->]. cbn [bind]. eauto. }
    cbn [bind]. eauto. }
  assert (Hsel : forall xs all, forallb is_str xs = true ->
            exists s, match xs with
                      | [] => Ok all
                      | _ => join_values (lit ", ") xs
                      end = Ok s).
  { intros [|x xs] all H; [eauto | now apply Hjoin]. }
  unfold create_pdf_report, report_metadata.
  cbn [getitem nth_error bind].
  destruct (Hsel department_filter (lit "All Departments") Hd) as [depts ->].
  destruct (Hsel doc_type_filter (lit "All Types") Ht) as [types ->].
  cbn [bind].
  assert (exists recent, recent_activity docs = Ok recent) as [recent ->].
  { unfold recent_activity, recent_docs, nlargest.
    destruct (negb (empty docs) && has_column "created_at" docs) eqn:G;
      [|cbn [bind]; eauto].
    apply andb_true_iff in G as [_ G].
    apply has_column_dtype in G as [d Hdt]. rewrite Hdt.
    destruct d; cbn [bind]; eauto. congruence. }
  cbn [bind]. eauto.
Qed.

End SafetyFacts.

(** C5 fails in the metadata block. With the department "Ingenieria",
    accent included, selected in the sidebar, the line "Departments: ..." is
    handed to [cell] as it is: the report holds a text that is not ASCII,
    and [safe_text] would have removed the accented letter. By
    [report_ascii_outside_metadata] the two lines that echo the selections
    are the only place where this can happen. *)
Theorem metadata_selection_not_sanitized :
  create_pdf_report Samples.now Samples.data Samples.documents Samples.january
                    [VStr Samples.ingenieria] []
  = Ok Samples.accented_report
  /\ In (lit "Departments: " ++ Samples.ingenieria)
        (texts (operations Samples.accented_report))
  /\ is_ascii (lit "Departments: " ++ Samples.ingenieria) = false
  /\ forallb is_ascii (texts (operations Samples.accented_report)) = false
  /\ safe_text (VStr Samples.ingenieria) = lit "Ingeniera".
Proof.
  split; [vm_compute; reflexivity|].
  split; [vm_compute; tauto|].
  repeat split; vm_compute; reflexivity.
Qed.

(** The same report without a selection holds ASCII text only, the
    mis-encoded title of the fifth document included. *)
Example report_without_selection_ascii :
  forallb is_ascii (texts (operations (Samples.report Samples.documents)))
  = true.
Proof. vm_compute. reflexivity. Qed.

(* ================================================================== *)
(** * Further properties of the code *)

(** ** The sanitizer and the methods that use it *)

Section SanitizerFacts.

Lemma starts_with_absent (c : codepoint) (old s : pystr) :
  ~ In c s -> starts_with (c :: old) s = false.
Proof.
  destruct s as [|a s']; [reflexivity|]. intros H. simpl.
  destruct (N.eqb_spec c a) as [->|Hne]; [|reflexivity].
  exfalso. apply H. now left.
Qed.

Lemma replace_absent (c : codepoint) (old new s : pystr) :
  ~ In c s -> replace (c :: old) new s = s.
Proof.
  unfold replace. induction s as [|a s' IH]; intros H; [reflexivity|].
  cbn [replace_from]. rewrite (starts_with_absent c old (a :: s') H).
  rewrite IH; [reflexivity|]. intros Hin. apply H. now right.
Qed.

(** An ASCII prefix is copied, and the scan goes on behind it. *)
Lemma replace_ascii_prefix (c : codepoint) (old new a t : pystr) :
  is_ascii_char c = false -> is_ascii a = true ->
  replace (c :: old) new (a ++ t) = a ++ replace (c :: old) new t.
Proof.
  intros Hc. unfold replace. induction a as [|x a IH]; intros Ha;
    [reflexivity|].
  cbn [is_ascii forallb] in Ha. apply andb_true_iff in Ha as [Hx Ha].
  cbn [app replace_from starts_with].
  destruct (N.eqb_spec c x) as [->|Hne]; [congruence|].
  cbn [andb]. f_equal. now apply IH.
Qed.

End SanitizerFacts.

(** X1. Whatever value it is given, [safe_text] returns ASCII text, and so
    the three methods that write through it ([add_metric_card],
    [add_table_header], [add_table_row]) hand only ASCII text to [cell]. *)
Theorem sanitizing_methods_write_ascii :
  (forall v, is_ascii (safe_text v) = true)
  /\ (forall title v,
        forallb is_ascii (texts (run_add_metric_card title v)) = true)
  /\ (forall headers col_widths,
        forallb is_ascii (texts (run_add_table_header headers col_widths))
        = true)
  /\ (forall data col_widths,
        forallb is_ascii (texts (run_add_table_row data col_widths)) = true).
Proof.
  split; [apply is_ascii_safe_text|].
  split.
  { intros title v. apply (run_ascii 0 (add_metric_card title v) eq_refl). }
  split.
  - intros headers col_widths.
    apply (run_ascii 0 (add_table_header headers col_widths) eq_refl).
  - intros data col_widths.
    apply (run_ascii 0 (add_table_row data col_widths) eq_refl).
Qed.

(** X2. On a text that holds neither U+00E2 nor U+00F0, the first
    character of the six known sequences, [safe_text] replaces nothing: it
    only drops the characters outside ASCII. A genuine bullet or check mark
    is dropped, not turned into its tag. *)
Theorem safe_text_only_strips (s : pystr) :
  ~ In 0xE2%N s -> ~ In 0xF0%N s ->
  safe_text (VStr s) = encode_ascii_ignore s.
Proof.
  intros H1 H2. cbn [safe_text py_str].
  unfold sanitize, bullet_seq, check_seq, cross_seq, chart_seq, doc_seq,
    refresh_seq.
  assert (R1 : forall old new, replace (0xE2%N :: old) new s = s)
    by (intros; now apply replace_absent).
  assert (R2 : forall old new, replace (0xF0%N :: old) new s = s)
    by (intros; now apply replace_absent).
  now rewrite !R1, !R2.
Qed.

Lemma safe_text_only_strips_witness :
  ~ In 0xE2%N [0x2022; 0x20; 0x41; 0x2705]%N
  /\ safe_text (VStr [0x2022; 0x20; 0x41; 0x2705]%N) = lit " A".
Proof.
  assert (H1 : ~ In 0xE2%N [0x2022; 0x20; 0x41; 0x2705]%N)
    by (simpl; intuition discriminate).
  assert (H2 : ~ In 0xF0%N [0x2022; 0x20; 0x41; 0x2705]%N)
    by (simpl; intuition discriminate).
  split; [exact H1|].
  rewrite (safe_text_only_strips _ H1 H2). reflexivity.
Defined.

Section SequenceFacts.

(** Scanning for a sequence that starts outside ASCII, in an ASCII text
    with a part [x] in the middle: only the scan of [x] matters. *)
Lemma replace_middle (c : codepoint) (old new a x y b : pystr) :
  is_ascii_char c = false -> is_ascii a = true -> is_ascii b = true ->
  replace_from (c :: old) new 0 (x ++ b)
  = y ++ replace_from (c :: old) new 0 b ->
  replace (c :: old) new (a ++ x ++ b) = a ++ y ++ b.
Proof.
  intros Hc Ha Hb H. rewrite replace_ascii_prefix by assumption.
  unfold replace. rewrite H.
  now rewrite (replace_ascii_fixed c old new b Hc Hb
               : replace_from _ _ 0 b = b).
Qed.

Lemma sanitize_tagged (a tag b : pystr) :
  is_ascii a = true -> is_ascii tag = true -> is_ascii b = true ->
  is_ascii (a ++ tag ++ b) = true.
Proof. intros Ha Ht Hb. now rewrite !is_ascii_app, Ha, Ht, Hb. Qed.

End SequenceFacts.

(** The sequence [x] between [a] and [b] is left alone ([seq_keep]) or
    becomes [tag] ([seq_swap]) by the innermost replacement still to be
    done; [seq_rest] finishes once the text is ASCII. *)
Ltac seq_keep x a b Ha Hb :=
  let x' := eval cbv delta [bullet_seq check_seq cross_seq chart_seq doc_seq
                            refresh_seq] in x in
  rewrite (replace_middle _ _ _ a x' x' b)
    by first [exact Ha | exact Hb | reflexivity].
Ltac seq_swap x tag a b Ha Hb :=
  let x' := eval cbv delta [bullet_seq check_seq cross_seq chart_seq doc_seq
                            refresh_seq] in x in
  rewrite (replace_middle _ _ _ a x' tag b)
    by first [exact Ha | exact Hb | reflexivity].
Ltac seq_rest tag a b Ha Hb :=
  let Hall := fresh "Hall" in
  pose proof (sanitize_tagged a tag b Ha eq_refl Hb) as Hall;
  repeat (rewrite (replace_ascii_fixed _ _ _ (a ++ tag ++ b))
            by first [exact Hall | reflexivity]);
  apply (encode_ascii_fixed _ Hall).

(** X3. Each of the six known sequences, standing in an ASCII text, is
    replaced by its tag, and the text around it is kept as it is. *)
Theorem safe_text_replaces_sequences (a b : pystr) :
  is_ascii a = true -> is_ascii b = true ->
  safe_text (VStr (a ++ bullet_seq ++ b)) = a ++ lit "-" ++ b
  /\ safe_text (VStr (a ++ check_seq ++ b)) = a ++ lit "[OK]" ++ b
  /\ safe_text (VStr (a ++ cross_seq ++ b)) = a ++ lit "[ERROR]" ++ b
  /\ safe_text (VStr (a ++ chart_seq ++ b)) = a ++ lit "[CHART]" ++ b
  /\ safe_text (VStr (a ++ doc_seq ++ b)) = a ++ lit "[DOC]" ++ b
  /\ safe_text (VStr (a ++ refresh_seq ++ b)) = a ++ lit "[REFRESH]" ++ b.
Proof.
  intros Ha Hb. cbn [safe_text py_str].
  unfold sanitize, bullet_seq, check_seq, cross_seq, chart_seq, doc_seq,
    refresh_seq.
  repeat split.
  - seq_swap bullet_seq (lit "-") a b Ha Hb. seq_rest (lit "-") a b Ha Hb.
  - seq_keep check_seq a b Ha Hb. seq_swap check_seq (lit "[OK]") a b Ha Hb.
    seq_rest (lit "[OK]") a b Ha Hb.
  - do 2 seq_keep cross_seq a b Ha Hb.
    seq_swap cross_seq (lit "[ERROR]") a b Ha Hb.
    seq_rest (lit "[ERROR]") a b Ha Hb.
  - do 3 seq_keep chart_seq a b Ha Hb.
    seq_swap chart_seq (lit "[CHART]") a b Ha Hb.
    seq_rest (lit "[CHART]") a b Ha Hb.
  - do 4 seq_keep doc_seq a b Ha Hb. seq_swap doc_seq (lit "[DOC]") a b Ha Hb.
    seq_rest (lit "[DOC]") a b Ha Hb.
  - do 5 seq_keep refresh_seq a b Ha Hb.
    seq_swap refresh_seq (lit "[REFRESH]") a b Ha Hb.
    seq_rest (lit "[REFRESH]") a b Ha Hb.
Qed.

Lemma safe_text_replaces_sequences_witness :
  is_ascii (lit "Status ") = true
  /\ safe_text (VStr (lit "Status " ++ check_seq ++ lit " done"))
     = lit "Status [OK] done".
Proof.
  split; [reflexivity|].
  apply (proj1 (proj2 (safe_text_replaces_sequences (lit "Status ")
                         (lit " done") eq_refl eq_refl))).
Defined.

(** X4. The title of a recent document or of a table row: when
    [str(title)] is longer than the limit [n], what is written has at most
    [n + 3] characters; and an ASCII title is written as it is when it has at
    most [n] characters, cut to its first [n] characters and followed by
    "..." otherwise. *)
Theorem truncate_title_bound (n : nat) (title : value) :
  ((n < List.length (py_str title))%nat ->
   (List.length (truncate_title n title) <= n + 3)%nat)
  /\ (forall s, title = VStr s -> is_ascii s = true ->
        truncate_title n title
        = if (n <? List.length s)%nat then firstn n s ++ lit "..." else s).
Proof.
  split.
  - intros H. unfold truncate_title. apply Nat.ltb_lt in H. rewrite H.
    rewrite length_app, length_firstn. cbn [lit List.length]. simpl. lia.
  - intros s -> Hs. unfold truncate_title. cbn [py_str safe_text].
    now rewrite (sanitize_ascii_fixed s Hs).
Qed.

Lemma truncate_title_bound_witness :
  (3 < List.length (py_str (VStr (lit "Memorandum"))))%nat
  /\ (List.length (truncate_title 3 (VStr (lit "Memorandum"))) <= 3 + 3)%nat.
Proof.
  assert (H : (3 < List.length (py_str (VStr (lit "Memorandum"))))%nat)
    by (cbn; lia).
  split; [exact H|].
  apply (proj1 (truncate_title_bound 3 (VStr (lit "Memorandum"))) H).
Defined.

(** A title within the limit is not cut, and the tags make it longer than
    the limit: five mis-encoded cross marks, 10 characters, are written on
    35. *)
Example truncate_title_short_title_grows :
  List.length (py_str (VStr (List.concat (repeat cross_seq 5)))) = 10%nat
  /\ List.length (truncate_title 20 (VStr (List.concat (repeat cross_seq 5))))
     = 35%nat.
Proof. split; reflexivity. Qed.

(** ** The report as a whole *)

Section ReportStructureFacts.

Lemma join_values_ok (sep : pystr) (xs : list value) :
  is_ok (join_values sep xs) = forallb is_str xs.
Proof.
  unfold join_values.
  assert (H : is_ok (map_result (fun v => match v with
                                          | VStr s => Ok s
                                          | _ => Raise TypeError
                                          end) xs) = forallb is_str xs).
  { induction xs as [|x xs IH]; [reflexivity|].
    cbn [map_result forallb]. rewrite <- IH.
    destruct x; try reflexivity. cbn [bind is_str andb].
    now destruct (map_result _ xs). }
  rewrite <- H. now destruct (map_result _ xs).
Qed.

Lemma selection_line_ok (sel : list value) (all : pystr) :
  is_ok (match sel with
         | [] => Ok all
         | _ => join_values (lit ", ") sel
         end) = forallb is_str sel.
Proof. destruct sel; [reflexivity | apply join_values_ok]. Qed.

Lemma report_metadata_ok now date_range department_filter doc_type_filter :
  is_ok (report_metadata now date_range department_filter doc_type_filter)
  = (2 <=? List.length date_range)%nat
    && forallb is_str department_filter && forallb is_str doc_type_filter.
Proof.
  unfold report_metadata.
  destruct date_range as [|d0 [|d1 dr]]; try reflexivity.
  cbn [getitem nth_error bind List.length Nat.leb andb].
  rewrite <- (selection_line_ok department_filter (lit "All Departments")).
  rewrite <- (selection_line_ok doc_type_filter (lit "All Types")).
  destruct (match department_filter with
            | [] => Ok (lit "All Departments")
            | _ => join_values (lit ", ") department_filter
            end); cbn [bind is_ok andb]; [|reflexivity].
  now destruct (match doc_type_filter with
                | [] => Ok (lit "All Types")
                | _ => join_values (lit ", ") doc_type_filter
                end).
Qed.

(** The only thing [recent_activity] can fail on is an object column. *)
Lemma recent_activity_ok (docs : DataFrame) :
  is_ok (recent_activity docs)
  = negb (negb (empty docs)
          && match dtype_of "created_at" (columns docs) with
             | Some DObject => true
             | _ => false
             end).
Proof.
  unfold recent_activity, recent_docs, nlargest, has_column.
  destruct (empty docs); [reflexivity|]. cbn [negb andb].
  pose proof (has_column_dtype "created_at" docs) as H.
  unfold has_column in H.
  destruct (index_of "created_at" (columns docs)).
  - destruct (proj1 H eq_refl) as [d ->]. now destruct d.
  - destruct (dtype_of "created_at" (columns docs)) as [d|] eqn:E;
      [|reflexivity].
    assert (false = true) by (apply H; eauto). discriminate.
Qed.

Lemma chapter_titles_app (p q : pdf) :
  chapter_titles (p ++ q) = chapter_titles p ++ chapter_titles q.
Proof. apply flat_map_app. Qed.

Lemma chapter_titles_none (p : pdf) :
  forallb (fun c => match c with chapter_title _ => false | _ => true end) p
  = true ->
  chapter_titles p = [].
Proof.
  induction p as [|c p IH]; [reflexivity|]. cbn [forallb].
  intros H. apply andb_true_iff in H as [Hc Hp].
  destruct c; try discriminate; cbn [chapter_titles flat_map app];
    now apply IH.
Qed.

Lemma chapter_titles_breakdown (df : DataFrame) (c heading unit : string) :
  chapter_titles (breakdown df c heading unit) = [].
Proof.
  apply chapter_titles_none. unfold breakdown.
  destruct (has_column c df); [|reflexivity].
  rewrite !forallb_app. cbn [forallb andb]. rewrite andb_true_r.
  apply forallb_forall. intros x Hx. unfold count_lines in Hx.
  apply in_map_iff in Hx as (vc & <- & _). reflexivity.
Qed.

Lemma chapter_titles_document_analysis (docs : DataFrame) :
  chapter_titles (document_analysis docs) = [lit "DOCUMENT ANALYSIS"].
Proof.
  unfold document_analysis.
  change (chapter_titles
            ([chapter_title (lit "DOCUMENT ANALYSIS")]
             ++ (if negb (empty docs)
                 then breakdown docs "name" "Documents by Type:" "documents"
                      ++ breakdown docs "status" "Documents by Status:"
                                   "documents"
                 else [cell 0 8
                         (lit "No document data available for selected filters")
                         0 1])
             ++ [ln 10]) = [lit "DOCUMENT ANALYSIS"]).
  rewrite !chapter_titles_app. destruct (negb (empty docs)).
  - now rewrite chapter_titles_app, !chapter_titles_breakdown.
  - reflexivity.
Qed.

Lemma chapter_titles_user_analysis (data : dict) :
  chapter_titles (user_analysis data) = [lit "USER ANALYSIS"].
Proof.
  unfold user_analysis.
  change (chapter_titles
            ([chapter_title (lit "USER ANALYSIS")]
             ++ (match dict_get "users" data with
                 | Some users =>
                     if negb (empty users)
                     then breakdown users "role" "Users by Role:" "users"
                          ++ breakdown users "status" "Users by Status:" "users"
                     else [cell 0 8 (lit "No user data available") 0 1]
                 | None => [cell 0 8 (lit "No user data available") 0 1]
                 end)
             ++ [ln 10]) = [lit "USER ANALYSIS"]).
  rewrite !chapter_titles_app.
  destruct (dict_get "users" data) as [users|]; [|reflexivity].
  destruct (negb (empty users)); [|reflexivity].
  now rewrite chapter_titles_app, !chapter_titles_breakdown.
Qed.

Lemma chapter_titles_recent_entries (df : DataFrame) (rs : list row) :
  chapter_titles (flat_map (recent_entry df) rs) = [].
Proof.
  induction rs as [|r rs IH]; [reflexivity|].
  cbn [flat_map]. now rewrite chapter_titles_app, IH.
Qed.

Lemma chapter_titles_recent_activity (docs : DataFrame) (p : pdf) :
  recent_activity docs = Ok p -> chapter_titles p = [lit "RECENT ACTIVITY"].
Proof.
  unfold recent_activity.
  destruct (negb (empty docs) && has_column "created_at" docs).
  - destruct (recent_docs docs) as [recent|e]; cbn [bind]; [|discriminate].
    intros E. apply Ok_inj in E. subst p.
    change (chapter_titles
              ([chapter_title (lit "RECENT ACTIVITY")]
               ++ ([set_font "Arial" "B" 12;
                    cell 0 10 (lit "Recent Documents:") 0 1;
                    set_font "Arial" "" 10]
                   ++ flat_map (recent_entry recent) (rows recent))
               ++ [ln 10]) = [lit "RECENT ACTIVITY"]).
    now rewrite !chapter_titles_app, chapter_titles_recent_entries.
  - cbn [bind]. intros E. apply Ok_inj in E. now subst p.
Qed.

Lemma chapter_titles_report_metadata now date_range department_filter
    doc_type_filter p :
  report_metadata now date_range department_filter doc_type_filter = Ok p ->
  chapter_titles p = [].
Proof.
  unfold report_metadata.
  destruct (getitem date_range 0); cbn [bind]; [|discriminate].
  destruct (getitem date_range 1); cbn [bind]; [|discriminate].
  destruct (match department_filter with
            | [] => Ok (lit "All Departments")
            | _ => join_values (lit ", ") department_filter
            end); cbn [bind]; [|discriminate].
  destruct (match doc_type_filter with
            | [] => Ok (lit "All Types")
            | _ => join_values (lit ", ") doc_type_filter
            end); cbn [bind]; [|discriminate].
  intros E. apply Ok_inj in E. now subst p.
Qed.

Lemma chapter_titles_detailed (docs : DataFrame) :
  chapter_titles (detailed_document_list docs)
  = if negb (empty docs) && (len docs <=? 20)%nat
    then [lit "DETAILED DOCUMENT LIST"] else [].
Proof.
  unfold detailed_document_list.
  destruct (negb (empty docs) && (len docs <=? 20)%nat); [|reflexivity].
  cbn [chapter_titles flat_map app]. f_equal.
  induction (rows docs) as [|r rs IH]; [reflexivity|]. exact IH.
Qed.

Lemma widths_match_plain (p : pdf) :
  forallb plain p = true -> forallb widths_match p = true.
Proof.
  rewrite !forallb_forall. intros H c Hc. apply H in Hc.
  destruct c; try reflexivity; discriminate Hc.
Qed.

Lemma widths_match_detailed (docs : DataFrame) :
  forallb widths_match (detailed_document_list docs) = true.
Proof.
  unfold detailed_document_list.
  destruct (negb (empty docs) && (len docs <=? 20)%nat); [|reflexivity].
  cbn [forallb widths_match]. apply forallb_forall. intros c Hc.
  apply in_map_iff in Hc as (r & <- & _). reflexivity.
Qed.

End ReportStructureFacts.

(** X5. Every report begins with a page that holds nothing but the header
    and the footer "Page 1": the constructor of [CustomPDF] adds a page and
    [create_pdf_report] adds the next one before it writes anything. *)
Theorem report_first_page_blank now data docs date_range department_filter
    doc_type_filter p :
  create_pdf_report now data docs date_range department_filter
                    doc_type_filter = Ok p ->
  exists rest,
    operations p
    = FNewPage :: header ++ footer 1 ++ FNewPage :: header
      ++ FSetAutoPageBreak true 15 :: rest.
Proof.
  intros H. apply create_pdf_report_sections in H
    as (metadata & recent & _ & _ & ->).
  unfold operations. cbn [app run_all run run_add_page Nat.eqb].
  eexists. rewrite <- !app_assoc. cbn [app]. reflexivity.
Qed.

Lemma report_first_page_blank_witness :
  create_pdf_report Samples.now Samples.data Samples.documents
                    Samples.january [] []
  = Ok (Samples.report Samples.documents)
  /\ exists rest,
       operations (Samples.report Samples.documents)
       = FNewPage :: header ++ footer 1 ++ FNewPage :: header
         ++ FSetAutoPageBreak true 15 :: rest.
Proof.
  assert (H : create_pdf_report Samples.now Samples.data Samples.documents
                Samples.january [] []
              = Ok (Samples.report Samples.documents))
    by (vm_compute; reflexivity).
  split; [exact H|].
  exact (report_first_page_blank _ _ _ _ _ _ _ H).
Defined.

Section RaiseFacts.

Lemma join_values_raises (sep : pystr) (xs : list value) (e : exn) :
  join_values sep xs = Raise e -> e = TypeError.
Proof.
  unfold join_values.
  assert (H : forall e, map_result (fun v => match v with
                                             | VStr s => Ok s
                                             | _ => Raise TypeError
                                             end) xs = Raise e ->
                        e = TypeError).
  { induction xs as [|x xs IH]; intros e'; cbn [map_result]; [discriminate|].
    destruct x; cbn [bind]; try (intros [= <-]; reflexivity).
    destruct (map_result _ xs) as [parts|e0]; cbn [bind]; [discriminate|].
    intros [= <-]. now apply IH. }
  destruct (map_result _ xs) as [parts|e0]; cbn [bind]; [discriminate|].
  intros [= <-]. now apply H.
Qed.

Lemma selection_line_raises (sel : list value) (all : pystr) (e : exn) :
  match sel with
  | [] => Ok all
  | _ => join_values (lit ", ") sel
  end = Raise e -> e = TypeError.
Proof. destruct sel; [discriminate | apply join_values_raises]. Qed.

(** The metadata block raises [IndexError] on a range of fewer than two
    dates, and [TypeError] on a selection that is not text. *)
Lemma report_metadata_raises now date_range department_filter
    doc_type_filter (e : exn) :
  report_metadata now date_range department_filter doc_type_filter = Raise e ->
  (e = IndexError /\ (List.length date_range < 2)%nat)
  \/ (e = TypeError /\ (2 <= List.length date_range)%nat).
Proof.
  unfold report_metadata.
  destruct date_range as [|d0 [|d1 dr]];
    cbn [getitem nth_error bind List.length].
  - intros [= <-]. left. split; [reflexivity | lia].
  - intros [= <-]. left. split; [reflexivity | lia].
  - intros H. right. split; [|lia]. revert H.
    destruct (match department_filter with
              | [] => Ok (lit "All Departments")
              | _ => join_values (lit ", ") department_filter
              end) as [depts|e0] eqn:Ed; cbn [bind].
    + destruct (match doc_type_filter with
                | [] => Ok (lit "All Types")
                | _ => join_values (lit ", ") doc_type_filter
                end) as [types|e1] eqn:Et; cbn [bind]; [discriminate|].
      intros [= <-]. now apply selection_line_raises in Et.
    + intros [= <-]. now apply selection_line_raises in Ed.
Qed.

Lemma recent_activity_raises (docs : DataFrame) (e : exn) :
  recent_activity docs = Raise e -> e = TypeError.
Proof.
  unfold recent_activity, recent_docs, nlargest.
  destruct (negb (empty docs) && has_column "created_at" docs) eqn:G;
    cbn [bind]; [|discriminate].
  apply andb_true_iff in G as [_ G].
  apply has_column_dtype in G as [d Hd]. rewrite Hd.
  destruct d; cbn [bind]; try discriminate. now intros [= <-].
Qed.

End RaiseFacts.

(** X6. [create_pdf_report] returns a report exactly when the date range
    has at least two dates, every selected department and document type is
    a string, and the column [created_at] of a non-empty table of documents
    is not an object column; otherwise it raises: [IndexError] when the
    range has fewer than two dates, [TypeError] in the other cases. *)
Theorem create_pdf_report_ok_iff now data docs date_range department_filter
    doc_type_filter :
  (is_ok (create_pdf_report now data docs date_range department_filter
                            doc_type_filter) = true
   <-> (2 <= List.length date_range)%nat
       /\ forallb is_str department_filter = true
       /\ forallb is_str doc_type_filter = true
       /\ (empty docs = false ->
           dtype_of "created_at" (columns docs) <> Some DObject))
  /\ (forall e,
        create_pdf_report now data docs date_range department_filter
                          doc_type_filter = Raise e ->
        (e = IndexError /\ (List.length date_range < 2)%nat)
        \/ (e = TypeError /\ (2 <= List.length date_range)%nat)).
Proof.
  split.
  - pose proof (report_metadata_ok now date_range department_filter
                  doc_type_filter) as Hm.
    pose proof (recent_activity_ok docs) as Hr.
    unfold create_pdf_report.
    destruct (report_metadata now date_range department_filter
                              doc_type_filter)
      as [metadata|e]; destruct (recent_activity docs) as [recent|e'];
      cbn [bind is_ok] in *; symmetry in Hm; symmetry in Hr.
    + apply andb_true_iff in Hm as [Hm Ht].
      apply andb_true_iff in Hm as [Hd Hs]. apply Nat.leb_le in Hd.
      apply negb_true_iff in Hr.
      split; [intros _|reflexivity].
      repeat split; try assumption.
      intros He Hobj. now rewrite He, Hobj in Hr.
    + apply negb_false_iff, andb_true_iff in Hr as [He Hobj].
      apply negb_true_iff in He.
      split; [discriminate|]. intros (_ & _ & _ & H). exfalso.
      apply (H He).
      destruct (dtype_of "created_at" (columns docs)) as [[| |]|];
        congruence.
    + split; [discriminate|]. intros (Hd & Hs & Ht & _).
      apply Nat.leb_le in Hd. now rewrite Hd, Hs, Ht in Hm.
    + split; [discriminate|]. intros (Hd & Hs & Ht & _).
      apply Nat.leb_le in Hd. now rewrite Hd, Hs, Ht in Hm.
  - intros e. unfold create_pdf_report.
    pose proof (report_metadata_ok now date_range department_filter
                  doc_type_filter) as Hm.
    destruct (report_metadata now date_range department_filter
                              doc_type_filter)
      as [metadata|e0] eqn:Em; cbn [bind].
    + destruct (recent_activity docs) as [recent|e1] eqn:Er; cbn [bind];
        [discriminate|].
      intros [= <-]. right. split; [now apply recent_activity_raises in Er|].
      cbn [is_ok] in Hm. symmetry in Hm.
      apply andb_true_iff in Hm as [Hm _].
      apply andb_true_iff in Hm as [Hd _]. now apply Nat.leb_le in Hd.
    + intros [= <-]. now apply report_metadata_raises in Em.
Qed.

(** X7. A report has the chapters "EXECUTIVE SUMMARY", "DOCUMENT ANALYSIS",
    "USER ANALYSIS" and "RECENT ACTIVITY", in this order, followed by
    "DETAILED DOCUMENT LIST" exactly when it has the detailed table. *)
Theorem report_chapters now data docs date_range department_filter
    doc_type_filter p :
  create_pdf_report now data docs date_range department_filter
                    doc_type_filter = Ok p ->
  chapter_titles p
  = [ lit "EXECUTIVE SUMMARY"; lit "DOCUMENT ANALYSIS"; lit "USER ANALYSIS";
      lit "RECENT ACTIVITY" ]
    ++ (if has_detailed_table p then [lit "DETAILED DOCUMENT LIST"] else []).
Proof.
  intros H. destruct (report_table _ _ _ _ _ _ _ H) as (_ & _ & Ht).
  rewrite Ht, detailed_table_present. revert H. unfold create_pdf_report.
  destruct (report_metadata now date_range department_filter doc_type_filter)
    as [metadata|e] eqn:Hm; cbn [bind]; [|discriminate].
  destruct (recent_activity docs) as [recent|e] eqn:Hr; cbn [bind];
    [|discriminate].
  intros E. apply Ok_inj in E. subst p.
  rewrite !chapter_titles_app.
  rewrite (chapter_titles_report_metadata _ _ _ _ _ Hm).
  rewrite chapter_titles_document_analysis, chapter_titles_user_analysis.
  rewrite (chapter_titles_recent_activity _ _ Hr), chapter_titles_detailed.
  reflexivity.
Qed.

Lemma report_chapters_witness :
  create_pdf_report Samples.now Samples.data (Samples.many_documents 21)
                    Samples.january [] []
  = Ok (Samples.report (Samples.many_documents 21))
  /\ chapter_titles (Samples.report (Samples.many_documents 21))
     = [ lit "EXECUTIVE SUMMARY"; lit "DOCUMENT ANALYSIS";
         lit "USER ANALYSIS"; lit "RECENT ACTIVITY" ].
Proof.
  assert (H : create_pdf_report Samples.now Samples.data
                (Samples.many_documents 21) Samples.january [] []
              = Ok (Samples.report (Samples.many_documents 21)))
    by (vm_compute; reflexivity).
  split; [exact H|].
  rewrite (report_chapters _ _ _ _ _ _ _ H).
  vm_compute. reflexivity.
Defined.

(** X8. In a report every table line has as many cells as there are column
    widths, five: [add_table_header] and [add_table_row] never look for a
    width that is not there. *)
Theorem report_table_widths now data docs date_range department_filter
    doc_type_filter p :
  create_pdf_report now data docs date_range department_filter
                    doc_type_filter = Ok p ->
  forallb widths_match p = true
  /\ Forall (fun cells => List.length cells = 5%nat) (table_rows p).
Proof.
  intros H. split.
  - apply create_pdf_report_sections in H
      as (metadata & recent & Hm & Hr & ->).
    rewrite !forallb_app.
    rewrite (widths_match_plain _ Hm), (widths_match_plain _ Hr).
    rewrite (widths_match_plain _ (plain_document_analysis docs)).
    rewrite (widths_match_plain _ (plain_user_analysis data)).
    now rewrite widths_match_detailed.
  - destruct (report_table _ _ _ _ _ _ _ H) as (-> & _ & _).
    rewrite detailed_table_rows.
    destruct (negb (empty docs) && (len docs <=? 20)%nat); [|constructor].
    apply Forall_forall. intros cells Hc.
    apply in_map_iff in Hc as (r & <- & _). reflexivity.
Qed.

Lemma report_table_widths_witness :
  create_pdf_report Samples.now Samples.data Samples.documents
                    Samples.january [] []
  = Ok (Samples.report Samples.documents)
  /\ forallb widths_match (Samples.report Samples.documents) = true.
Proof.
  assert (H : create_pdf_report Samples.now Samples.data Samples.documents
                Samples.january [] []
              = Ok (Samples.report Samples.documents))
    by (vm_compute; reflexivity).
  split; [exact H|].
  exact (proj1 (report_table_widths _ _ _ _ _ _ _ H)).
Defined.

(** ** The numbers of the page and of the report *)

Section SelectionFacts.

Lemma filter_filter_and {A} (f g : A -> bool) (l : list A) :
  filter g (filter f l) = filter (fun a => f a && g a) l.
Proof.
  induction l as [|a l IH]; [reflexivity|]. simpl.
  destruct (f a); simpl; [destruct (g a)|]; now rewrite IH.
Qed.

Lemma filter_true {A} (l : list A) : filter (fun _ => true) l = l.
Proof. induction l as [|a l IH]; simpl; now rewrite ?IH. Qed.

Lemma filter_length_le {A} (f : A -> bool) (l : list A) :
  (List.length (filter f l) <= List.length l)%nat.
Proof.
  induction l as [|a l IH]; simpl; [lia|]. destruct (f a); simpl; lia.
Qed.

(** A comparison that went through gave, cell by cell, what each cell
    gives. *)
Lemma map_result_ok {A} (f : A -> result bool) (l : list A) (m : list bool) :
  map_result f l = Ok m ->
  m = map (fun a => match f a with Ok b => b | Raise _ => false end) l
  /\ forallb (fun a => is_ok (f a)) l = true.
Proof.
  revert m. induction l as [|a l IH]; cbn [map_result]; intros m.
  - intros E. apply Ok_inj in E. now subst m.
  - destruct (f a) as [b|e] eqn:Ea; cbn [bind]; [|discriminate].
    destruct (map_result f l) as [bs|e]; cbn [bind]; [|discriminate].
    intros E. apply Ok_inj in E. subst m.
    destruct (IH bs eq_refl) as [-> Hok].
    cbn [map forallb is_ok andb]. now rewrite Ea, Hok.
Qed.

Lemma map_result_all_ok {A} (f : A -> result bool) (l : list A) :
  forallb (fun a => is_ok (f a)) l = true ->
  map_result f l
  = Ok (map (fun a => match f a with Ok b => b | Raise _ => false end) l).
Proof.
  induction l as [|a l IH]; cbn [map_result forallb]; [reflexivity|].
  intros H. apply andb_true_iff in H as [Ha Hl]. rewrite (IH Hl).
  cbn [map]. destruct (f a); [reflexivity | discriminate Ha].
Qed.

(** What [filter_data] returns when it returns: the table itself, or its
    rows under [date_mask], no comparison having raised. *)
Lemma filter_data_result (date_range : list date) (df df' : DataFrame)
    (date_col : string) :
  filter_data date_range df date_col = Ok df' ->
  df' = df
  \/ exists start stop,
       date_range = [start; stop]
       /\ has_column date_col df = true
       /\ dtype_of date_col (columns df) <> Some DNumeric
       /\ forallb (fun v => is_ok (cmp_timestamp true (to_datetime start) v)
                            && is_ok (cmp_timestamp false (to_datetime stop) v))
                  (column df date_col) = true
       /\ df' = select df (date_mask df date_col (to_datetime start)
                                     (to_datetime stop)).
Proof.
  unfold filter_data.
  destruct ((List.length date_range =? 2)%nat && has_column date_col df)
    eqn:G.
  2:{ intros E. apply Ok_inj in E. now left. }
  apply andb_true_iff in G as [Hlen Hcol]. apply Nat.eqb_eq in Hlen.
  destruct date_range as [|start [|stop [|x dr]]]; try discriminate.
  cbn [getitem nth_error bind]. unfold compare_column.
  destruct (dtype_of date_col (columns df)) as [d|] eqn:Hd;
    [|cbn [bind]; discriminate].
  assert (Hnum : d <> DNumeric -> Some d <> Some DNumeric) by congruence.
  destruct d; cbn [bind]; try discriminate;
    (destruct (map_result (cmp_timestamp true (to_datetime start))
                          (column df date_col)) as [m1|e] eqn:E1;
     cbn [bind]; [|discriminate];
     destruct (map_result (cmp_timestamp false (to_datetime stop))
                          (column df date_col)) as [m2|e] eqn:E2;
     cbn [bind]; [|discriminate];
     intros E; apply Ok_inj in E; subst df';
     apply map_result_ok in E1 as [-> Hok1];
     apply map_result_ok in E2 as [-> Hok2];
     right; exists start, stop;
     split; [reflexivity|]; split; [exact Hcol|];
     split; [apply Hnum; discriminate|];
     split;
     [ rewrite forallb_forall in *; intros v Hv;
       now rewrite (Hok1 v Hv), (Hok2 v Hv)
     | unfold loc, select, column; f_equal;
       apply (loc_rows_filter
                (fun r => row_get df r date_col VNone)
                (fun v => match cmp_timestamp true (to_datetime start) v with
                          | Ok b => b
                          | Raise _ => false
                          end)
                (fun v => match cmp_timestamp false (to_datetime stop) v with
                          | Ok b => b
                          | Raise _ => false
                          end)) ]).
Qed.

(** Each step of the filters keeps the columns and selects rows. *)
Lemma filter_data_selects (date_range : list date) (df df' : DataFrame)
    (date_col : string) :
  filter_data date_range df date_col = Ok df' ->
  exists keep, df' = select df keep.
Proof.
  intros H. apply filter_data_result in H
    as [-> | (start & stop & _ & _ & _ & _ & ->)].
  - exists (fun _ => true). unfold select. rewrite filter_true.
    now destruct df.
  - eauto.
Qed.

Lemma apply_department_filter_selects (data : dict) (sel : list value)
    (df df' : DataFrame) :
  apply_department_filter data sel df = Ok df' ->
  exists keep, df' = select df keep.
Proof.
  unfold apply_department_filter.
  destruct (selected sel && table_has_column data "documents" "department_id").
  - destruct (dict_getitem data "departments") as [departments|e];
      cbn [bind]; [|discriminate].
    destruct (get_column departments "name"); cbn [bind]; [|discriminate].
    destruct (get_column (select departments _) "department_id")
      as [dept_ids|e]; cbn [bind]; [|discriminate].
    destruct (get_column df "department_id"); cbn [bind]; [|discriminate].
    intros E. apply Ok_inj in E. subst df'. eauto.
  - intros E. apply Ok_inj in E. subst df'.
    exists (fun _ => true). unfold select. rewrite filter_true.
    now destruct df.
Qed.

Lemma apply_doc_type_filter_selects (sel : list value) (df : DataFrame) :
  exists keep, apply_doc_type_filter sel df = select df keep.
Proof.
  unfold apply_doc_type_filter.
  destruct (selected sel && has_column "name" df); [eauto|].
  exists (fun _ => true). unfold select. rewrite filter_true.
  now destruct df.
Qed.

Lemma select_select (df : DataFrame) (f g : row -> bool) :
  select (select df f) g = select df (fun r => f r && g r).
Proof. unfold select. cbn [columns rows]. now rewrite filter_filter_and. Qed.

(** The filtered documents are a selection of the rows of
    [data['documents']]. *)
Lemma filtered_docs_selection (data : dict) (date_range : list date)
    (department_filter doc_type_filter : list value)
    (documents docs : DataFrame) :
  dict_get "documents" data = Some documents ->
  filtered_docs data date_range department_filter doc_type_filter = Ok docs ->
  exists keep, docs = select documents keep.
Proof.
  intros Hget. unfold filtered_docs, filter_table. rewrite Hget.
  destruct (filter_data date_range documents "created_at") as [d1|e] eqn:E1;
    cbn [bind]; [|discriminate].
  destruct (match dict_get "announcements" data with
            | Some df => filter_data date_range df "created_at"
            | None => Ok empty_frame
            end); cbn [bind]; [|discriminate].
  destruct (match dict_get "notifications" data with
            | Some df => filter_data date_range df "created_at"
            | None => Ok empty_frame
            end); cbn [bind]; [|discriminate].
  destruct (apply_department_filter data department_filter d1) as [d2|e]
    eqn:E2; cbn [bind]; [|discriminate].
  intros E. apply Ok_inj in E.
  apply filter_data_selects in E1 as [k1 ->].
  apply apply_department_filter_selects in E2 as [k2 ->].
  destruct (apply_doc_type_filter_selects doc_type_filter
              (select (select documents k1) k2)) as [k3 Hk3].
  rewrite Hk3, !select_select in E. subst docs. eauto.
Qed.

(** A selection holds, in each column, cells of the table it selects
    from. *)
Lemma column_select (df : DataFrame) (keep : row -> bool) (c : string)
    (v : value) :
  In v (column (select df keep) c) -> In v (column df c).
Proof.
  unfold column, select, row_get. cbn [columns rows]. intros H.
  apply in_map_iff in H as (r & <- & Hr). apply filter_In in Hr as [Hr _].
  now apply (in_map (fun r => match index_of c (columns df) with
                              | Some i => nth i r VNone
                              | None => VNone
                              end)).
Qed.

End SelectionFacts.

(** X9. The filtered documents of the page are a selection of the rows of
    [data['documents']], in their order and with the same columns. So the
    number of filtered documents, and the sum of the counts of any of their
    breakdowns, never exceeds the metric "Total Documents". *)
Theorem filtered_docs_selects (data : dict) (date_range : list date)
    (department_filter doc_type_filter : list value)
    (documents docs : DataFrame) :
  dict_get "documents" data = Some documents ->
  filtered_docs data date_range department_filter doc_type_filter = Ok docs ->
  (exists keep, docs = select documents keep)
  /\ (len docs <= total_docs data)%nat
  /\ (forall c, (count_total (value_counts (column docs c))
                 <= total_docs data)%nat).
Proof.
  intros Hget H.
  destruct (filtered_docs_selection _ _ _ _ _ _ Hget H) as [keep ->].
  assert (Hlen : (len (select documents keep) <= total_docs data)%nat).
  { unfold total_docs. rewrite Hget. unfold len, select.
    cbn [rows]. apply filter_length_le. }
  split; [eauto|]. split; [apply Hlen|].
  intros c. rewrite count_total_value_counts.
  eapply Nat.le_trans; [apply filter_length_le|].
  unfold column. rewrite length_map. apply Hlen.
Qed.

Lemma filtered_docs_selects_witness :
  dict_get "documents" Samples.data = Some Samples.documents
  /\ (len Samples.filtered_documents <= total_docs Samples.data)%nat.
Proof.
  split; [reflexivity|].
  apply (proj1 (proj2 (filtered_docs_selects Samples.data Samples.january
                         [VStr (lit "HR")] [VStr (lit "Memo")]
                         Samples.documents _ eq_refl eq_refl))).
Defined.

(** X10. The metric "Active Documents" never exceeds "Total Documents",
    and it is 0 when the documents are missing or have no column
    [status]. *)
Theorem active_docs_bounded (data : dict) :
  (active_docs data <= total_docs data)%nat
  /\ (table_has_column data "documents" "status" = false ->
      active_docs data = 0%nat).
Proof.
  unfold active_docs, total_docs, table_has_column.
  destruct (dict_get "documents" data) as [documents|]; [|split; auto].
  destruct (has_column "status" documents).
  - split; [apply filter_length_le | discriminate].
  - split; [lia | reflexivity].
Qed.

Lemma active_docs_bounded_witness :
  table_has_column [("documents", Samples.untyped_documents)]%string
                   "documents" "status" = false
  /\ active_docs [("documents", Samples.untyped_documents)]%string = 0%nat.
Proof.
  split; [reflexivity|].
  apply (proj2 (active_docs_bounded
                  [("documents", Samples.untyped_documents)]%string)).
  reflexivity.
Defined.

(** X11. Filtering twice with the same date range changes nothing more:
    what [filter_data] returned, it returns again when it is given its own
    result. *)
Theorem filter_data_idempotent (date_range : list date) (df df' : DataFrame)
    (date_col : string) :
  filter_data date_range df date_col = Ok df' ->
  filter_data date_range df' date_col = Ok df'.
Proof.
  intros H.
  destruct (filter_data_result _ _ _ _ H)
    as [-> | (start & stop & -> & Hcol & Hnum & Hok & ->)]; [exact H|].
  set (mask := date_mask df date_col (to_datetime start) (to_datetime stop)).
  assert (Hok' :
    forallb (fun v => is_ok (cmp_timestamp true (to_datetime start) v))
            (column (select df mask) date_col) = true
    /\ forallb (fun v => is_ok (cmp_timestamp false (to_datetime stop) v))
               (column (select df mask) date_col) = true).
  { unfold column in *. cbn [rows select].
    rewrite !forallb_forall in *.
    split; intros v Hv; apply in_map_iff in Hv as (r & <- & Hr);
      apply filter_In in Hr as [Hr _];
      assert (Hin : In (row_get df r date_col VNone)
                       (map (fun r => row_get df r date_col VNone) (rows df)))
        by (exact (in_map (fun r => row_get df r date_col VNone) _ _ Hr));
      apply Hok in Hin; apply andb_true_iff in Hin; tauto. }
  destruct Hok' as [Hok1 Hok2].
  unfold filter_data.
  replace (has_column date_col (select df mask)) with true
    by (symmetry; exact Hcol).
  cbn [List.length Nat.eqb andb getitem nth_error bind].
  unfold compare_column. cbn [columns select].
  destruct (dtype_of date_col (columns df)) as [d|] eqn:Hd.
  2:{ apply has_column_dtype in Hcol as [d Hd']. congruence. }
  fold (select df mask).
  destruct d; [congruence| |];
    rewrite (map_result_all_ok _ _ Hok1), (map_result_all_ok _ _ Hok2);
    cbn [bind]; unfold loc, column; rewrite loc_rows_filter;
    unfold select; cbn [rows columns]; f_equal; f_equal;
    rewrite filter_filter_and; apply filter_ext; intros r;
    unfold mask, date_mask, row_get; cbn [columns];
    now rewrite andb_diag.
Qed.

Lemma filter_data_idempotent_witness :
  filter_data [19723; 19724] Samples.documents "created_at"
  = Ok (select Samples.documents
          (date_mask Samples.documents "created_at" (to_datetime 19723)
                     (to_datetime 19724)))
  /\ filter_data [19723; 19724]
       (select Samples.documents
          (date_mask Samples.documents "created_at" (to_datetime 19723)
                     (to_datetime 19724))) "created_at"
     = Ok (select Samples.documents
             (date_mask Samples.documents "created_at" (to_datetime 19723)
                        (to_datetime 19724))).
Proof.
  assert (H : filter_data [19723; 19724] Samples.documents "created_at"
              = Ok (select Samples.documents
                      (date_mask Samples.documents "created_at"
                                 (to_datetime 19723) (to_datetime 19724))))
    by reflexivity.
  split; [exact H|].
  exact (filter_data_idempotent _ _ _ _ H).
Defined.

(** ** The breakdowns *)

Section TallyFacts.

Lemma pystr_eqb_eq (a b : pystr) : pystr_eqb a b = true <-> a = b.
Proof.
  unfold pystr_eqb. destruct (list_eq_dec N.eq_dec a b); split;
    congruence.
Qed.

Lemma value_eqb_eq (a b : value) : value_eqb a b = true <-> a = b.
Proof.
  destruct a, b; simpl; try (split; [discriminate | congruence]);
    try (split; reflexivity).
  - rewrite Z.eqb_eq. split; congruence.
  - rewrite pystr_eqb_eq. split; congruence.
  - rewrite Z.eqb_eq. split; congruence.
Qed.

Lemma value_eqb_refl (a : value) : value_eqb a a = true.
Proof. now apply value_eqb_eq. Qed.

Lemma value_eqb_neq (a b : value) : a <> b -> value_eqb a b = false.
Proof.
  intros H. destruct (value_eqb a b) eqn:E; [|reflexivity].
  now apply value_eqb_eq in E.
Qed.

Lemma value_eqb_dec (a b : value) :
  (a = b /\ value_eqb a b = true) \/ (a <> b /\ value_eqb a b = false).
Proof.
  destruct (value_eqb a b) eqn:E.
  - left. split; [now apply value_eqb_eq | reflexivity].
  - right. split; [|reflexivity]. intros ->.
    rewrite value_eqb_refl in E. discriminate.
Qed.

(** One more occurrence of [w] raises the count of [w] and of nothing
    else. *)
Lemma counted_count_add (v w : value) (acc : list (value * nat)) :
  counted v (count_add w acc)
  = (counted v acc + if value_eqb v w then 1 else 0)%nat.
Proof.
  induction acc as [|[k n] acc IH]; cbn [count_add counted].
  - destruct (value_eqb v w); reflexivity.
  - destruct (value_eqb_dec w k) as [[-> E]|[Hne E]]; rewrite E;
      cbn [counted].
    + destruct (value_eqb v k); lia.
    + destruct (value_eqb_dec v k) as [[-> E']|[Hne' E']]; rewrite E'.
      * rewrite (value_eqb_neq k w) by congruence. lia.
      * apply IH.
Qed.

(** The keys of a tally: [w] comes last when it is new. *)
Lemma keys_count_add (w : value) (acc : list (value * nat)) :
  map fst (count_add w acc)
  = if existsb (value_eqb w) (map fst acc) then map fst acc
    else map fst acc ++ [w].
Proof.
  induction acc as [|[k n] acc IH]; cbn [count_add map fst existsb app];
    [reflexivity|].
  destruct (value_eqb w k); cbn [map fst orb]; [reflexivity|].
  rewrite IH. now destruct (existsb (value_eqb w) (map fst acc)).
Qed.

Lemma existsb_value_eqb (w : value) (l : list value) :
  existsb (value_eqb w) l = true <-> In w l.
Proof.
  rewrite existsb_exists. split.
  - intros (k & Hk & E). apply value_eqb_eq in E. now subst k.
  - intros H. exists w. split; [exact H | apply value_eqb_refl].
Qed.

Lemma tally_ok_count_add (w : value) (acc : list (value * nat)) :
  is_null w = false -> tally_ok acc -> tally_ok (count_add w acc).
Proof.
  intros Hw [Hnd Hall]. split.
  - rewrite keys_count_add.
    destruct (existsb (value_eqb w) (map fst acc)) eqn:E; [exact Hnd|].
    assert (Hnot : ~ In w (map fst acc)).
    { intros Hin. apply existsb_value_eqb in Hin. congruence. }
    apply NoDup_app; [exact Hnd | repeat constructor; simpl; tauto |].
    intros k Hk [<-|[]]. contradiction.
  - clear Hnd. induction acc as [|[k n] acc IH]; cbn [count_add].
    + constructor; [split; [exact Hw | cbn; lia] | constructor].
    + inversion Hall as [|? ? [Hk Hn] Hall']; subst. cbn [fst snd] in *.
      destruct (value_eqb w k).
      * constructor; [split; [exact Hk | cbn; lia] | exact Hall'].
      * constructor; [now split | now apply IH].
Qed.

Lemma tally_ok_fold (l : list value) (acc : list (value * nat)) :
  tally_ok acc ->
  tally_ok (fold_left (fun acc v => if is_null v then acc else count_add v acc)
                      l acc).
Proof.
  revert acc. induction l as [|v l IH]; intros acc H; [exact H|].
  cbn [fold_left]. apply IH. destruct (is_null v) eqn:E; [exact H|].
  now apply tally_ok_count_add.
Qed.

Lemma counted_fold (v : value) (l : list value) (acc : list (value * nat)) :
  is_null v = false ->
  counted v (fold_left (fun acc v => if is_null v then acc else count_add v acc)
                       l acc)
  = (counted v acc + occurrences v l)%nat.
Proof.
  intros Hv. revert acc. unfold occurrences.
  induction l as [|w l IH]; intros acc; cbn [fold_left filter]; [cbn; lia|].
  rewrite IH. destruct (value_eqb_dec v w) as [[<- E]|[Hne E]]; rewrite E.
  - rewrite Hv, counted_count_add, value_eqb_refl. cbn [List.length]. lia.
  - destruct (is_null w); [reflexivity|].
    rewrite counted_count_add, E. lia.
Qed.

(** In a tally with distinct keys an entry is what [counted] reads. *)
Lemma counted_in (v : value) (n : nat) (acc : list (value * nat)) :
  NoDup (map fst acc) -> In (v, n) acc -> counted v acc = n.
Proof.
  induction acc as [|[k m] acc IH]; intros Hnd Hin; [contradiction|].
  inversion Hnd as [|? ? Hnotin Hnd']; subst. cbn [counted].
  destruct Hin as [E|Hin].
  - injection E as -> ->. now rewrite value_eqb_refl.
  - destruct (value_eqb_dec v k) as [[-> E]|[Hne E]]; rewrite E.
    + exfalso. apply Hnotin. apply in_map_iff. now exists (k, n).
    + now apply IH.
Qed.

Lemma in_counted (v : value) (acc : list (value * nat)) :
  (0 < counted v acc)%nat -> In (v, counted v acc) acc.
Proof.
  induction acc as [|[k m] acc IH]; cbn [counted]; [lia|].
  destruct (value_eqb_dec v k) as [[-> E]|[Hne E]]; rewrite E.
  - intros _. now left.
  - intros H. right. now apply IH.
Qed.

Lemma insert_by_count_perm (x : value * nat) (l : list (value * nat)) :
  Permutation (insert_by_count x l) (x :: l).
Proof.
  induction l as [|y l IH]; cbn [insert_by_count]; [reflexivity|].
  destruct (snd y <=? snd x)%nat; [reflexivity|].
  rewrite IH. apply perm_swap.
Qed.

Lemma sort_by_count_perm (l : list (value * nat)) :
  Permutation (sort_by_count l) l.
Proof.
  induction l as [|x l IH]; cbn [sort_by_count fold_right]; [reflexivity|].
  fold (sort_by_count l). rewrite insert_by_count_perm. now constructor.
Qed.

Lemma insert_by_count_sorted (x : value * nat) (l : list (value * nat)) :
  StronglySorted count_ge l -> StronglySorted count_ge (insert_by_count x l).
Proof.
  induction l as [|y l IH]; intros Hs; cbn [insert_by_count].
  - repeat constructor.
  - inversion Hs as [|? ? Hl Hy]; subst.
    destruct (Nat.leb_spec (snd y) (snd x)) as [Hle|Hgt].
    + constructor; [exact Hs|]. constructor; [exact Hle|].
      eapply Forall_impl; [|exact Hy]. unfold count_ge. intros z Hz. lia.
    + constructor; [now apply IH|].
      eapply Permutation_Forall; [symmetry; apply insert_by_count_perm|].
      constructor; [unfold count_ge; lia | exact Hy].
Qed.

Lemma sort_by_count_sorted (l : list (value * nat)) :
  StronglySorted count_ge (sort_by_count l).
Proof.
  induction l as [|x l IH]; cbn [sort_by_count fold_right]; [constructor|].
  now apply insert_by_count_sorted.
Qed.

(** The tally of a column has distinct keys, none of them null, and reads
    the number of occurrences of each. *)
Lemma tally_counts (s : list value) :
  NoDup (map fst (tally s))
  /\ Forall (fun e => is_null (fst e) = false /\ (0 < snd e)%nat) (tally s)
  /\ (forall v, is_null v = false -> counted v (tally s) = occurrences v s).
Proof.
  assert (Hok : tally_ok (tally s))
    by (apply tally_ok_fold; split; constructor).
  destruct Hok as [Hnd Hall]. repeat split; try assumption.
  intros v Hv. unfold tally. now rewrite counted_fold.
Qed.

Lemma in_value_counts (s : list value) (v : value) (n : nat) :
  In (v, n) (value_counts s)
  <-> is_null v = false /\ n = occurrences v s /\ (0 < n)%nat.
Proof.
  unfold value_counts. destruct (tally_counts s) as (Hnd & Hall & Hcount).
  split.
  - intros Hin.
    apply (Permutation_in _ (sort_by_count_perm (tally s))) in Hin.
    rewrite Forall_forall in Hall. destruct (Hall _ Hin) as [Hv Hn].
    cbn [fst snd] in *. split; [exact Hv|]. split; [|exact Hn].
    rewrite <- (Hcount v Hv). symmetry. now apply counted_in.
  - intros (Hv & -> & Hn).
    apply (Permutation_in _ (Permutation_sym
                               (sort_by_count_perm (tally s)))).
    rewrite <- (Hcount v Hv) in *. now apply in_counted.
Qed.

End TallyFacts.




(** ** The joins of the loader *)

Section JoinFacts.

Lemma flat_map_length_ge {A B} (f : A -> list B) (l : list A) :
  (forall a, (1 <= List.length (f a))%nat) ->
  (List.length l <= List.length (flat_map f l))%nat.
Proof.
  intros H. induction l as [|a l IH]; cbn [flat_map List.length]; [lia|].
  rewrite length_app. specialize (H a). lia.
Qed.

Lemma flat_map_length_eq {A B} (f : A -> list B) (l : list A) :
  (forall a, List.length (f a) = 1%nat) ->
  List.length (flat_map f l) = List.length l.
Proof.
  intros H. induction l as [|a l IH]; cbn [flat_map List.length]; [lia|].
  rewrite length_app, H, IH. lia.
Qed.

(** The rows of a left join: each left row in turn, once with the cells
    [fill] when no right row matches its key, and once per matching right
    row otherwise. *)
Lemma merge_left_rows (left right merged : DataFrame) (lk rk : string)
    (suffixes : string * string) :
  merge_left left right lk rk suffixes = Ok merged ->
  exists (fill : row) (adjust : row -> row),
    rows merged
    = flat_map
        (fun l => match matching_rows right rk (row_get left l lk VNone) with
                  | [] => [l ++ fill]
                  | ms => map (fun r => l ++ adjust r) ms
                  end)
        (rows left).
Proof.
  unfold merge_left.
  destruct (index_of lk (columns left)) as [li|] eqn:Hl; [|discriminate].
  destruct (index_of rk (columns right)) as [ri|] eqn:Hr; [|discriminate].
  destruct (merge_refused left right lk rk); [discriminate|].
  intros E. apply Ok_inj in E. subst merged. cbn [rows].
  eexists. exists (fun r => if String.eqb lk rk then remove_nth ri r else r).
  apply flat_map_ext. intros l. unfold matching_rows, row_get.
  rewrite Hl, Hr. reflexivity.
Qed.

Lemma merge_left_keeps_rows (left right merged : DataFrame) (lk rk : string)
    (suffixes : string * string) :
  merge_left left right lk rk suffixes = Ok merged ->
  (forall l, In l (rows left) -> exists rest, In (l ++ rest) (rows merged))
  /\ (forall m, In m (rows merged) ->
                exists l rest, In l (rows left) /\ m = l ++ rest)
  /\ (len left <= len merged)%nat
  /\ (unique_key right rk -> len merged = len left).
Proof.
  intros H. apply merge_left_rows in H as (fill & adjust & H).
  unfold len. rewrite H. repeat split.
  - intros l Hl.
    destruct (matching_rows right rk (row_get left l lk VNone))
      as [|m ms] eqn:E.
    + exists fill. apply in_flat_map. exists l. split; [exact Hl|].
      rewrite E. now left.
    + exists (adjust m). apply in_flat_map. exists l. split; [exact Hl|].
      rewrite E. now left.
  - intros m Hm. apply in_flat_map in Hm as (l & Hl & Hm). exists l.
    destruct (matching_rows right rk (row_get left l lk VNone)) as [|x ms].
    + destruct Hm as [<-|[]]. eauto.
    + apply in_map_iff in Hm as (r & <- & _). eauto.
  - apply flat_map_length_ge. intros l.
    destruct (matching_rows right rk (row_get left l lk VNone));
      cbn [map List.length]; lia.
  - intros Hu. apply flat_map_length_eq. intros l.
    specialize (Hu (row_get left l lk VNone)).
    destruct (matching_rows right rk (row_get left l lk VNone))
      as [|x [|y ms]]; cbn [map List.length] in *; lia.
Qed.

(** What [load_data] did when it returns the mapping: the engine, the
    tables read, and the two joins. *)
Lemma load_data_tables (engine : Type)
    (create_engine : string -> result engine)
    (read_sql : string -> engine -> result DataFrame) (data : dict) :
  load_data engine create_engine read_sql = Some data ->
  exists eng users documents types departments merged_docs merged_users,
    create_engine db_url = Ok eng
    /\ read_sql "SELECT * FROM dms_user"%string eng = Ok users
    /\ read_sql "SELECT * FROM dms_documents"%string eng = Ok documents
    /\ read_sql "SELECT * FROM document_types"%string eng = Ok types
    /\ read_sql "SELECT * FROM departments"%string eng = Ok departments
    /\ merge_left documents types "doc_type" "type_id"
                  ("_x"%string, "_y"%string) = Ok merged_docs
    /\ merge_left users departments "department_id" "department_id"
                  ("_user"%string, "_dept"%string) = Ok merged_users
    /\ dict_get "documents"%string data = Some merged_docs
    /\ dict_get "users"%string data = Some merged_users.
Proof.
  unfold load_data, init_connection, try_or_none.
  destruct (create_engine db_url) as [eng|e] eqn:He; [|discriminate].
  unfold load_tables.
  destruct (read_sql "SELECT * FROM dms_user"%string eng)
    as [users|e] eqn:E1; cbn [bind]; [|discriminate].
  destruct (read_sql "SELECT * FROM dms_documents"%string eng)
    as [documents|e] eqn:E2; cbn [bind]; [|discriminate].
  destruct (read_sql "SELECT * FROM document_types"%string eng)
    as [types|e] eqn:E3; cbn [bind]; [|discriminate].
  destruct (read_sql "SELECT * FROM departments"%string eng)
    as [departments|e] eqn:E4; cbn [bind]; [|discriminate].
  destruct (read_sql "SELECT * FROM announcements"%string eng);
    cbn [bind]; [|discriminate].
  destruct (read_sql "SELECT * FROM notifications"%string eng);
    cbn [bind]; [|discriminate].
  destruct (read_sql "SELECT * FROM dms_document_versions"%string eng);
    cbn [bind]; [|discriminate].
  destruct (read_sql "SELECT * FROM document_departments"%string eng);
    cbn [bind]; [|discriminate].
  destruct (merge_left documents types "doc_type"%string "type_id"%string _)
    as [merged_docs|e] eqn:M1; cbn [bind]; [|discriminate].
  destruct (merge_left users departments "department_id"%string
              "department_id"%string _)
    as [merged_users|e] eqn:M2; cbn [bind]; [|discriminate].
  intros [= <-].
  exists eng, users, documents, types, departments, merged_docs, merged_users.
  repeat split; assumption || reflexivity.
Qed.

End JoinFacts.

(** X13. The two left joins of [load_data] lose nothing: every row read
    from [dms_documents] and from [dms_user] is the beginning of a row of
    the table handed out, and every row handed out begins with such a row.
    The tables grow only when a type id or a department id is held by two
    rows of its table; with unique ids the numbers of rows are those
    read. *)
Theorem load_data_keeps_rows (engine : Type)
    (create_engine : string -> result engine)
    (read_sql : string -> engine -> result DataFrame) (data : dict) :
  load_data engine create_engine read_sql = Some data ->
  exists eng users documents types departments merged_docs merged_users,
    create_engine db_url = Ok eng
    /\ read_sql "SELECT * FROM dms_user"%string eng = Ok users
    /\ read_sql "SELECT * FROM dms_documents"%string eng = Ok documents
    /\ read_sql "SELECT * FROM document_types"%string eng = Ok types
    /\ read_sql "SELECT * FROM departments"%string eng = Ok departments
    /\ dict_get "documents"%string data = Some merged_docs
    /\ dict_get "users"%string data = Some merged_users
    /\ (forall r, In r (rows documents) ->
                  exists rest, In (r ++ rest) (rows merged_docs))
    /\ (forall m, In m (rows merged_docs) ->
                  exists r rest, In r (rows documents) /\ m = r ++ rest)
    /\ (forall r, In r (rows users) ->
                  exists rest, In (r ++ rest) (rows merged_users))
    /\ (forall m, In m (rows merged_users) ->
                  exists r rest, In r (rows users) /\ m = r ++ rest)
    /\ (len documents <= len merged_docs)%nat
    /\ (len users <= len merged_users)%nat
    /\ (unique_key types "type_id"%string -> len merged_docs = len documents)
    /\ (unique_key departments "department_id"%string ->
        len merged_users = len users).
Proof.
  intros H. apply load_data_tables in H
    as (eng & users & documents & types & departments & merged_docs
        & merged_users & He & E1 & E2 & E3 & E4 & M1 & M2 & G1 & G2).
  apply merge_left_keeps_rows in M1 as (D1 & D2 & D3 & D4).
  apply merge_left_keeps_rows in M2 as (U1 & U2 & U3 & U4).
  exists eng, users, documents, types, departments, merged_docs, merged_users.
  repeat split; assumption.
Qed.

Lemma load_data_keeps_rows_witness :
  load_data unit Samples.create_engine Samples.read_sql = Some Samples.data
  /\ exists merged_docs,
       dict_get "documents"%string Samples.data = Some merged_docs
       /\ (len Samples.dms_documents <= len merged_docs)%nat.
Proof.
  split; [reflexivity|].
  destruct (load_data_keeps_rows unit Samples.create_engine Samples.read_sql
              Samples.data eq_refl)
    as (eng & users & documents & types & departments & merged_docs
        & merged_users & _ & _ & Hdocs & _ & _ & Hget & _ & _ & _ & _ & _
        & Hlen & _).
  exists merged_docs. split; [exact Hget|].
  destruct eng. cbv in Hdocs. apply Ok_inj in Hdocs. subst documents.
  exact Hlen.
Defined.

(** A type id held by two rows of [document_types] doubles the documents
    of that type: the five sample documents, four of them with a known
    type, become nine. *)
Example merge_left_duplicates_rows :
  len Samples.dms_documents = 5%nat
  /\ option_map len
       (try_or_none
          (merge_left Samples.dms_documents
             {| columns := columns Samples.document_types;
                rows := rows Samples.document_types
                        ++ rows Samples.document_types |}
             "doc_type"%string "type_id"%string ("_x", "_y")%string))
     = Some 9%nat.
Proof. split; reflexivity. Qed.

(** A table without rows is read with object columns, and its keys are
    not checked against those of the other side. Without document types
    the five documents are handed out with a null [name]; without
    documents the joined table has the columns of both sides and no row.
    Type ids kept as text do not merge with the numbers of [doc_type], and
    type ids kept as integers in an object column do. *)
Example load_data_tables_without_rows :
  option_map
    (fun d => option_map (fun df => (len df, column df "name"))
                         (dict_get "documents" d))
    (load_data unit Samples.create_engine Samples.read_sql_no_types)
  = Some (Some (5%nat, [VNaN; VNaN; VNaN; VNaN; VNaN]))
  /\ option_map
       (fun d => option_map (fun df => (len df, map fst (columns df)))
                            (dict_get "documents" d))
       (load_data unit Samples.create_engine Samples.read_sql_no_documents)
     = Some (Some (0%nat,
                   ["doc_id"; "title"; "doc_type"; "status";
                    "department_id"; "created_at"; "type_id";
                    "name"]%string))
  /\ merge_left Samples.dms_documents Samples.text_document_types
                "doc_type" "type_id" ("_x", "_y")%string
     = Raise ValueError
  /\ option_map len
       (try_or_none
          (merge_left Samples.dms_documents
             {| columns := [("type_id", DObject); ("name", DObject)]%string;
                rows := [[VInt 1; VStr (lit "Memo")]] |}
             "doc_type" "type_id" ("_x", "_y")%string))
     = Some 5%nat.
Proof. repeat split; reflexivity. Qed.

(** ** The page: the table shown, the chart of users, the download *)

Section ViewFacts.

Lemma find_none {A} (f : A -> bool) (l : list A) :
  (forall a, In a l -> f a = false) -> find f l = None.
Proof.
  induction l as [|a l IH]; intros H; [reflexivity|]. cbn [find].
  rewrite (H a (or_introl eq_refl)). apply IH. intros b Hb. apply H.
  now right.
Qed.

(** The position of a column in a frame built from a list of names. *)
Lemma index_of_named (f : string -> dtype) (c : string) (cols : list string)
    (i : nat) :
  index_of c (map (fun c => (c, f c)) cols) = Some i ->
  nth_error cols i = Some c.
Proof.
  revert i. induction cols as [|n cols IH]; intros i; cbn [map index_of];
    [discriminate|].
  destruct (String.eqb_spec c n) as [->|Hne].
  - now intros [= <-].
  - destruct (index_of c (map (fun c => (c, f c)) cols)) as [j|];
      [|discriminate].
    intros [= <-]. now apply IH.
Qed.

Lemma index_of_named_some (f : string -> dtype) (c : string)
    (cols : list string) :
  In c cols -> exists i, index_of c (map (fun c => (c, f c)) cols) = Some i.
Proof.
  induction cols as [|n cols IH]; [contradiction|]. cbn [map index_of].
  intros Hin. destruct (String.eqb_spec c n) as [->|Hne]; [eauto|].
  destruct Hin as [->|Hin]; [contradiction|].
  destruct (IH Hin) as [i ->]. cbn [option_map]. eauto.
Qed.

Lemma nth_map_error {A B} (g : A -> B) (l : list A) (i : nat) (a : A)
    (d : B) :
  nth_error l i = Some a -> nth i (map g l) d = g a.
Proof.
  revert i. induction l as [|x l IH]; intros [|i]; cbn; try discriminate.
  - now intros [= ->].
  - apply IH.
Qed.

(** [df[cols]] for known columns: the frame, and its columns cell by
    cell. *)
Lemma getitem_columns_known (df : DataFrame) (cols : list string) :
  (forall c, In c cols -> has_column c df = true) ->
  exists view,
    getitem_columns df cols = Ok view
    /\ column_names (columns view) = cols
    /\ len view = len df
    /\ forall c, In c cols -> column view c = column df c.
Proof.
  intros Hall. unfold getitem_columns. rewrite find_none.
  2:{ intros c Hc. now rewrite (Hall c Hc). }
  eexists. split; [reflexivity|]. unfold column_names, len, column.
  cbn [columns rows]. rewrite !map_map, length_map. cbn [fst].
  split; [apply map_id|]. split; [reflexivity|].
  intros c Hc. rewrite map_map. apply map_ext. intros r.
  unfold row_get at 1. cbn [columns].
  destruct (index_of_named_some
              (fun c => match dtype_of c (columns df) with
                        | Some d => d
                        | None => DObject
                        end) c cols Hc) as [i Hi].
  rewrite Hi. apply index_of_named in Hi.
  apply (nth_map_error (fun c => row_get df r c VNone) cols i c VNone Hi).
Qed.

(** Sorted lists, cut in two. *)
Lemma in_skipn {A} (n : nat) (l : list A) (x : A) :
  In x (skipn n l) -> In x l.
Proof.
  revert n. induction l as [|a l IH]; intros [|n]; cbn; auto.
  intros H. right. now apply (IH n).
Qed.

Lemma sorted_firstn {A} (R : A -> A -> Prop) (n : nat) (l : list A) :
  StronglySorted R l -> StronglySorted R (firstn n l).
Proof.
  intros Hs. revert n. induction Hs as [|a l Hs IH Ha]; intros [|n];
    cbn [firstn]; try constructor.
  - apply IH.
  - rewrite Forall_forall in *. intros x Hx. apply Ha.
    now apply in_firstn in Hx.
Qed.

Lemma sorted_firstn_skipn {A} (R : A -> A -> Prop) (n : nat) (l : list A)
    (x y : A) :
  StronglySorted R l -> In x (firstn n l) -> In y (skipn n l) -> R x y.
Proof.
  intros Hs. revert n. induction Hs as [|a l Hs IH Ha]; intros [|n];
    cbn [firstn skipn]; try contradiction.
  intros [<-|Hx] Hy.
  - rewrite Forall_forall in Ha. apply Ha. now apply in_skipn in Hy.
  - now apply (IH n).
Qed.

Lemma in_firstn_or_skipn {A} (n : nat) (l : list A) (x : A) :
  In x l -> In x (firstn n l) \/ In x (skipn n l).
Proof.
  intros H. rewrite <- (firstn_skipn n l) in H. now apply in_app_or in H.
Qed.

End ViewFacts.

(** X14. The table of the tab "Raw Data": for filtered documents that are
    not empty, [filtered_docs[display_cols]] never raises [KeyError]. The
    table shown has every filtered document, its columns are those of the
    six display names that the documents have, in the order of the source,
    and each of them holds the same cells as in the filtered documents. *)
Theorem documents_view_shows_known_columns (docs : DataFrame) :
  empty docs = false ->
  exists view,
    documents_view docs = Some (Ok view)
    /\ len view = len docs
    /\ column_names (columns view)
       = filter (fun c => has_column c docs) document_display_names
    /\ (forall c, In c (column_names (columns view)) ->
                  In c document_display_names
                  /\ column view c = column docs c).
Proof.
  intros He. unfold documents_view. rewrite He. cbn [negb].
  destruct (getitem_columns_known docs
              (display_cols document_display_names docs))
    as (view & Hv & Hnames & Hlen & Hcols).
  { intros c Hc. now apply filter_In in Hc. }
  exists view. split; [now rewrite Hv|]. split; [exact Hlen|].
  split; [exact Hnames|]. intros c Hc. rewrite Hnames in Hc.
  split; [now apply filter_In in Hc | now apply Hcols].
Qed.

Lemma documents_view_shows_known_columns_witness :
  empty Samples.documents = false
  /\ exists view,
       documents_view Samples.documents = Some (Ok view)
       /\ len view = len Samples.documents.
Proof.
  split; [reflexivity|].
  destruct (documents_view_shows_known_columns Samples.documents eq_refl)
    as (view & Hv & Hlen & _).
  exists view. split; [exact Hv | exact Hlen].
Defined.

(** X15. The chart "Top 10 Users by Document Creation": at most ten bars,
    in descending order of their heights; a bar stands for a name that is
    not null and is as high as the number of filtered documents with that
    name; and a name left out has no more documents than any name shown. *)
Theorem user_activity_top10 (docs : DataFrame) (bars : list (value * nat)) :
  user_activity docs = Some bars ->
  let names := column docs "created_by_name" in
  List.length bars = Nat.min 10 (List.length (value_counts names))
  /\ StronglySorted count_ge bars
  /\ (forall v n, In (v, n) bars ->
                  is_null v = false /\ n = occurrences v names /\ (0 < n)%nat)
  /\ (forall shown v,
        In shown bars -> is_null v = false -> In v names ->
        ~ In v (map fst bars) ->
        (occurrences v names <= snd shown)%nat).
Proof.
  unfold user_activity.
  destruct (negb (empty docs) && has_column "created_by_name" docs);
    [|discriminate].
  intros E. assert (E' : bars = firstn 10 (value_counts
                                             (column docs "created_by_name")))
    by congruence.
  clear E. subst bars. cbv zeta.
  set (names := column docs "created_by_name").
  split; [apply length_firstn|].
  split; [apply sorted_firstn, sort_by_count_sorted|].
  split.
  - intros v n Hin. apply in_firstn in Hin. now apply in_value_counts.
  - intros shown v Hshown Hv Hin Hout.
    assert (Hocc : (0 < occurrences v names)%nat).
    { unfold occurrences. apply in_split in Hin as (l1 & l2 & ->).
      rewrite filter_app, length_app. cbn [filter].
      rewrite value_eqb_refl. cbn [List.length]. lia. }
    assert (Hc : In (v, occurrences v names) (value_counts names))
      by now apply in_value_counts.
    apply (in_firstn_or_skipn 10) in Hc as [Hc|Hc].
    + exfalso. apply Hout. apply in_map_iff.
      now exists (v, occurrences v names).
    + apply (sorted_firstn_skipn count_ge 10 (value_counts names)
               shown (v, occurrences v names)
               (sort_by_count_sorted _) Hshown Hc).
Qed.

Lemma user_activity_top10_witness :
  user_activity
    {| columns := [("created_by_name", DObject)]%string;
       rows := [[VStr (lit "ana")]; [VStr (lit "ben")]; [VStr (lit "ana")]] |}
  = Some [(VStr (lit "ana"), 2%nat); (VStr (lit "ben"), 1%nat)]
  /\ StronglySorted count_ge
       [(VStr (lit "ana"), 2%nat); (VStr (lit "ben"), 1%nat)].
Proof.
  split; [reflexivity|].
  apply (proj1 (proj2 (user_activity_top10
                         {| columns := [("created_by_name", DObject)]%string;
                            rows := [[VStr (lit "ana")]; [VStr (lit "ben")];
                                     [VStr (lit "ana")]] |}
                         _ eq_refl))).
Defined.

Section LinkFacts.

(** Replacing one character by another, read character by character. *)
Lemma replace_char (c d : codepoint) (s : pystr) :
  replace [c] [d] s = map (fun x => if (c =? x)%N then d else x) s.
Proof.
  unfold replace. induction s as [|x s IH]; [reflexivity|].
  cbn [replace_from starts_with List.length Nat.pred map app].
  rewrite andb_true_r. destruct (c =? x)%N; cbn [app]; now rewrite IH.
Qed.

Lemma list_ind3 {A} (P : list A -> Prop) :
  P [] -> (forall a, P [a]) -> (forall a b, P [a; b]) ->
  (forall a b c l, P l -> P (a :: b :: c :: l)) ->
  forall l, P l.
Proof.
  intros H0 H1 H2 H3 l.
  enough (H : P l /\ (forall a, P (a :: l)) /\ (forall a b, P (a :: b :: l)))
    by apply H.
  induction l as [|x l (IH0 & IH1 & IH2)]; [now repeat split|].
  repeat split; auto.
Qed.

Lemma b64_char_ok (sextet : N) :
  (sextet < 64)%N -> existsb (N.eqb (b64_char sextet)) b64_alphabet = true.
Proof.
  intros H. apply existsb_exists. exists (b64_char sextet).
  split; [|apply N.eqb_refl]. unfold b64_char. apply nth_In.
  assert (E : List.length b64_alphabet = 64%nat) by reflexivity.
  rewrite E. lia.
Qed.

Lemma is_b64_char_alphabet (c : codepoint) :
  existsb (N.eqb c) b64_alphabet = true -> is_b64_char c = true.
Proof. unfold is_b64_char. now intros ->. Qed.

Lemma is_b64_char_plain (c : codepoint) :
  is_b64_char c = true -> is_ascii_char c = true /\ c <> 34%N.
Proof.
  unfold is_b64_char. intros H. apply orb_true_iff in H as [H|H].
  - apply existsb_exists in H as (x & Hx & E). apply N.eqb_eq in E.
    subst x.
    assert (F : forallb (fun x => is_ascii_char x && negb (x =? 34)%N)
                        b64_alphabet = true) by reflexivity.
    rewrite forallb_forall in F. specialize (F c Hx).
    apply andb_true_iff in F as [F1 F2]. split; [exact F1|].
    intros ->. discriminate F2.
  - apply N.eqb_eq in H. subst c. split; [reflexivity | discriminate].
Qed.

Lemma is_b64_char_plain_quote (c : codepoint) :
  is_b64_char c = true -> c <> 34%N.
Proof. intros H. now apply is_b64_char_plain. Qed.

Lemma b64encode_length (bs : bytes) :
  List.length (b64encode bs) = (4 * ((List.length bs + 2) / 3))%nat.
Proof.
  induction bs as [| a | a b | a b c bs IH] using list_ind3;
    try reflexivity.
  cbn [b64encode List.length app]. rewrite IH.
  replace (S (S (S (List.length bs))) + 2)%nat
    with (1 * 3 + (List.length bs + 2))%nat by lia.
  rewrite Nat.div_add_l by lia. lia.
Qed.

(** The first three characters of a group are of the alphabet; the padding
    comes at the end only. *)
Lemma b64encode_chars (bs : bytes) :
  forallb is_byte bs = true -> forallb is_b64_char (b64encode bs) = true.
Proof.
  unfold is_byte.
  induction bs as [| a | a b | a b c bs IH] using list_ind3;
    cbn [forallb b64encode app]; intros H.
  - reflexivity.
  - rewrite !andb_true_iff, !N.ltb_lt in H. destruct H as (Ha & _).
    rewrite !andb_true_iff. repeat split; try reflexivity;
      apply is_b64_char_alphabet, b64_char_ok;
      [apply N.Div0.div_lt_upper_bound; lia | apply N.mod_lt; lia].
  - rewrite !andb_true_iff, !N.ltb_lt in H. destruct H as (Ha & Hb & _).
    rewrite !andb_true_iff. repeat split; try reflexivity;
      apply is_b64_char_alphabet, b64_char_ok;
      [apply N.Div0.div_lt_upper_bound; lia | apply N.mod_lt; lia
       | apply N.mod_lt; lia].
  - rewrite !andb_true_iff, !N.ltb_lt in H.
    destruct H as (Ha & Hb & Hc & H).
    rewrite !andb_true_iff. repeat split; try (now apply IH);
      apply is_b64_char_alphabet, b64_char_ok;
      [apply N.Div0.div_lt_upper_bound; lia | apply N.mod_lt; lia
       | apply N.mod_lt; lia | apply N.mod_lt; lia].
Qed.

Lemma count_occ_absent (x : N) (P : N -> bool) (s : list N) :
  (forall c, P c = true -> c <> x) -> forallb P s = true ->
  count_occ N.eq_dec s x = 0%nat.
Proof.
  intros HP Hs. apply count_occ_not_In. intros Hin.
  rewrite forallb_forall in Hs. now apply (HP x (Hs x Hin)).
Qed.

End LinkFacts.

(** X16. The name of the downloaded file is the report title with every
    space turned into an underscore, character by character, followed by
    ".pdf": it holds no space and is four characters longer than the
    title. *)
Theorem download_name_no_space (report_title : pystr) :
  download_name report_title
  = map (fun c => if (32 =? c)%N then 95%N else c) report_title ++ lit ".pdf"
  /\ ~ In 32%N (download_name report_title)
  /\ List.length (download_name report_title)
     = (List.length report_title + 4)%nat.
Proof.
  unfold download_name.
  change (lit " ") with [32%N]. change (lit "_") with [95%N].
  rewrite replace_char. split; [reflexivity|]. split.
  - intros H. apply in_app_or in H as [H|H].
    + apply in_map_iff in H as (c & E & _).
      destruct (N.eqb_spec 32 c); [discriminate E | congruence].
    + cbv in H. intuition discriminate.
  - rewrite length_app, length_map. reflexivity.
Qed.

(** X17. The download link: the payload of the [href] is four characters
    for every three bytes begun, all of the base64 alphabet or "=", so it
    holds no double quote and nothing outside ASCII. The file name is
    written as it is: the link has its four double quotes and those of the
    file name, which is not escaped. *)
Theorem create_download_link_payload (pdf_output : bytes) (filename : pystr) :
  forallb is_byte pdf_output = true ->
  List.length (b64encode pdf_output)
  = (4 * ((List.length pdf_output + 2) / 3))%nat
  /\ forallb is_b64_char (b64encode pdf_output) = true
  /\ count_occ N.eq_dec (create_download_link pdf_output filename) 34%N
     = (4 + count_occ N.eq_dec filename 34%N)%nat
  /\ is_ascii (create_download_link pdf_output filename) = is_ascii filename.
Proof.
  intros Hb. pose proof (b64encode_chars pdf_output Hb) as Hc.
  split; [apply b64encode_length|]. split; [exact Hc|].
  unfold create_download_link. cbn zeta. split.
  - rewrite !count_occ_app. change (@count_occ codepoint) with (@count_occ N).
    rewrite (count_occ_absent 34%N is_b64_char (b64encode pdf_output)
               is_b64_char_plain_quote Hc).
    generalize (count_occ N.eq_dec filename 34%N). intros n.
    cbn. lia.
  - rewrite !is_ascii_app.
    assert (Ha : is_ascii (b64encode pdf_output) = true).
    { apply forallb_forall. intros c Hin. rewrite forallb_forall in Hc.
      now apply is_b64_char_plain, Hc. }
    rewrite Ha. cbn. now rewrite andb_true_r.
Qed.

Lemma create_download_link_payload_witness :
  forallb is_byte [37; 80; 68; 70]%N = true
  /\ forallb is_b64_char (b64encode [37; 80; 68; 70]%N) = true.
Proof.
  split; [reflexivity|].
  apply (proj1 (proj2 (create_download_link_payload [37; 80; 68; 70]%N
                         (lit "report.pdf") eq_refl))).
Defined.

(** A report title with a double quote ends the attribute [download]
    early: the quote reaches the link as it is. *)
Example download_link_quote_not_escaped :
  create_download_link [] (download_name (lit "a" ++ dquote ++ lit " b"))
  = lit "<a href=" ++ dquote ++ lit "data:application/octet-stream;base64,"
      ++ dquote ++ lit " download=" ++ dquote ++ lit "a" ++ dquote
      ++ lit "_b.pdf" ++ dquote ++ lit ">Download PDF Report</a>".
Proof. reflexivity. Qed.

(** ** The report of the page *)

(** X18. The report of the page, made from the filtered documents: when
    the selections of the sidebar are ASCII and [created_at] of the
    documents holds no text outside ASCII, every text of the report is
    ASCII, whatever the filters keep. *)
Theorem generate_pdf_report_ascii (now : timestamp) (data : dict)
    (documents : DataFrame) (date_range : list date)
    (department_filter doc_type_filter : list value) (p : pdf) :
  dict_get "documents" data = Some documents ->
  forallb ascii_value (column documents "created_at") = true ->
  forallb ascii_value department_filter = true ->
  forallb ascii_value doc_type_filter = true ->
  generate_pdf_report now data date_range department_filter doc_type_filter
  = Ok p ->
  forallb is_ascii (texts (operations p)) = true.
Proof.
  intros Hget Hcol Hd Ht. unfold generate_pdf_report.
  destruct (filtered_docs data date_range department_filter doc_type_filter)
    as [docs|e] eqn:Hf; cbn [bind]; [|discriminate].
  destruct (filtered_docs_selection _ _ _ _ _ _ Hget Hf) as [keep ->].
  apply report_ascii_outside_metadata; try assumption.
  apply forallb_forall. intros v Hv. apply column_select in Hv.
  rewrite forallb_forall in Hcol. now apply Hcol.
Qed.

Lemma generate_pdf_report_ascii_witness :
  dict_get "documents" Samples.data = Some Samples.documents
  /\ forallb is_ascii (texts (operations Samples.filtered_report)) = true.
Proof.
  split; [reflexivity|].
  apply (generate_pdf_report_ascii Samples.now Samples.data Samples.documents
           Samples.january [VStr (lit "HR")] [VStr (lit "Memo")]
           Samples.filtered_report eq_refl eq_refl eq_refl eq_refl eq_refl).
Defined.

(** ** A column [name] on both sides of the join *)

Section SuffixFacts.

Lemma index_of_none (c : string) (cols : list (string * dtype)) :
  ~ In c (column_names cols) -> index_of c cols = None.
Proof.
  unfold column_names.
  induction cols as [|[n d] cols IH]; cbn [map fst index_of In];
    [reflexivity|].
  intros H. destruct (String.eqb_spec c n) as [->|Hne]; [tauto|].
  rewrite IH by tauto. reflexivity.
Qed.

Lemma has_column_name_in (c : string) (df : DataFrame) :
  has_column c df = true -> name_in c (column_names (columns df)) = true.
Proof.
  unfold has_column, name_in, column_names.
  induction (columns df) as [|[n d] cols IH]; cbn [index_of map fst existsb];
    [discriminate|].
  destruct (String.eqb c n); [reflexivity|]. cbn [orb].
  destruct (index_of c cols); [intros _; now apply IH | discriminate].
Qed.

(** No name with the suffix [_x] or [_y] is the name [name]. *)
Lemma suffix_not_name (c suffix : string) :
  suffix = "_x"%string \/ suffix = "_y"%string ->
  (c ++ suffix)%string <> "name"%string.
Proof.
  intros Hs H.
  do 4 (destruct c as [|? c]; cbn [String.append] in H;
        [destruct Hs; subst suffix; discriminate H | injection H as _ H]).
  destruct c; destruct Hs; subst suffix; discriminate H.
Qed.

(** A column that both sides have is renamed on each side. *)
Lemma suffixed_not_name (others : list string) (suffix : string)
    (cols : list (string * dtype)) :
  suffix = "_x"%string \/ suffix = "_y"%string ->
  name_in "name" others = true ->
  ~ In "name"%string (column_names (map (suffixed others None suffix) cols)).
Proof.
  intros Hs Hin H. unfold column_names in H. rewrite map_map in H.
  apply in_map_iff in H as ([n d] & E & _). unfold suffixed in E.
  cbn [fst snd] in E. rewrite andb_true_r in E.
  destruct (name_in n others) eqn:En; cbn [fst] in E.
  - now apply (suffix_not_name n suffix).
  - subst n. congruence.
Qed.

Lemma merge_left_name_clash (left right merged : DataFrame) :
  merge_left left right "doc_type" "type_id" ("_x"%string, "_y"%string)
  = Ok merged ->
  has_column "name" left = true -> has_column "name" right = true ->
  has_column "name" merged = false.
Proof.
  unfold merge_left.
  destruct (index_of "doc_type" (columns left)); [|discriminate].
  destruct (index_of "type_id" (columns right)); [|discriminate].
  destruct (merge_refused left right "doc_type" "type_id"); [discriminate|].
  intros E Hl Hr. apply Ok_inj in E. subst merged.
  unfold has_column. cbn [columns String.eqb Ascii.eqb Bool.eqb fst snd].
  rewrite index_of_none; [reflexivity|].
  unfold column_names. rewrite map_app. intros H.
  apply in_app_or in H as [H|H].
  - apply (suffixed_not_name (column_names (columns right)) "_x"
             (columns left)); auto using has_column_name_in.
  - apply (suffixed_not_name (column_names (columns left)) "_y"
             (columns right)); auto using has_column_name_in.
Qed.

End SuffixFacts.

(** X19. When the table [dms_documents] has a column [name] of its own,
    the join with [document_types] renames both columns, [name_x] and
    [name_y]: the documents handed out by [load_data] have no column
    [name], and the document-type filter leaves every table of their rows
    as it is, whatever is selected. *)
Theorem doc_type_filter_skipped_on_name_clash (engine : Type)
    (create_engine : string -> result engine)
    (read_sql : string -> engine -> result DataFrame) (data : dict)
    (eng : engine) (documents types : DataFrame) :
  load_data engine create_engine read_sql = Some data ->
  create_engine db_url = Ok eng ->
  read_sql "SELECT * FROM dms_documents"%string eng = Ok documents ->
  read_sql "SELECT * FROM document_types"%string eng = Ok types ->
  has_column "name" documents = true ->
  has_column "name" types = true ->
  exists merged,
    dict_get "documents"%string data = Some merged
    /\ has_column "name" merged = false
    /\ forall doc_type_filter keep,
         apply_doc_type_filter doc_type_filter (select merged keep)
         = select merged keep.
Proof.
  intros H He Hd Ht Hnd Hnt. apply load_data_tables in H
    as (eng' & users & documents' & types' & departments & merged_docs
        & merged_users & He' & _ & E2 & E3 & _ & M1 & _ & G1 & _).
  rewrite He in He'. apply Ok_inj in He'. subst eng'.
  rewrite Hd in E2. apply Ok_inj in E2. subst documents'.
  rewrite Ht in E3. apply Ok_inj in E3. subst types'.
  pose proof (merge_left_name_clash _ _ _ M1 Hnd Hnt) as Hm.
  exists merged_docs. split; [exact G1|]. split; [exact Hm|].
  intros sel keep. unfold apply_doc_type_filter.
  replace (has_column "name" (select merged_docs keep)) with false
    by (symmetry; exact Hm).
  now rewrite andb_false_r.
Qed.

Lemma doc_type_filter_skipped_on_name_clash_witness :
  load_data unit Samples.create_engine Samples.read_sql_named
  = Some Samples.named_data
  /\ has_column "name" Samples.named_documents = true
  /\ exists merged,
       dict_get "documents"%string Samples.named_data = Some merged
       /\ has_column "name" merged = false.
Proof.
  split; [reflexivity|]. split; [reflexivity|].
  destruct (doc_type_filter_skipped_on_name_clash unit Samples.create_engine
              Samples.read_sql_named Samples.named_data tt
              Samples.named_documents Samples.document_types
              eq_refl eq_refl eq_refl eq_refl eq_refl eq_refl)
    as (merged & Hget & Hname & _).
  exists merged. split; [exact Hget | exact Hname].
Defined.
